(** * Semantic search: query compilation, search, schema management, indexing

    A shallow embedding of
      - [dot-claude/skills/semantic-search/src/database.py]
        ([VectorDB], [load_table_config], [ConfigurableTableSearch],
        [ProductionDB]) and
      - [dot-claude/skills/semantic-search/src/cli.py] ([cmd_index],
        [cmd_find], [cmd_stats]).

    Conventions of the embedding.
      - Python [str] is [string], the bytes of its UTF-8 encoding; [int] is
        [Z]; a [float] is a real number or NaN ([Float]): the Python code
        never computes with floats, it only passes them on, and the store
        compares them.  Rounding, overflow and underflow are outside the
        model, and so are infinite floats and integers beyond the 64 bits
        of the [bigint] that a LIMIT is.
      - A [dict] whose order is observable (YAML mappings, result rows) is an
        association list in insertion order.
      - Exceptions are values of [Exception]; a function that may raise
        returns [Result A].  The message of a [DatabaseError] names what
        the store refused; it need not be the store's wording.
      - The SQL handed to [cursor.execute] is kept as a small syntax tree
        ([Statement]) whose rendering [query_text] is, character for
        character, the f-string of the source; the store reads that text
        and answers only if it reads back as the tree. *)

From Stdlib Require Import ZArith List String Ascii Reals Lra Lia.
From stdpp Require Import base decidable option list strings gmap pretty sorting.

Local Open Scope Z_scope.

(** ** Python values and exceptions *)

Definition vector := list R.

(** A Python [float] and a [float8] of the store: a real number, or NaN. *)
Inductive Float :=
| Finite (x : R)
| NaN.

Inductive Value :=
| VNull
| VInt (n : Z)
| VFloat (x : R)
| VNaN                        (* float('nan') *)
| VText (s : string)
| VTimestamp (t : Z)          (* seconds since the epoch *)
| VVector (v : vector).

(** A bound parameter of [cursor.execute(query, params)]. *)
Inductive Param :=
| PVector (v : vector)
| PInt (n : Z)
| PFloat (x : R).

Inductive Exception :=
| ValueError (msg : string)
| KeyError (key : string)
| IndexError (msg : string)
| TypeError (msg : string)
| DatabaseError (msg : string).   (* psycopg2.Error, raised by the store *)

Definition Result (A : Type) : Type := Exception + A.

Definition raise {A} (e : Exception) : Result A := inl e.
Definition ret {A} (a : A) : Result A := inr a.
Definition bind {A B} (m : Result A) (k : A -> Result B) : Result B :=
  match m with
  | inl e => inl e
  | inr a => k a
  end.

Notation "'try!' x := m 'in' k" := (bind m (fun x => k))
  (at level 10, x name, m at level 100, k at level 200).

Fixpoint mapM {A B} (f : A -> Result B) (l : list A) : Result (list B) :=
  match l with
  | [] => ret []
  | a :: l' => try! b := f a in try! bs := mapM f l' in ret (b :: bs)
  end.

(** ** Strings *)

Definition nl : string := String "010"%char EmptyString.
Definition squote : ascii := "'"%char.
Definition dquote : ascii := ascii_of_nat 34.
Definition backslash : ascii := ascii_of_nat 92.

(** [sep.join(l)] *)
Fixpoint join (sep : string) (l : list string) : string :=
  match l with
  | [] => EmptyString
  | x :: rest =>
      match rest with
      | [] => x
      | _ :: _ => x +:+ sep +:+ join sep rest
      end
  end.

Fixpoint contains_char (c : ascii) (s : string) : bool :=
  match s with
  | EmptyString => false
  | String d s' => if Ascii.eqb c d then true else contains_char c s'
  end.

Definition hex_digit (n : nat) : ascii :=
  ascii_of_nat (if Nat.ltb n 10 then 48 + n else 87 + n)%nat.

(** One character of [repr(str)] with the chosen quote [q]. Bytes from 128
    up belong to the UTF-8 encoding of a non-ASCII character and are copied,
    as Python does for printable characters. *)
Definition repr_char (q : ascii) (c : ascii) : string :=
  let n := nat_of_ascii c in
  if Ascii.eqb c q || Ascii.eqb c backslash then String backslash (String c EmptyString)
  else if Nat.eqb n 9 then String backslash "t"
  else if Nat.eqb n 10 then String backslash "n"
  else if Nat.eqb n 13 then String backslash "r"
  else if Nat.ltb n 32 || Nat.eqb n 127 then
    String backslash (String "x"%char
      (String (hex_digit (n / 16)) (String (hex_digit (n mod 16)) EmptyString)))
  else String c EmptyString.

Fixpoint repr_body (q : ascii) (s : string) : string :=
  match s with
  | EmptyString => EmptyString
  | String c s' => repr_char q c +:+ repr_body q s'
  end.

(** [repr(s)] for a [str]: single quotes unless the string holds a single
    quote and no double quote. *)
Definition repr_str (s : string) : string :=
  let q := if contains_char squote s && negb (contains_char dquote s)
           then dquote else squote in
  String q EmptyString +:+ repr_body q s +:+ String q EmptyString.

(** [repr(l)] for a list of [str], as an f-string formats [list(d.keys())]. *)
Definition repr_list (l : list string) : string :=
  "[" +:+ join ", " (map repr_str l) +:+ "]".

(** [s] without the prefix [p], if it starts with it. *)
Fixpoint strip_prefix (p s : string) : option string :=
  match p, s with
  | EmptyString, _ => Some s
  | String c p', String d s' => if Ascii.eqb c d then strip_prefix p' s' else None
  | String _ _, EmptyString => None
  end.

(** [s] without the suffix [p], if it ends with it. *)
Definition strip_suffix (p s : string) : option string :=
  let n := (String.length s - String.length p)%nat in
  if Nat.leb (String.length p) (String.length s)
     && String.eqb (String.substring n (String.length p) s) p
  then Some (String.substring 0 n s)
  else None.

(** The text before and the text after the first occurrence of [sep]. *)
Fixpoint cut (sep s : string) : option (string * string) :=
  match strip_prefix sep s with
  | Some rest => Some (EmptyString, rest)
  | None =>
      match s with
      | EmptyString => None
      | String c s' =>
          match cut sep s' with
          | Some (a, b) => Some (String c a, b)
          | None => None
          end
      end
  end.

(** The same for the last occurrence. *)
Fixpoint cut_last (sep s : string) : option (string * string) :=
  match s with
  | EmptyString => None
  | String c s' =>
      match cut_last sep s' with
      | Some (a, b) => Some (String c a, b)
      | None =>
          match strip_prefix sep s with
          | Some rest => Some (EmptyString, rest)
          | None => None
          end
      end
  end.

Fixpoint split_fuel (fuel : nat) (sep s : string) : list string :=
  match fuel with
  | O => [s]
  | S n =>
      match cut sep s with
      | Some (a, b) => a :: split_fuel n sep b
      | None => [s]
      end
  end.

(** [s.split(sep)] for a separator that is not empty. *)
Definition split_on (sep s : string) : list string :=
  split_fuel (String.length s) sep s.

(** The characters of a text: the encoding is UTF-8, and a character is a
    byte together with the continuation bytes (10xxxxxx) that follow it. *)
Definition is_continuation (c : ascii) : bool :=
  let n := nat_of_ascii c in Nat.leb 128 n && Nat.ltb n 192.

Fixpoint characters (s : string) : list string :=
  match s with
  | EmptyString => []
  | String c rest =>
      match characters rest with
      | String d g :: gs =>
          if is_continuation d then String c (String d g) :: gs
          else String c EmptyString :: String d g :: gs
      | gs => String c EmptyString :: gs
      end
  end.

Arguments characters : simpl never.

(** [s[:n]] and [len(s)] count characters. *)
Definition concat_strings (l : list string) : string :=
  fold_right String.append EmptyString l.

Definition slice_to (n : nat) (s : string) : string :=
  concat_strings (firstn n (characters s)).

Definition len (s : string) : nat := length (characters s).

(** ** Dictionaries in insertion order *)

Section Dict.
Context {V : Type}.

Fixpoint dict_get (k : string) (d : list (string * V)) : option V :=
  match d with
  | [] => None
  | (k', v) :: d' => if String.eqb k k' then Some v else dict_get k d'
  end.

Definition dict_keys (d : list (string * V)) : list string := map fst d.

(** [d[k] = v]: overwrite in place, or append a new key. *)
Fixpoint dict_set (k : string) (v : V) (d : list (string * V)) : list (string * V) :=
  match d with
  | [] => [(k, v)]
  | (k', v') :: d' =>
      if String.eqb k k' then (k, v) :: d' else (k', v') :: dict_set k v d'
  end.

Definition dict_remove (k : string) (d : list (string * V)) : list (string * V) :=
  List.filter (fun kv => negb (String.eqb k (fst kv))) d.

(** [d.pop(k)]: the value and the dictionary without the key. *)
Definition dict_pop (k : string) (d : list (string * V))
  : Result (V * list (string * V)) :=
  match dict_get k d with
  | Some v => ret (v, dict_remove k d)
  | None => raise (KeyError k)
  end.
End Dict.

(** A result row ([RealDictRow]): column name to value. *)
Definition Row := list (string * Value).

(** ** Table configuration ([tables.yaml])

    Every key of a table entry is optional in the YAML document: [None] is an
    absent key.  Values are taken to have the type the code expects. *)

Record Filters := {
  time_column : option string;
  default_hours : option Z;
  confidence_column : option string;
  default_min_confidence : option R
}.

Record TableConfig := {
  table : option string;
  embedding_column : option string;
  alias : option string;
  content_column : option string;
  display_columns : option (list string);
  joins : option (list string);
  filters : option Filters
}.

(** The loaded document: its ["tables"] mapping, if the key is there. *)
Record Config := { tables : option (list (string * TableConfig)) }.

Definition no_filters : Filters :=
  {| time_column := None; default_hours := None;
     confidence_column := None; default_min_confidence := None |}.

(** [d[key]] on a table entry. *)
Definition item {A} (key : string) (o : option A) : Result A :=
  match o with
  | Some a => ret a
  | None => raise (KeyError key)
  end.

(** Truth value of a [str] or of [None]. *)
Definition truthy_str (o : option string) : option string :=
  match o with
  | Some (String c s) => Some (String c s)
  | _ => None
  end.

(** ** The statement built by [ConfigurableTableSearch.search] *)

(** [f"{alias}.{embedding_col} <=> %s::vector"] *)
Record Distance := { d_alias : string; d_column : string }.

Inductive Condition :=
| EmbeddingNotNull (a col : string)      (* f"{alias}.{embedding_col} IS NOT NULL" *)
| TimeWithin (a col : string)            (* f"{alias}.{time_col} >= NOW() - INTERVAL '%s hours'" *)
| ConfidenceAtLeast (a col : string).    (* f"{alias}.{conf_col} >= %s" *)

Record Statement := {
  select_cols : string;                  (* ", ".join(display_cols) *)
  score_expr : Distance;                 (* 1 - (...) as similarity_score *)
  from_clause : string;
  where_conditions : list Condition;
  order_expr : Distance
}.

Definition distance_sql (d : Distance) : string :=
  d_alias d +:+ "." +:+ d_column d +:+ " <=> %s::vector".

Definition condition_sql (c : Condition) : string :=
  match c with
  | EmbeddingNotNull a col => a +:+ "." +:+ col +:+ " IS NOT NULL"
  | TimeWithin a col => a +:+ "." +:+ col +:+ " >= NOW() - INTERVAL '%s hours'"
  | ConfidenceAtLeast a col => a +:+ "." +:+ col +:+ " >= %s"
  end.

Definition select_clause (q : Statement) : string :=
  select_cols q +:+ ", 1 - (" +:+ distance_sql (score_expr q) +:+ ") as similarity_score".

Definition where_clause (q : Statement) : string :=
  join " AND " (map condition_sql (where_conditions q)).

Definition order_clause (q : Statement) : string := distance_sql (order_expr q).

Definition indent12 : string := "            ".
Definition indent8 : string := "        ".

(** The [query] f-string of [search]. *)
Definition query_text (q : Statement) : string :=
  nl +:+ indent12 +:+ "SELECT " +:+ select_clause q +:+
  nl +:+ indent12 +:+ "FROM " +:+ from_clause q +:+
  nl +:+ indent12 +:+ "WHERE " +:+ where_clause q +:+
  nl +:+ indent12 +:+ "ORDER BY " +:+ order_clause q +:+
  nl +:+ indent12 +:+ "LIMIT %s" +:+
  nl +:+ indent8.

(** Lines 218 to 268 of [search]: from the table entry and the call's
    arguments to the statement and its parameter list. *)
Definition build_query (table_config : TableConfig) (query_embedding : vector)
    (limit : Z) (hours : option Z) (min_confidence : option R)
  : Result (Statement * list Param) :=
  try! table := item "table" (table table_config) in
  try! embedding_col := item "embedding_column" (embedding_column table_config) in
  try! first := match characters table with
                | c :: _ => ret c
                | [] => raise (IndexError "string index out of range")
                end in
  let alias := default first (alias table_config) in
  try! content := item "content_column" (content_column table_config) in
  let display_cols :=
    default [alias +:+ ".id"; alias +:+ "." +:+ content] (display_columns table_config) in
  let joins := default [] (joins table_config) in
  let filters := default no_filters (filters table_config) in
  let select_cols := join ", " display_cols in
  let from_clause :=
    match joins with
    | [] => table +:+ " " +:+ alias
    | _ :: _ => (table +:+ " " +:+ alias) +:+ " " +:+ join " " joins
    end in
  let where_conditions := [EmbeddingNotNull alias embedding_col] in
  let params := [PVector query_embedding] in
  let '(where_conditions, params) :=
    match truthy_str (time_column filters) with
    | Some time_col =>
        let effective_hours :=
          match hours with
          | Some h => h
          | None => default 168 (default_hours filters)
          end in
        (where_conditions ++ [TimeWithin alias time_col],
         params ++ [PInt effective_hours])
    | None => (where_conditions, params)
    end in
  let '(where_conditions, params) :=
    match truthy_str (confidence_column filters) with
    | Some conf_col =>
        let effective_conf :=
          match min_confidence with
          | Some c => c
          | None => default 0%R (default_min_confidence filters)
          end in
        (where_conditions ++ [ConfidenceAtLeast alias conf_col],
         params ++ [PFloat effective_conf])
    | None => (where_conditions, params)
    end in
  let params := params ++ [PVector query_embedding] in
  let params := params ++ [PInt limit] in
  ret ({| select_cols := select_cols;
          score_expr := {| d_alias := alias; d_column := embedding_col |};
          from_clause := from_clause;
          where_conditions := where_conditions;
          order_expr := {| d_alias := alias; d_column := embedding_col |} |},
       params).

(** ** Search *)

(** The connection, as [search] uses it: one cursor, one [execute], then
    [fetchall]. *)
Record Connection := {
  execute : Statement -> list Param -> Result (list Row)
}.

Record ConfigurableTableSearch := {
  conn : Connection;
  config : Config
}.

(** [float(x)] on a value of a result row. *)
Definition py_float (v : Value) : Result Float :=
  match v with
  | VFloat x => ret (Finite x)
  | VNaN => ret NaN
  | VInt n => ret (Finite (IZR n))
  | VNull => raise (TypeError "float() argument must be a string or a real number, not 'NoneType'")
  | VText _ => raise (ValueError "could not convert string to float")
  | VTimestamp _ => raise (TypeError "float() argument must be a string or a real number, not 'datetime.datetime'")
  | VVector _ => raise (TypeError "float() argument must be a string or a real number, not 'list'")
  end.

(** The body of the loop over [cur.fetchall()]. *)
Definition shape_row (row : Row) : Result (Row * Float) :=
  try! popped := dict_pop "similarity_score" row in
  let '(v, data) := popped in
  try! score := py_float v in
  ret (data, score).

(** What one call did: the statements sent to the store, in order, with
    their parameters, and what the call returned or raised. *)
Record Run := {
  executed : list (string * list Param);
  outcome : Result (list (Row * Float))
}.

Definition search (self : ConfigurableTableSearch) (table_name : string)
    (query_embedding : vector) (limit : Z) (hours : option Z)
    (min_confidence : option R) : Run :=
  let tables := default [] (tables (config self)) in
  match dict_get table_name tables with
  | None =>
      {| executed := [];
         outcome := raise (ValueError
           ("Table '" +:+ table_name +:+ "' not configured. Available: "
            +:+ repr_list (dict_keys tables))) |}
  | Some table_config =>
      match build_query table_config query_embedding limit hours min_confidence with
      | inl e => {| executed := []; outcome := inl e |}
      | inr (query, params) =>
          {| executed := [(query_text query, params)];
             outcome := try! rows := execute (conn self) query params in
                        mapM shape_row rows |}
      end
  end.

(** ** The store behind [ConfigurableTableSearch]: PostgreSQL with pgvector,
    as far as the statement of [search] goes

    The store gets the text and the parameters.  It reads the text clause
    by clause: SELECT with a list that is not empty and ends with the score,
    FROM, WHERE with its conditions, ORDER BY with the distance, ascending,
    and LIMIT.  A text that does not read back as the statement it was
    rendered from is refused as a syntax error.  The names inside the
    clauses (display columns, table, joins, filter columns) are taken to be
    SQL that the store accepts, for a relation that exists with the columns
    its rows show.  Then the parameters are cast and the time bound is
    worked out, whatever the table holds; only then are rows looked at, by
    a scan of the relation and a sort (the configuration knows of no index;
    an approximate index on the embedding column would let the store leave
    rows out, as it does for [VectorDB] below).  Vectors of more than 16000
    components and components outside the range of [float4] are outside
    the model. *)

(** A condition as the store reads it: its kind and the column it names. *)
Inductive ReadCondition :=
| RNotNull (column : string)
| RTimeWithin (column : string)
| RConfidenceAtLeast (column : string).

Record ReadStatement := {
  r_select : string;                (* the select list before the score *)
  r_score : string;                 (* the column of the score expression *)
  r_from : string;
  r_where : list ReadCondition;
  r_order : string                  (* the column of the ORDER BY clause *)
}.

#[global] Instance ReadCondition_eq_dec : EqDecision ReadCondition.
Proof. solve_decision. Defined.

#[global] Instance ReadStatement_eq_dec : EqDecision ReadStatement.
Proof. solve_decision. Defined.

(** [column <=> %s::vector], ascending. *)
Definition read_distance (text : string) : option string :=
  strip_suffix " <=> %s::vector" text.

Definition read_condition (text : string) : option ReadCondition :=
  match strip_suffix " IS NOT NULL" text with
  | Some c => Some (RNotNull c)
  | None =>
      match strip_suffix " >= NOW() - INTERVAL '%s hours'" text with
      | Some c => Some (RTimeWithin c)
      | None =>
          match strip_suffix " >= %s" text with
          | Some c => Some (RConfidenceAtLeast c)
          | None => None
          end
      end
  end.

Fixpoint read_conditions (texts : list string) : option (list ReadCondition) :=
  match texts with
  | [] => Some []
  | t :: rest =>
      match read_condition t, read_conditions rest with
      | Some c, Some cs => Some (c :: cs)
      | _, _ => None
      end
  end.

(** The select list: display columns, which cannot be empty, and the score
    expression as its last item. *)
Definition read_select (text : string) : option (string * string) :=
  match strip_suffix ") as similarity_score" text with
  | Some t =>
      match cut_last ", 1 - (" t with
      | Some (String c cols, d) =>
          match read_distance d with
          | Some column => Some (String c cols, column)
          | None => None
          end
      | _ => None
      end
  | None => None
  end.

Definition read_statement (text : string) : option ReadStatement :=
  match strip_prefix (nl +:+ indent12 +:+ "SELECT ") text with
  | Some t1 =>
      match cut (nl +:+ indent12 +:+ "FROM ") t1 with
      | Some (sel, t2) =>
          match cut (nl +:+ indent12 +:+ "WHERE ") t2 with
          | Some (String c frm, t3) =>
              match cut (nl +:+ indent12 +:+ "ORDER BY ") t3 with
              | Some (whr, t4) =>
                  match strip_suffix (nl +:+ indent12 +:+ "LIMIT %s" +:+ nl +:+ indent8) t4 with
                  | Some ord =>
                      match read_select sel, read_conditions (split_on " AND " whr),
                            read_distance ord with
                      | Some (cols, score), Some conditions, Some order =>
                          Some {| r_select := cols; r_score := score;
                                  r_from := String c frm; r_where := conditions;
                                  r_order := order |}
                      | _, _, _ => None
                      end
                  | None => None
                  end
              | None => None
              end
          | _ => None
          end
      | None => None
      end
  | None => None
  end.

Definition qualified (d : Distance) : string := d_alias d +:+ "." +:+ d_column d.

Definition condition_read (c : Condition) : ReadCondition :=
  match c with
  | EmbeddingNotNull a col => RNotNull (a +:+ "." +:+ col)
  | TimeWithin a col => RTimeWithin (a +:+ "." +:+ col)
  | ConfidenceAtLeast a col => RConfidenceAtLeast (a +:+ "." +:+ col)
  end.

Definition statement_read (q : Statement) : ReadStatement :=
  {| r_select := select_cols q; r_score := qualified (score_expr q);
     r_from := from_clause q; r_where := map condition_read (where_conditions q);
     r_order := qualified (order_expr q) |}.

(** The text reads back as the statement [q]. *)
Definition reads (text : string) (q : Statement) : bool :=
  bool_decide (read_statement text = Some (statement_read q)).

Local Open Scope R_scope.

Fixpoint dot (a b : vector) : R :=
  match a, b with
  | x :: a', y :: b' => x * y + dot a' b'
  | _, _ => 0
  end.

(** The operator [<=>]: cosine distance, one minus the cosine of the angle.
    pgvector divides the inner product by the root of the product of the
    squared norms; when a vector has norm zero that is 0/0, and the distance
    is NaN. *)
Definition cosine_distance (a b : vector) : Float :=
  if Req_dec_T (dot a a * dot b b) 0 then NaN
  else Finite (1 - dot a b / sqrt (dot a a * dot b b)).

Arguments cosine_distance : simpl never.

(** [1 - d] on a [float8]. *)
Definition one_minus (d : Float) : Float :=
  match d with
  | Finite x => Finite (1 - x)
  | NaN => NaN
  end.

#[global] Instance Rle_decision (x y : R) : Decision (x <= y) := Rle_dec x y.
#[global] Instance Rlt_decision (x y : R) : Decision (x < y) := Rlt_dec x y.

(** A row of the relation that the FROM clause (table and joins) produces:
    the columns the statement refers to, by qualified name, and what the
    display columns project out of the row.  The relation is taken to exist
    with the columns its rows show. *)
Record SourceRow := {
  cells : list (string * Value);
  projection : Row
}.

Record Store := {
  now : Z;                       (* NOW(), in seconds since the epoch *)
  source : list SourceRow
}.

(** The conditions with their placeholders filled in. *)
Inductive BoundCondition :=
| BNotNull (a col : string)
| BTimeWithin (a col : string) (hours : R)
| BConfidenceAtLeast (a col : string) (bound : R).

Record BoundStatement := {
  b_select_vector : vector;
  b_conditions : list BoundCondition;
  b_order_vector : vector;
  b_limit : Z
}.

Definition too_few {A} : Result A := raise (IndexError "list index out of range").

Definition param_real (p : Param) : Result R :=
  match p with
  | PInt n => ret (IZR n)
  | PFloat x => ret x
  | PVector _ => raise (DatabaseError "invalid input syntax")
  end.

(** [%s::vector]: a list is sent as an array and cast, but the empty list
    is sent as the text of an empty array, which is no vector. *)
Definition param_vector (p : Param) : Result vector :=
  match p with
  | PVector [] => raise (DatabaseError "malformed vector literal")
  | PVector v => ret v
  | _ => raise (DatabaseError "cannot cast to vector")
  end.

(** Placeholders are filled in the order in which they occur in the text. *)
Fixpoint bind_conditions (cs : list Condition) (ps : list Param)
  : Result (list BoundCondition * list Param) :=
  match cs with
  | [] => ret ([], ps)
  | EmbeddingNotNull a col :: cs' =>
      try! r := bind_conditions cs' ps in
      ret (BNotNull a col :: fst r, snd r)
  | TimeWithin a col :: cs' =>
      match ps with
      | [] => too_few
      | p :: ps' =>
          try! h := param_real p in
          try! r := bind_conditions cs' ps' in
          ret (BTimeWithin a col h :: fst r, snd r)
      end
  | ConfidenceAtLeast a col :: cs' =>
      match ps with
      | [] => too_few
      | p :: ps' =>
          try! x := param_real p in
          try! r := bind_conditions cs' ps' in
          ret (BConfidenceAtLeast a col x :: fst r, snd r)
      end
  end.

Definition bind_statement (q : Statement) (params : list Param)
  : Result BoundStatement :=
  match params with
  | [] => too_few
  | p :: ps =>
      try! qs := param_vector p in
      try! r := bind_conditions (where_conditions q) ps in
      match snd r with
      | [] => too_few
      | [_] => too_few
      | [po; pl] =>
          try! qo := param_vector po in
          match pl with
          | PInt n =>
              ret {| b_select_vector := qs; b_conditions := fst r;
                     b_order_vector := qo; b_limit := n |}
          | _ => raise (DatabaseError "argument of LIMIT must be type bigint")
          end
      | _ :: _ :: _ :: _ =>
          raise (TypeError "not all arguments converted during string formatting")
      end
  end.

(** The range of [timestamp], in seconds since the epoch: from 4713 BC to
    the end of the year 294276. *)
Definition min_timestamp : Z := (-210866803200)%Z.
Definition end_timestamp : Z := 9224318016000%Z.

(** [NOW() - INTERVAL 'h hours'] is worked out when the statement is
    planned, whatever the table holds: the hours of the interval have to fit
    in 32 bits, and the bound has to be a timestamp. *)
Definition time_bound_in_range (now : Z) (hours : R) : bool :=
  bool_decide (- IZR 2147483647 <= hours) && bool_decide (hours <= IZR 2147483647)
  && bool_decide (IZR min_timestamp <= IZR now - hours * 3600)
  && bool_decide (IZR now - hours * 3600 < IZR end_timestamp).

Definition check_condition (now : Z) (c : BoundCondition) : Result unit :=
  match c with
  | BTimeWithin _ _ hours =>
      if time_bound_in_range now hours then ret tt
      else raise (DatabaseError "timestamp out of range")
  | _ => ret tt
  end.

Definition column (r : SourceRow) (a col : string) : Result Value :=
  match dict_get (a +:+ "." +:+ col) (cells r) with
  | Some v => ret v
  | None => raise (DatabaseError ("column " +:+ a +:+ "." +:+ col +:+ " does not exist"))
  end.

(** A comparison with NULL is not true. *)
Definition condition_holds (now : Z) (r : SourceRow) (c : BoundCondition)
  : Result bool :=
  match c with
  | BNotNull a col =>
      try! v := column r a col in
      ret (match v with VNull => false | _ => true end)
  | BTimeWithin a col hours =>
      try! v := column r a col in
      match v with
      | VNull => ret false
      | VTimestamp t => ret (bool_decide (IZR now - hours * 3600 <= IZR t))
      | _ => raise (DatabaseError "operator does not exist")
      end
  | BConfidenceAtLeast a col bound =>
      try! v := column r a col in
      match v with
      | VNull => ret false
      | VFloat x => ret (bool_decide (bound <= x))
      | VNaN => ret true          (* NaN is greater than every number *)
      | VInt n => ret (bool_decide (bound <= IZR n))
      | _ => raise (DatabaseError "operator does not exist")
      end
  end.

Definition selected (now : Z) (cs : list BoundCondition) (r : SourceRow)
  : Result bool :=
  try! bs := mapM (condition_holds now r) cs in
  ret (forallb (fun b : bool => b) bs).

Fixpoint filterM {A} (f : A -> Result bool) (l : list A) : Result (list A) :=
  match l with
  | [] => ret []
  | a :: l' =>
      try! b := f a in
      try! rest := filterM f l' in
      ret (if b then a :: rest else rest)
  end.

(** [column <=> q]: NULL for a NULL column, an error when the dimensions
    differ. *)
Definition distance_to (q : vector) (d : Distance) (r : SourceRow)
  : Result (option Float) :=
  try! v := column r (d_alias d) (d_column d) in
  match v with
  | VNull => ret None
  | VVector e =>
      if Nat.eqb (length e) (length q) then ret (Some (cosine_distance e q))
      else raise (DatabaseError "different vector dimensions")
  | _ => raise (DatabaseError "operator does not exist")
  end.

(** Ascending order of the sort key: NaN after every number, NULLS LAST. *)
Definition key_le (k1 k2 : option Float) : bool :=
  match k1, k2 with
  | Some (Finite x), Some (Finite y) => bool_decide (x <= y)
  | Some _, Some NaN => true
  | Some NaN, Some (Finite _) => false
  | _, None => true
  | None, Some _ => false
  end.

Section Sort.
Context {A : Type}.

Fixpoint insert_by_key (x : option Float * A) (l : list (option Float * A))
  : list (option Float * A) :=
  match l with
  | [] => [x]
  | y :: l' => if key_le (fst x) (fst y) then x :: y :: l'
               else y :: insert_by_key x l'
  end.

(** Rows with equal keys keep the order of the relation. *)
Definition sort_by_key (l : list (option Float * A)) : list (option Float * A) :=
  foldr insert_by_key [] l.
End Sort.

Definition score_value (d : option Float) : Value :=
  match d with
  | Some (Finite x) => VFloat (1 - x)
  | Some NaN => VNaN
  | None => VNull
  end.

Definition with_key (q : vector) (d : Distance) (r : SourceRow)
  : Result (option Float * SourceRow) :=
  try! k := distance_to q d r in ret (k, r).

Definition output_row (q : vector) (d : Distance) (kr : option Float * SourceRow)
  : Result Row :=
  try! s := distance_to q d (snd kr) in
  ret (dict_set "similarity_score" (score_value s) (projection (snd kr))).

(** Before a row is looked at: the text is read, the parameters are cast
    and the time bound is worked out. *)
Definition pg_plan (st : Store) (q : Statement) (params : list Param)
  : Result BoundStatement :=
  if reads (query_text q) q then
    try! b := bind_statement q params in
    try! _ := mapM (check_condition (now st)) (b_conditions b) in
    ret b
  else raise (DatabaseError "syntax error").

(** The scan: WHERE, ORDER BY, LIMIT, and the select list. *)
Definition pg_scan (st : Store) (q : Statement) (b : BoundStatement)
  : Result (list Row) :=
  try! kept := filterM (selected (now st) (b_conditions b)) (source st) in
  try! keyed := mapM (with_key (b_order_vector b) (order_expr q)) kept in
  mapM (output_row (b_select_vector b) (score_expr q))
       (take (Z.to_nat (b_limit b)) (sort_by_key keyed)).

(** A negative limit is refused when the statement starts to run; with a
    limit of zero no row is fetched. *)
Definition pg_execute (st : Store) (q : Statement) (params : list Param)
  : Result (list Row) :=
  try! b := pg_plan st q params in
  if (b_limit b <? 0)%Z then raise (DatabaseError "LIMIT must not be negative")
  else if (b_limit b =? 0)%Z then ret []
  else pg_scan st q b.

Definition pg_connection (st : Store) : Connection :=
  {| execute := pg_execute st |}.

Local Close Scope R_scope.

(** ** [VectorDB]: the index of code elements *)

(** Commands that change a state and may raise.  With [autocommit] on, the
    effects of the statements before a failing one stay. *)
Definition ST (S A : Type) : Type := S -> S * Result A.

Definition st_ret {S A} (a : A) : ST S A := fun s => (s, ret a).
Definition st_raise {S A} (e : Exception) : ST S A := fun s => (s, raise e).
Definition st_bind {S A B} (m : ST S A) (k : A -> ST S B) : ST S B :=
  fun s => match m s with
           | (s', inl e) => (s', inl e)
           | (s', inr a) => k a s'
           end.

Notation "'do!' x := m 'in' k" := (st_bind m (fun x => k))
  (at level 10, x name, m at level 100, k at level 200).

Inductive ColType := TSerial | TText | TVector (dim : nat) | TTimestamp.

Record Column := {
  col_name : string;
  col_type : ColType;
  col_not_null : bool;
  col_has_default : bool
}.

Inductive Relation :=
| TableRel (columns : list Column) (rows : list Row)
| IndexRel (on_table method indexed_column opclass options : string).

Record Database := {
  installable : gset string;        (* extensions the server offers *)
  extensions : gset string;         (* extensions created in the database *)
  relations : gmap string Relation  (* tables and indexes, one name space *)
}.

Definition with_extensions (db : Database) (e : gset string) : Database :=
  {| installable := installable db; extensions := e; relations := relations db |}.

Definition with_relations (db : Database) (r : gmap string Relation) : Database :=
  {| installable := installable db; extensions := extensions db; relations := r |}.

(** [CREATE EXTENSION IF NOT EXISTS name] *)
Definition create_extension_if_not_exists (name : string) : ST Database unit :=
  fun db =>
    if decide (name ∈ extensions db) then (db, ret tt)
    else if decide (name ∈ installable db)
         then (with_extensions db ({[name]} ∪ extensions db), ret tt)
         else (db, raise (DatabaseError ("extension " +:+ name +:+ " is not available"))).

Definition uses_vector (c : Column) : bool :=
  match col_type c with TVector _ => true | _ => false end.

(** [CREATE TABLE IF NOT EXISTS name (columns)] *)
Definition create_table_if_not_exists (name : string) (columns : list Column)
  : ST Database unit :=
  fun db =>
    match relations db !! name with
    | Some _ => (db, ret tt)
    | None =>
        if existsb uses_vector columns && negb (bool_decide ("vector" ∈ extensions db))
        then (db, raise (DatabaseError "type vector does not exist"))
        else (with_relations db (<[name := TableRel columns []]> (relations db)), ret tt)
    end.

Definition find_column (name : string) (columns : list Column) : option Column :=
  find (fun c => String.eqb name (col_name c)) columns.

(** [CREATE INDEX IF NOT EXISTS name ON tbl USING method (col opclass) WITH (options)] *)
Definition create_index_if_not_exists
    (name tbl method col opclass options : string) : ST Database unit :=
  fun db =>
    match relations db !! tbl with
    | Some (TableRel columns _) =>
        match find_column col columns with
        | Some c =>
            if uses_vector c then
              match relations db !! name with
              | Some _ => (db, ret tt)
              | None =>
                  (with_relations db
                     (<[name := IndexRel tbl method col opclass options]> (relations db)),
                   ret tt)
              end
            else (db, raise (DatabaseError ("operator class " +:+ opclass +:+ " does not accept the column type")))
        | None => (db, raise (DatabaseError ("column " +:+ col +:+ " does not exist")))
        end
    | Some (IndexRel _ _ _ _ _) =>
        (db, raise (DatabaseError (tbl +:+ " is not a table")))
    | None => (db, raise (DatabaseError ("relation " +:+ tbl +:+ " does not exist")))
    end.

(** [DELETE FROM name] *)
Definition delete_from (name : string) : ST Database unit :=
  fun db =>
    match relations db !! name with
    | Some (TableRel columns _) =>
        (with_relations db (<[name := TableRel columns []]> (relations db)), ret tt)
    | _ => (db, raise (DatabaseError ("relation " +:+ name +:+ " does not exist")))
    end.

Definition accepts (c : Column) (v : Value) : bool :=
  match v, col_type c with
  | VNull, _ => negb (col_not_null c)
  | VText _, TText => true
  | VInt _, TSerial => true
  | VTimestamp _, TTimestamp => true
  | VVector e, TVector dim => Nat.eqb (length e) dim
  | _, _ => false
  end.

Definition assignable (columns : list Column) (kv : string * Value) : bool :=
  match find_column (fst kv) columns with
  | Some c => accepts c (snd kv)
  | None => false
  end.

(** A column left out of the INSERT takes its default or NULL. *)
Definition omissible (values : Row) (c : Column) : bool :=
  match dict_get (col_name c) values with
  | Some _ => true
  | None => col_has_default c || negb (col_not_null c)
  end.

(** [INSERT INTO name (keys) VALUES (values)].  The row is stored as it was
    given: the columns filled in by a default ([id], [created_at]) are left
    out. *)
Definition insert_into (name : string) (values : Row) : ST Database unit :=
  fun db =>
    match relations db !! name with
    | Some (TableRel columns rows) =>
        if forallb (assignable columns) values && forallb (omissible values) columns
        then (with_relations db
                (<[name := TableRel columns (rows ++ [values])]> (relations db)),
              ret tt)
        else (db, raise (DatabaseError "insert rejected"))
    | _ => (db, raise (DatabaseError ("relation " +:+ name +:+ " does not exist")))
    end.

Definition code_elements_columns : list Column :=
  [ {| col_name := "id"; col_type := TSerial; col_not_null := true; col_has_default := true |};
    {| col_name := "file_path"; col_type := TText; col_not_null := true; col_has_default := false |};
    {| col_name := "element_name"; col_type := TText; col_not_null := true; col_has_default := false |};
    {| col_name := "element_type"; col_type := TText; col_not_null := true; col_has_default := false |};
    {| col_name := "signature"; col_type := TText; col_not_null := false; col_has_default := false |};
    {| col_name := "docstring"; col_type := TText; col_not_null := false; col_has_default := false |};
    {| col_name := "searchable_text"; col_type := TText; col_not_null := false; col_has_default := false |};
    {| col_name := "embedding"; col_type := TVector 1536; col_not_null := false; col_has_default := false |};
    {| col_name := "created_at"; col_type := TTimestamp; col_not_null := false; col_has_default := true |} ].

Definition _ensure_schema : ST Database unit :=
  do! _ := create_extension_if_not_exists "vector" in
  do! _ := create_table_if_not_exists "code_elements" code_elements_columns in
  create_index_if_not_exists "idx_code_elements_embedding" "code_elements"
    "ivfflat" "embedding" "vector_cosine_ops" "lists = 100".

(** [VectorDB()]: the connection is taken as made; then [_ensure_schema]. *)
Definition VectorDB : ST Database unit := _ensure_schema.

Definition clear_all : ST Database unit := delete_from "code_elements".

Section Indexing.
(** [indexer.py] and [embeddings.py] are not part of the sources at hand:
    their functions are parameters.  [generate_embedding] answers [None]
    when the provider fails. *)
Variable find_python_files : string -> list string.
Variable create_searchable_text : string -> string -> string -> string.
Variable generate_embedding : string -> option vector.

Record Element := {
  file_path : string;
  element_name : string;
  element_type : string;
  signature : string;
  docstring : string
}.

Variable extract_code_elements : string -> list Element.

Definition insert (file_path name element_type signature docstring : string)
    (embedding : vector) : ST Database unit :=
  let searchable_text := create_searchable_text name signature docstring in
  insert_into "code_elements"
    [ ("file_path", VText file_path); ("element_name", VText name);
      ("element_type", VText element_type); ("signature", VText signature);
      ("docstring", VText docstring); ("searchable_text", VText searchable_text);
      ("embedding", VVector embedding) ].

(** The process running [cmd_index]: the database and what was printed. *)
Record World := { database : Database; stdout : list string }.

Definition on_database {A} (m : ST Database A) : ST World A :=
  fun w => let '(db, r) := m (database w) in
           ({| database := db; stdout := stdout w |}, r).

Definition print (line : string) : ST World unit :=
  fun w => ({| database := database w; stdout := stdout w ++ [line] |}, ret tt).

(** Truth value of [embedding]: [None] and the empty list are false. *)
Definition truthy_vector (o : option vector) : option vector :=
  match o with
  | Some (x :: v) => Some (x :: v)
  | _ => None
  end.

Record Args := { directory : string; clear : bool }.

(** The inner loop of [cmd_index], over the elements of one file. *)
Fixpoint index_elements (elements : list Element) (total_elements : nat)
  : ST World nat :=
  match elements with
  | [] => st_ret total_elements
  | element :: rest =>
      let searchable_text :=
        create_searchable_text (element_name element) (signature element)
          (docstring element) in
      let embedding := generate_embedding searchable_text in
      match truthy_vector embedding with
      | Some embedding =>
          do! _ := on_database
                     (insert (file_path element) (element_name element)
                        (element_type element) (signature element)
                        (docstring element) embedding) in
          index_elements rest (S total_elements)
      | None => index_elements rest total_elements
      end
  end.

(** The outer loop, over the files. *)
Fixpoint index_files (python_files : list string) (total_elements : nat)
  : ST World nat :=
  match python_files with
  | [] => st_ret total_elements
  | file_path :: rest =>
      do! _ := print ("Processing " +:+ file_path +:+ "...") in
      do! total_elements :=
        index_elements (extract_code_elements file_path) total_elements in
      index_files rest total_elements
  end.

(** [cmd_index].  The closing [db.close()] changes neither the database nor
    the output and is left out. *)
Definition cmd_index (args : Args) : ST World unit :=
  do! _ := print ("Indexing Python files in " +:+ directory args +:+ "...") in
  do! _ := on_database VectorDB in
  do! _ := (if clear args
            then do! _ := on_database clear_all in print "Cleared existing index"
            else st_ret tt) in
  let python_files := find_python_files (directory args) in
  do! total_elements := index_files python_files 0%nat in
  print ("Indexed " +:+ pretty total_elements +:+ " elements from "
         +:+ pretty (length python_files) +:+ " files").
End Indexing.

(** ** Vocabulary of the statements proved below *)

(** The keys [search] reads unconditionally are there, and the table name
    has a first character. *)
Definition well_formed (tc : TableConfig) : bool :=
  match table tc, embedding_column tc, content_column tc with
  | Some (String _ _), Some _, Some _ => true
  | _, _, _ => false
  end.

Definition is_substring (s m : string) : Prop :=
  exists pre post, m = pre +:+ s +:+ post.

(** A call that raised without sending anything to the store. *)
Definition rejects_before_executing (r : Run) : Prop :=
  executed r = [] /\ exists e, outcome r = inl e.

Definition first_char (s : string) : string :=
  match characters s with
  | c :: _ => c
  | [] => EmptyString
  end.

(** The alias [search] uses for a table entry. *)
Definition alias_of (tc : TableConfig) : string :=
  default (first_char (default EmptyString (table tc))) (alias tc).

Definition filters_of (tc : TableConfig) : Filters :=
  default no_filters (filters tc).

Definition effective_hours (tc : TableConfig) (hours : option Z) : Z :=
  match hours with
  | Some h => h
  | None => default 168%Z (default_hours (filters_of tc))
  end.

Definition effective_confidence (tc : TableConfig) (min_confidence : option R) : R :=
  match min_confidence with
  | Some c => c
  | None => default 0%R (default_min_confidence (filters_of tc))
  end.

(** The optional conditions of the WHERE clause, each with the parameter
    bound to its placeholder. *)
Definition optional_conditions (tc : TableConfig) (hours : option Z)
    (min_confidence : option R) : list (Condition * Param) :=
  match truthy_str (time_column (filters_of tc)) with
  | Some col => [(TimeWithin (alias_of tc) col, PInt (effective_hours tc hours))]
  | None => []
  end ++
  match truthy_str (confidence_column (filters_of tc)) with
  | Some col =>
      [(ConfidenceAtLeast (alias_of tc) col,
        PFloat (effective_confidence tc min_confidence))]
  | None => []
  end.

(** The same conditions as the store sees them. *)
Definition bound_optional (tc : TableConfig) (hours : option Z)
    (min_confidence : option R) : list BoundCondition :=
  match truthy_str (time_column (filters_of tc)) with
  | Some col => [BTimeWithin (alias_of tc) col (IZR (effective_hours tc hours))]
  | None => []
  end ++
  match truthy_str (confidence_column (filters_of tc)) with
  | Some col =>
      [BConfidenceAtLeast (alias_of tc) col (effective_confidence tc min_confidence)]
  | None => []
  end.

Definition embedding_distance (tc : TableConfig) : Distance :=
  {| d_alias := alias_of tc;
     d_column := default EmptyString (embedding_column tc) |}.

Definition bound_conditions (tc : TableConfig) (hours : option Z)
    (min_confidence : option R) : list BoundCondition :=
  BNotNull (alias_of tc) (default EmptyString (embedding_column tc))
  :: bound_optional tc hours min_confidence.

(** The statement of a table entry.  It is the same for every call (see
    [build_query_statement_fixed]); an entry that does not compile has
    none. *)
Definition compiled (tc : TableConfig) : option Statement :=
  match build_query tc [] 0 None None with
  | inr (stmt, _) => Some stmt
  | inl _ => None
  end.

(** The store can read the text [search] sends for a table entry. *)
Definition readable (tc : TableConfig) : bool :=
  match compiled tc with
  | Some stmt => reads (query_text stmt) stmt
  | None => false
  end.

(** The time bound of a call, if the table entry has a time filter, is one
    the store can work out. *)
Definition time_bound_ok (now : Z) (tc : TableConfig) (hours : option Z) : bool :=
  match truthy_str (time_column (filters_of tc)) with
  | Some _ => time_bound_in_range now (IZR (effective_hours tc hours))
  | None => true
  end.

(** The text is a SELECT whose list ends with the score, one minus the
    distance [expr]. *)
Definition selects_score (text expr : string) : Prop :=
  exists columns rest,
    text = nl +:+ indent12 +:+ "SELECT " +:+ columns +:+ ", 1 - (" +:+ expr
           +:+ ") as similarity_score" +:+ nl +:+ indent12 +:+ "FROM " +:+ rest.

(** The text ends with an ORDER BY clause that is [expr], ascending, and
    the LIMIT. *)
Definition orders_by (text expr : string) : Prop :=
  exists before,
    text = before +:+ nl +:+ indent12 +:+ "ORDER BY " +:+ expr
           +:+ nl +:+ indent12 +:+ "LIMIT %s" +:+ nl +:+ indent8.

(** The record is among the results of the call. *)
Definition returned (record : SourceRow) (r : Run) : Prop :=
  exists results score,
    outcome r = inr results /\
    In (dict_remove "similarity_score" (projection record), score) results.

Definition key_order {A} (x y : option Float * A) : Prop :=
  key_le (fst x) (fst y) = true.


Definition scores (results : list (Row * Float)) : list Float := map snd results.

(** [x >= y] on Python floats: false as soon as one of them is NaN. *)
Definition float_ge (x y : Float) : Prop :=
  match x, y with
  | Finite a, Finite b => (b <= a)%R
  | _, _ => False
  end.

Definition non_increasing (l : list Float) : Prop :=
  StronglySorted float_ge l.

(** The scores are numbers in non-increasing order, followed by NaNs only. *)
Definition nan_last (l : list Float) : Prop :=
  exists numbers k,
    l = map Finite numbers ++ repeat NaN k /\
    StronglySorted (fun x y => (y <= x)%R) numbers.

(** A number between [lo] and [hi], or NaN. *)
Definition between_or_nan (lo hi : R) (s : Float) : Prop :=
  match s with
  | Finite x => (lo <= x <= hi)%R
  | NaN => True
  end.


Definition create_embedding_index : ST Database unit :=
  create_index_if_not_exists "idx_code_elements_embedding" "code_elements"
    "ivfflat" "embedding" "vector_cosine_ops" "lists = 100".

(** The embedding of a unit, if the provider gave one. *)
Definition embedding_of (generate_embedding : string -> option vector)
    (create_searchable_text : string -> string -> string -> string)
    (el : Element) : option vector :=
  truthy_vector
    (generate_embedding
       (create_searchable_text (element_name el) (signature el) (docstring el))).

(** The row [insert] writes for a unit. *)
Definition element_row (create_searchable_text : string -> string -> string -> string)
    (el : Element) (embedding : vector) : Row :=
  [ ("file_path", VText (file_path el)); ("element_name", VText (element_name el));
    ("element_type", VText (element_type el)); ("signature", VText (signature el));
    ("docstring", VText (docstring el));
    ("searchable_text",
     VText (create_searchable_text (element_name el) (signature el) (docstring el)));
    ("embedding", VVector embedding) ].

(** The rows of the units that got an embedding, in the order of the run. *)
Definition indexed_rows (generate_embedding : string -> option vector)
    (create_searchable_text : string -> string -> string -> string)
    (elements : list Element) : list Row :=
  flat_map (fun el =>
              match embedding_of generate_embedding create_searchable_text el with
              | Some v => [element_row create_searchable_text el v]
              | None => []
              end) elements.

(** How many units of a run got no embedding from the provider. *)
Definition failures (generate_embedding : string -> option vector)
    (create_searchable_text : string -> string -> string -> string)
    (elements : list Element) : nat :=
  length (List.filter (fun el =>
            match embedding_of generate_embedding create_searchable_text el with
            | Some _ => false
            | None => true
            end) elements).

(** A result together with the sort key of its row. *)
Definition keyed_result (q : vector) (d : Distance) (kr : option Float * SourceRow)
    (res : Row * Float) : Prop :=
  exists e, column (snd kr) (d_alias d) (d_column d) = inr (VVector e) /\
            length e = length q /\
            fst kr = Some (cosine_distance e q) /\
            res = (dict_remove "similarity_score" (projection (snd kr)),
                   one_minus (cosine_distance e q)).

(** ** Sample configuration, stores and indexing runs *)

Definition messages_table : TableConfig :=
  {| table := Some "messages"; embedding_column := Some "embedding";
     alias := Some "m"; content_column := Some "content";
     display_columns := Some ["m.id"; "m.content"; "p.name as sender_name"];
     joins := Some ["JOIN persons p ON p.id = m.sender_id"];
     filters := Some {| time_column := Some "created_at"; default_hours := Some 24;
                        confidence_column := None;
                        default_min_confidence := None |} |}.

Definition facts_table : TableConfig :=
  {| table := Some "facts"; embedding_column := Some "embedding";
     alias := None; content_column := Some "content";
     display_columns := None; joins := None;
     filters := Some {| time_column := None; default_hours := None;
                        confidence_column := Some "confidence";
                        default_min_confidence := Some (6 / 10)%R |} |}.

(** Both filters declared, neither with a default, no display columns. *)
Definition notes_table : TableConfig :=
  {| table := Some "notes"; embedding_column := Some "vec";
     alias := None; content_column := Some "body";
     display_columns := None; joins := None;
     filters := Some {| time_column := Some "written_at"; default_hours := None;
                        confidence_column := Some "certainty";
                        default_min_confidence := None |} |}.

(** An entry whose list of display columns is empty. *)
Definition bare_table : TableConfig :=
  {| table := Some "facts"; embedding_column := Some "embedding";
     alias := None; content_column := Some "content";
     display_columns := Some []; joins := None; filters := None |}.

Definition sample_config : Config :=
  {| tables := Some [("messages", messages_table); ("facts", facts_table);
                     ("notes", notes_table)] |}.

Definition fact_record (id : Z) (content : string) (embedding : vector)
    (confidence : R) : SourceRow :=
  {| cells := [("f.embedding", VVector embedding); ("f.confidence", VFloat confidence)];
     projection := [("id", VInt id); ("content", VText content)] |}.

(** A row of the [notes] table, written a quarter of an hour before the
    time of the sample store. *)
Definition note_record (id : Z) (body : string) (embedding : vector)
    (certainty : Value) : SourceRow :=
  {| cells := [("n.vec", VVector embedding); ("n.written_at", VTimestamp 1699999100);
               ("n.certainty", certainty)];
     projection := [("id", VInt id); ("body", VText body)] |}.

Definition sample_store (records : list SourceRow) : Store :=
  {| now := 1700000000; source := records |}.

Definition sample_search (records : list SourceRow) : ConfigurableTableSearch :=
  {| conn := pg_connection (sample_store records); config := sample_config |}.

Definition fresh_database : Database :=
  {| installable := {["vector"]}; extensions := ∅; relations := ∅ |}.

Definition unit_f : Element :=
  {| file_path := "a.py"; element_name := "f"; element_type := "function";
     signature := "def f()"; docstring := "adds" |}.

Definition unit_g : Element :=
  {| file_path := "a.py"; element_name := "g"; element_type := "function";
     signature := "def g()"; docstring := "subtracts" |}.

(** A provider that embeds the text of [unit_f] and fails on any other. *)
Definition sample_provider (text : string) : option vector :=
  if String.eqb text "f" then Some (repeat 1%R 1536) else None.

Definition sample_text (name signature docstring : string) : string := name.

Definition sample_run (units : list Element) : World * Result unit :=
  cmd_index (fun _ => ["a.py"]) sample_text sample_provider (fun _ => units)
    {| directory := "src"; clear := false |}
    {| database := fresh_database; stdout := [] |}.

(** ** [VectorDB]: similarity search and statistics *)

(** The columns [search_similar] selects beside the score. *)
Definition similar_columns : list string :=
  ["file_path"; "element_name"; "element_type"; "signature"; "docstring"].

(** [embedding <=> %s::vector] on [code_elements]: the unqualified column is
    the table's. *)
Definition similar_distance : Distance :=
  {| d_alias := "code_elements"; d_column := "embedding" |}.

(** A stored row as the SELECT of [search_similar] sees it: every column of
    the table by its qualified name, NULL where the row holds no value, and
    the five selected columns. *)
Definition stored_row (columns : list Column) (row : Row) : SourceRow :=
  {| cells := map (fun c => ("code_elements." +:+ col_name c,
                             default VNull (dict_get (col_name c) row))) columns;
     projection := map (fun name => (name, default VNull (dict_get name row)))
                       similar_columns |}.

Definition has_columns (names : list string) (columns : list Column) : bool :=
  forallb (fun name => match find_column name columns with
                       | Some _ => true
                       | None => false
                       end) names.

(** A vector that is not of norm zero. *)
Definition nonzero (v : vector) : bool :=
  if Req_dec_T (dot v v) 0 then false else true.

(** The query vector has the dimension of the [embedding] column. *)
Definition dimension_fits (q : vector) (columns : list Column) : bool :=
  match find_column "embedding" columns with
  | Some c =>
      match col_type c with
      | TVector dim => Nat.eqb dim (length q)
      | _ => false
      end
  | None => false
  end.

Section Plan.
(** How the store answers the statement of [search_similar] is its own
    choice: by a scan of the table and a sort, or through the [ivfflat]
    index that [_ensure_schema] creates ([index_scan]).  The index keeps
    the vectors in lists, each around a centre fixed when the index was
    made, and leaves out NULLs and vectors of norm zero; [list_of v] is the
    list whose centre is nearest to [v].  A scan of the index looks at one
    list only, the one of the query vector (the setting [ivfflat.probes] is
    1 unless changed, and the code does not change it). *)
Variable index_scan : bool.
Variable list_of : vector -> nat.

(** The rows a scan of the index comes across. *)
Definition visited (q : vector) (r : SourceRow) : Result bool :=
  try! v := column r "code_elements" "embedding" in
  match v with
  | VVector e => ret (nonzero e && Nat.eqb (list_of e) (list_of q))
  | _ => ret false
  end.

(** The statement of [search_similar]:
    [SELECT file_path, element_name, element_type, signature, docstring,
            1 - (embedding <=> %s::vector) as similarity_score
     FROM code_elements WHERE embedding IS NOT NULL
     ORDER BY embedding <=> %s::vector LIMIT %s].
    The parameters are cast first; the limit is looked at when the statement
    starts to run, and with a limit of zero no row is fetched; a scan of the
    index compares the query vector with the centres of the lists, whatever
    the table holds, and so needs it to have the dimension of the column. *)
Definition select_similar (q_select q_order : vector) (limit : Z)
  : ST Database (list Row) :=
  fun db =>
    match relations db !! "code_elements" with
    | Some (TableRel columns rows) =>
        (db,
         if has_columns ("embedding" :: similar_columns) columns then
           try! qs := param_vector (PVector q_select) in
           try! qo := param_vector (PVector q_order) in
           if (limit <? 0)%Z then raise (DatabaseError "LIMIT must not be negative")
           else if (limit =? 0)%Z then ret []
           else
             try! candidates :=
               (if index_scan then
                  if dimension_fits qo columns
                  then filterM (visited qo) (map (stored_row columns) rows)
                  else raise (DatabaseError "different vector dimensions")
                else ret (map (stored_row columns) rows)) in
             try! kept := filterM (selected 0 [BNotNull "code_elements" "embedding"])
                                  candidates in
             try! keyed := mapM (with_key qo similar_distance) kept in
             mapM (output_row qs similar_distance)
                  (take (Z.to_nat limit) (sort_by_key keyed))
         else raise (DatabaseError "column does not exist"))
    | _ => (db, raise (DatabaseError "relation code_elements does not exist"))
    end.

(** [VectorDB.search_similar] *)
Definition search_similar (query_embedding : vector) (limit : Z)
  : ST Database (list (Row * Float)) :=
  do! rows := select_similar query_embedding query_embedding limit in
  fun db => (db, mapM shape_row rows).
End Plan.

(** [SELECT COUNT( * ) FROM code_elements], with an optional
    [WHERE element_type = '...']. *)
Definition select_count (element_type : option string) : ST Database nat :=
  fun db =>
    match relations db !! "code_elements" with
    | Some (TableRel columns rows) =>
        match element_type with
        | None => (db, ret (length rows))
        | Some t =>
            (db,
             if has_columns ["element_type"] columns then
               ret (length (List.filter
                              (fun row => match dict_get "element_type" row with
                                          | Some (VText s) => String.eqb s t
                                          | _ => false
                                          end) rows))
             else raise (DatabaseError "column element_type does not exist"))
        end
    | _ => (db, raise (DatabaseError "relation code_elements does not exist"))
    end.

(** The texts of a TEXT column, NULLs left out. *)
Definition column_texts (name : string) (rows : list Row) : list string :=
  flat_map (fun row => match dict_get name row with
                       | Some (VText s) => [s]
                       | _ => []
                       end) rows.

(** [SELECT COUNT(DISTINCT file_path) FROM code_elements] *)
Definition select_count_distinct_files : ST Database nat :=
  fun db =>
    match relations db !! "code_elements" with
    | Some (TableRel columns rows) =>
        (db,
         if has_columns ["file_path"] columns then
           ret (length (nodup String.string_dec (column_texts "file_path" rows)))
         else raise (DatabaseError "column file_path does not exist"))
    | _ => (db, raise (DatabaseError "relation code_elements does not exist"))
    end.

(** The dictionary [stats] returns. *)
Record Stats := {
  total_elements : nat;
  functions : nat;
  classes : nat;
  unique_files : nat
}.

(** [VectorDB.stats] *)
Definition stats : ST Database Stats :=
  do! total := select_count None in
  do! functions := select_count (Some "function") in
  do! classes := select_count (Some "class") in
  do! files := select_count_distinct_files in
  st_ret {| total_elements := total; functions := functions;
            classes := classes; unique_files := files |}.

(** ** [ProductionDB] *)

(** [search_messages(query_embedding, limit=10, hours=168)]: an argument left
    out is [None] here and takes the default of the signature. *)
Definition search_messages (self : ConfigurableTableSearch)
    (query_embedding : vector) (limit : option Z) (hours : option Z) : Run :=
  search self "messages" query_embedding (default 10 limit)
         (Some (default 168 hours)) None.

(** [search_facts(query_embedding, limit=10, min_confidence=0.6)] *)
Definition search_facts (self : ConfigurableTableSearch)
    (query_embedding : vector) (limit : option Z) (min_confidence : option R) : Run :=
  search self "facts" query_embedding (default 10 limit) None
         (Some (default (6 / 10)%R min_confidence)).

(** [ConfigurableTableSearch.get_available_tables] *)
Definition get_available_tables (self : ConfigurableTableSearch)
  : list (string * TableConfig) :=
  default [] (tables (config self)).

(** ** Vocabulary for the index *)

(** The check [INSERT] makes on a row. *)
Definition row_fits (columns : list Column) (row : Row) : bool :=
  forallb (assignable columns) row && forallb (omissible row) columns.

(** The index table is there with the columns of the schema and holds only
    rows that an [INSERT] accepts. *)
Definition index_holds (db : Database) (rows : list Row) : Prop :=
  relations db !! "code_elements" = Some (TableRel code_elements_columns rows) /\
  Forall (fun row => row_fits code_elements_columns row = true) rows.

Definition has_embedding (row : Row) : bool :=
  match dict_get "embedding" row with
  | Some VNull | None => false
  | Some _ => true
  end.

Definition row_vector (row : Row) : vector :=
  match dict_get "embedding" row with
  | Some (VVector e) => e
  | _ => []
  end.

(** What [search_similar] answers on an index that holds [rows]. *)
Definition similar_key (q : vector) (row : Row) : option Float * SourceRow :=
  (Some (cosine_distance (row_vector row) q), stored_row code_elements_columns row).

Definition similar_result (kr : option Float * SourceRow) : Row * Float :=
  (projection (snd kr), one_minus (default NaN (fst kr))).

(** The rows in the list of the index that a query vector falls in. *)
Definition in_list (list_of : vector -> nat) (q : vector) (row : Row) : bool :=
  has_embedding row && nonzero (row_vector row)
  && Nat.eqb (list_of (row_vector row)) (list_of q).

(** The rows the statement looks at, under either plan. *)
Definition searched (index_scan : bool) (list_of : vector -> nat) (q : vector)
    (rows : list Row) : list Row :=
  if index_scan then List.filter (in_list list_of q) rows
  else List.filter has_embedding rows.

Definition similar_results (index_scan : bool) (list_of : vector -> nat)
    (q : vector) (limit : Z) (rows : list Row) : list (Row * Float) :=
  map similar_result
      (take (Z.to_nat limit)
            (sort_by_key (map (similar_key q) (searched index_scan list_of q rows)))).

(** ** [cli.py]: [cmd_stats] and [cmd_find] *)

(** [cmd_stats].  As in [cmd_index], [db.close()] is left out. *)
Definition cmd_stats : ST World unit :=
  do! _ := on_database VectorDB in
  do! stats := on_database stats in
  do! _ := print "Code Search Statistics:" in
  do! _ := print ("Total elements: " +:+ pretty (total_elements stats)) in
  do! _ := print ("Functions: " +:+ pretty (functions stats)) in
  do! _ := print ("Classes: " +:+ pretty (classes stats)) in
  print ("Files indexed: " +:+ pretty (unique_files stats)).

(** [c * n] for a one-character string. *)
Fixpoint replicate_char (c : ascii) (n : nat) : string :=
  match n with
  | O => EmptyString
  | S n' => String c (replicate_char c n')
  end.

(** The preview of a docstring in [cmd_find]: its first 80 characters, with
    three dots when something was cut. *)
Definition docstring_preview (docstring : string) : string :=
  let preview := slice_to 80 docstring in
  if Nat.ltb 80 (len docstring) then preview +:+ "..." else preview.

(** [element[key]] for one of the TEXT columns of a result of
    [search_similar]: a [str] or [None].  A value of another kind has no
    counterpart in the store and is reported as a [TypeError]. *)
Definition text_field (element : Row) (key : string) : Result (option string) :=
  match dict_get key element with
  | None => raise (KeyError key)
  | Some VNull => ret None
  | Some (VText s) => ret (Some s)
  | Some _ => raise (TypeError "not a text column")
  end.

(** [f"{x}"] for a [str] or [None]. *)
Definition format_text (x : option string) : string := default "None" x.

Definition lift {S A} (r : Result A) : ST S A := fun s => (s, r).

Section Find.
(** [generate_embedding] is the provider of [embeddings.py]; [format_score]
    stands for the float formatting [f"{score:.3f}"], which the model of
    floats as real numbers does not give; [index_scan] and [list_of] are the
    plan of the store and the lists of its index. *)
Variable index_scan : bool.
Variable list_of : vector -> nat.
Variable generate_embedding : string -> option vector.
Variable format_score : Float -> string.

Record FindArgs := { query : string; limit : Z }.

(** The body of the loop over the results, for the result number [i]. *)
Definition print_found (i : nat) (element : Row) (score : Float) : ST World unit :=
  do! name := lift (text_field element "element_name") in
  do! _ := print (pretty i +:+ ". " +:+ format_text name +:+ " (score: "
                  +:+ format_score score +:+ ")") in
  do! path := lift (text_field element "file_path") in
  do! _ := print ("   File: " +:+ format_text path) in
  do! type := lift (text_field element "element_type") in
  do! _ := print ("   Type: " +:+ format_text type) in
  do! signature := lift (text_field element "signature") in
  do! _ := print ("   Signature: " +:+ format_text signature) in
  do! docstring := lift (text_field element "docstring") in
  do! _ := match docstring with
           | Some (String c s) =>
               print ("   Docstring: " +:+ docstring_preview (String c s))
           | _ => st_ret tt
           end in
  print EmptyString.

Fixpoint print_all_found (i : nat) (results : list (Row * Float)) : ST World unit :=
  match results with
  | [] => st_ret tt
  | (element, score) :: rest =>
      do! _ := print_found i element score in
      print_all_found (S i) rest
  end.

Definition cmd_find (args : FindArgs) : ST World unit :=
  do! _ := on_database VectorDB in
  match truthy_vector (generate_embedding (query args)) with
  | None => print "Failed to generate embedding for query"
  | Some query_embedding =>
      do! results := on_database (search_similar index_scan list_of query_embedding
                                    (limit args)) in
      match results with
      | [] => print "No results found"
      | _ :: _ =>
          do! _ := print (nl +:+ "Found " +:+ pretty (length results) +:+ " results:") in
          do! _ := print (replicate_char "-" 80) in
          print_all_found 1 results
      end
  end.
End Find.

(** ** The configuration file and the connection of
       [ConfigurableTableSearch] *)

(** What [yaml.safe_load] gives for [tables.yaml]: a value that is false
    ([None] for an empty file, an empty mapping), or a mapping, of which
    [Config] keeps the ["tables"] key. *)
Inductive Document :=
| Falsy
| Mapping (c : Config).

(** [{"tables": {}}] *)
Definition empty_config : Config := {| tables := Some [] |}.

Section Files.
(** The file system, as [load_table_config] sees it: [Path.exists], and
    [open] followed by [yaml.safe_load], which may raise.
    [skill_tables_yaml] is [Path(__file__).parent.parent / "tables.yaml"]. *)
Variable path_exists : string -> bool.
Variable safe_load : string -> Result Document.
Variable skill_tables_yaml : string.

(** The part of [load_table_config] after a path was settled. *)
Definition load_path (config_path : string) : Result Config :=
  if path_exists config_path then
    try! document := safe_load config_path in
    ret (match document with
         | Mapping c => c
         | Falsy => empty_config
         end)
  else ret empty_config.

Definition candidates : list string := ["/app/tables.yaml"; skill_tables_yaml].

(** The paths a call may read. *)
Definition consulted (config_path : option string) : list string :=
  match config_path with
  | Some config_path => [config_path]
  | None => candidates
  end.

Definition load_table_config (config_path : option string) : Result Config :=
  match config_path with
  | Some config_path => load_path config_path
  | None =>
      match List.find path_exists candidates with
      | Some candidate => load_path candidate
      | None => ret empty_config
      end
  end.

(** The keyword arguments of [psycopg2.connect]. *)
Record ConnectArguments := {
  host : string;
  port : string;
  dbname : string;
  user : string;
  password : string;
  sslmode : string
}.

(** [psycopg2.connect] and [os.environ] *)
Variable connect : ConnectArguments -> Result Connection.

Definition credentials_message : string :=
  "Production database credentials not configured. "
  +:+ "Set PGHOST, PGDATABASE, PGUSER, PGPASSWORD in arsenal/.env".

(** [ConfigurableTableSearch._connect], on the environment [environ]. *)
Definition _connect (environ : gmap string string) : Result Connection :=
  let host := environ !! "PROD_PGHOST" in
  let port := default "5432" (environ !! "PROD_PGPORT") in
  let database := environ !! "PROD_PGDATABASE" in
  let user := environ !! "PROD_PGUSER" in
  let password := environ !! "PROD_PGPASSWORD" in
  let sslmode := default "require" (environ !! "PROD_PGSSLMODE") in
  match truthy_str host, truthy_str database, truthy_str user, truthy_str password with
  | Some host, Some database, Some user, Some password =>
      connect {| host := host; port := port; dbname := database; user := user;
                 password := password; sslmode := sslmode |}
  | _, _, _, _ => raise (ValueError credentials_message)
  end.

(** [ConfigurableTableSearch.__init__] *)
Definition new_ConfigurableTableSearch (config_path : option string)
    (environ : gmap string string) : Result ConfigurableTableSearch :=
  try! config := load_table_config config_path in
  try! conn := _connect environ in
  ret {| conn := conn; config := config |}.
End Files.

(** ** Vocabulary for the commands *)

(** What [search_similar] shows of a unit. *)
Definition element_display (el : Element) : Row :=
  [ ("file_path", VText (file_path el)); ("element_name", VText (element_name el));
    ("element_type", VText (element_type el)); ("signature", VText (signature el));
    ("docstring", VText (docstring el)) ].

(** The database [VectorDB()] leaves behind: the extension, the table with
    sound rows, and the index on the embeddings. *)
Definition schema_ready (db : Database) (rows : list Row) : Prop :=
  "vector" ∈ extensions db /\
  index_holds db rows /\
  is_Some (relations db !! "idx_code_elements_embedding").

(** The lines [cmd_index] prints for the files it goes through. *)
Definition processing_lines (files : list string) : list string :=
  map (fun file_path => "Processing " +:+ file_path +:+ "...") files.

(** The last line of [cmd_index]. *)
Definition report_line (indexed_units files : nat) : string :=
  "Indexed " +:+ pretty indexed_units +:+ " elements from "
  +:+ pretty files +:+ " files".

(** The provider's vector for a unit, if any, has the dimension of the
    schema. *)
Definition embeds_well (create_searchable_text : string -> string -> string -> string)
    (generate_embedding : string -> option vector) (el : Element) : Prop :=
  forall v, embedding_of generate_embedding create_searchable_text el = Some v ->
            length v = 1536%nat.

(** The lines [cmd_stats] prints. *)
Definition stats_lines (s : Stats) : list string :=
  [ "Code Search Statistics:";
    "Total elements: " +:+ pretty (total_elements s);
    "Functions: " +:+ pretty (functions s);
    "Classes: " +:+ pretty (classes s);
    "Files indexed: " +:+ pretty (unique_files s) ].

(** A result of [search_similar] on a sound index. *)
Definition found_in (rows : list Row) (res : Row * Float) : Prop :=
  exists row, In row rows /\ row_fits code_elements_columns row = true /\
              fst res = projection (stored_row code_elements_columns row).

(** The variables [_connect] reads. *)
Definition credential_variables : list string :=
  ["PROD_PGHOST"; "PROD_PGDATABASE"; "PROD_PGUSER"; "PROD_PGPASSWORD"].

(** ** Sample index, environment and providers *)

Definition ones : vector := repeat 1%R 1536.

Definition ready_database : Database := fst (VectorDB fresh_database).

Definition sample_rows : list Row := [element_row sample_text unit_f ones].

Definition sample_index : Database :=
  fst (insert sample_text "a.py" "f" "function" "def f()" "adds" ones ready_database).

Definition sample_stats : Stats :=
  {| total_elements := 1; functions := 1; classes := 0; unique_files := 1 |}.

(** A provider whose vector for [unit_g] has two components. *)
Definition short_provider (text : string) : option vector :=
  if String.eqb text "g" then Some [1%R; 0%R] else sample_provider text.

Definition sample_args : Args := {| directory := "src"; clear := false |}.

Definition ready_world : World := {| database := ready_database; stdout := [] |}.

Definition sample_world : World := {| database := sample_index; stdout := [] |}.

(** A server that does not offer pgvector. *)
Definition bare_database : Database :=
  {| installable := ∅; extensions := ∅; relations := ∅ |}.

Definition three_decimals (score : Float) : string := "1.000".

(** The letter e with an acute accent, U+00E9, in UTF-8. *)
Definition e_acute : string :=
  String (ascii_of_nat 195) (String (ascii_of_nat 169) EmptyString).

(** One list for every vector. *)
Definition one_list (v : vector) : nat := 0%nat.

(** Two lists: one for the vectors whose first component is negative, one
    for the others. *)
Definition by_sign (v : vector) : nat :=
  match v with
  | x :: _ => if Rlt_dec x 0 then 1%nat else 0%nat
  | [] => 0%nat
  end.

Definition sample_environ : gmap string string :=
  list_to_map [("PROD_PGHOST", "db.example"); ("PROD_PGDATABASE", "prod");
               ("PROD_PGUSER", "reader"); ("PROD_PGPASSWORD", "secret")].

Definition sample_connect (args : ConnectArguments) : Result Connection :=
  ret (pg_connection (sample_store [])).

(** A server that listens on port 5432 and insists on SSL. *)
Definition strict_connect (args : ConnectArguments) : Result Connection :=
  if String.eqb (port args) "5432" && String.eqb (sslmode args) "require"
  then ret (pg_connection (sample_store []))
  else raise (DatabaseError "connection refused").

(** * Facts *)

(** ** The error monad and lists *)

Lemma bind_inr {A B} (m : Result A) (k : A -> Result B) b :
  bind m k = inr b -> exists a, m = inr a /\ k a = inr b.
Proof. destruct m as [e|a]; simpl; [discriminate | eauto]. Qed.

Lemma mapM_Forall2 {A B} (f : A -> Result B) l l' :
  mapM f l = inr l' -> Forall2 (fun a b => f a = inr b) l l'.
Proof.
  revert l'. induction l as [|a l IH]; simpl; intros l' H.
  - injection H as <-. constructor.
  - apply bind_inr in H as (b & Hb & H). apply bind_inr in H as (bs & Hbs & H).
    injection H as <-. constructor; auto.
Qed.

Lemma filterM_app {A} (f : A -> Result bool) l1 l2 :
  filterM f (l1 ++ l2) =
  try! a := filterM f l1 in try! b := filterM f l2 in ret (a ++ b).
Proof.
  induction l1 as [|x l1 IH]; simpl.
  - destruct (filterM f l2); reflexivity.
  - destruct (f x) as [e|b]; simpl; [reflexivity|]. rewrite IH.
    destruct (filterM f l1) as [e|a]; simpl; [reflexivity|].
    destruct (filterM f l2) as [e|c]; simpl; [reflexivity|].
    destruct b; reflexivity.
Qed.

Lemma filterM_sublist {A} (f : A -> Result bool) l kept :
  filterM f l = inr kept ->
  (forall x, In x kept -> In x l) /\ (length kept <= length l)%nat.
Proof.
  revert kept. induction l as [|a l IH]; simpl; intros kept H.
  - injection H as <-. split; [auto | simpl; lia].
  - apply bind_inr in H as (b & Hb & H). apply bind_inr in H as (rest & Hrest & H).
    injection H as <-. destruct (IH rest Hrest) as [Hin Hlen].
    destruct b; simpl; (split; [intros x; intuition | lia]).
Qed.

Lemma filterM_keeps {A} (f : A -> Result bool) l kept x :
  filterM f l = inr kept -> In x l -> f x = inr true -> In x kept.
Proof.
  revert kept. induction l as [|a l IH]; simpl; intros kept H Hin Hx; [contradiction|].
  apply bind_inr in H as (b & Hb & H). apply bind_inr in H as (rest & Hrest & H).
  injection H as <-. destruct Hin as [->|Hin].
  - rewrite Hx in Hb. injection Hb as <-. now left.
  - destruct b; [right|]; eauto.
Qed.

(** ** Strings and dictionaries *)

Lemma append_empty_r (s : string) : s +:+ EmptyString = s.
Proof.
  induction s as [|c s IH]; [reflexivity|].
  change (String c (s +:+ EmptyString) = String c s). now rewrite IH.
Qed.

Lemma append_assoc (a b c : string) : (a +:+ b) +:+ c = a +:+ b +:+ c.
Proof.
  induction a as [|x a IH]; [reflexivity|].
  change (String x ((a +:+ b) +:+ c) = String x (a +:+ b +:+ c)). now rewrite IH.
Qed.

(** A text that is not empty has a first character. *)
Lemma characters_first a t : exists c cs, characters (String a t) = c :: cs.
Proof.
  unfold characters. fold characters.
  destruct (characters t) as [|[|d g] gs]; [eauto | eauto |].
  destruct (is_continuation d); eauto.
Qed.

Lemma is_substring_refl s : is_substring s s.
Proof. exists EmptyString, EmptyString. simpl. now rewrite append_empty_r. Qed.

Lemma is_substring_app_l s m pre : is_substring s m -> is_substring s (pre +:+ m).
Proof.
  intros (p & q & ->). exists (pre +:+ p), q. now rewrite append_assoc.
Qed.

Lemma is_substring_app_r s m post : is_substring s m -> is_substring s (m +:+ post).
Proof.
  intros (p & q & ->). exists p, (q +:+ post). now rewrite !append_assoc.
Qed.

Lemma join_substring sep x l : In x l -> is_substring x (join sep l).
Proof.
  induction l as [|y l IH]; [contradiction|].
  intros [->|Hin].
  - destruct l; simpl; [apply is_substring_refl|].
    apply is_substring_app_r, is_substring_refl.
  - destruct l as [|z l]; [contradiction|].
    change (join sep (y :: z :: l)) with (y +:+ sep +:+ join sep (z :: l)).
    now apply is_substring_app_l, is_substring_app_l, IH.
Qed.

Lemma dict_get_None {V} k (d : list (string * V)) :
  dict_get k d = None <-> ~ In k (dict_keys d).
Proof.
  induction d as [|[k' v] d IH]; simpl.
  - tauto.
  - destruct (String.eqb_spec k k') as [->|Hne].
    + split; [discriminate | intros H; exfalso; apply H; now left].
    + rewrite IH. split; [intros H [E|I]; [congruence | tauto] | tauto].
Qed.

Lemma dict_get_set {V} k (v : V) d : dict_get k (dict_set k v d) = Some v.
Proof.
  induction d as [|[k' v'] d IH]; simpl.
  - now rewrite String.eqb_refl.
  - destruct (String.eqb k k') eqn:E; simpl; rewrite ?E; [|exact IH].
    now rewrite String.eqb_refl.
Qed.

Lemma dict_remove_set {V} k (v : V) d :
  dict_remove k (dict_set k v d) = dict_remove k d.
Proof.
  unfold dict_remove. induction d as [|[k' v'] d IH]; simpl.
  - now rewrite String.eqb_refl.
  - destruct (String.eqb k k') eqn:E; simpl; rewrite ?E; simpl.
    + now rewrite String.eqb_refl.
    + now rewrite IH.
Qed.

(** ** Query compilation *)

(** On a well-formed table entry [build_query] succeeds, and this is what it
    builds. *)
Lemma build_query_ok tc q limit h m :
  well_formed tc = true ->
  exists t e c stmt,
    table tc = Some t /\ embedding_column tc = Some e /\ content_column tc = Some c /\
    build_query tc q limit h m =
      inr (stmt, PVector q :: map snd (optional_conditions tc h m)
                   ++ [PVector q; PInt limit]) /\
    select_cols stmt =
      join ", " (default [alias_of tc +:+ ".id"; alias_of tc +:+ "." +:+ c]
                         (display_columns tc)) /\
    where_conditions stmt =
      EmbeddingNotNull (alias_of tc) e :: map fst (optional_conditions tc h m) /\
    score_expr stmt = {| d_alias := alias_of tc; d_column := e |} /\
    order_expr stmt = {| d_alias := alias_of tc; d_column := e |}.
Proof.
  unfold well_formed, build_query, optional_conditions, effective_hours,
    effective_confidence, alias_of, filters_of, first_char.
  destruct (table tc) as [[|a t]|]; try discriminate.
  destruct (embedding_column tc) as [e|]; try discriminate.
  destruct (content_column tc) as [c|]; try discriminate.
  intros _. exists (String a t), e, c. simpl.
  destruct (characters_first a t) as (ch & cs & ->). simpl.
  destruct (truthy_str (time_column _)); destruct (truthy_str (confidence_column _));
    simpl; eexists; repeat split; reflexivity.
Qed.

Lemma build_query_well_formed tc q limit h m r :
  build_query tc q limit h m = inr r -> well_formed tc = true.
Proof.
  unfold well_formed, build_query.
  destruct (table tc) as [[|a t]|]; simpl; try discriminate.
  - destruct (embedding_column tc); simpl; discriminate.
  - destruct (embedding_column tc) as [e|]; simpl; try discriminate.
    destruct (characters_first a t) as (ch & cs & ->). simpl.
    destruct (content_column tc) as [c|]; simpl; try discriminate. reflexivity.
Qed.

(** Neither the statement nor the exception depends on the arguments of the
    call. *)
Lemma build_query_statement_fixed tc q1 l1 h1 m1 q2 l2 h2 m2 :
  match build_query tc q1 l1 h1 m1, build_query tc q2 l2 h2 m2 with
  | inl e1, inl e2 => e1 = e2
  | inr (s1, _), inr (s2, _) => s1 = s2
  | _, _ => False
  end.
Proof.
  unfold build_query.
  destruct (table tc) as [[|a t]|]; simpl; try reflexivity.
  - destruct (embedding_column tc); simpl; reflexivity.
  - destruct (embedding_column tc); simpl; try reflexivity.
    destruct (characters_first a t) as (ch & cs & ->). simpl.
    destruct (content_column tc); simpl; try reflexivity.
    destruct (truthy_str (time_column _)); destruct (truthy_str (confidence_column _));
      reflexivity.
Qed.

Lemma search_found self table_name tc q limit h m stmt ps :
  dict_get table_name (default [] (tables (config self))) = Some tc ->
  build_query tc q limit h m = inr (stmt, ps) ->
  search self table_name q limit h m =
    {| executed := [(query_text stmt, ps)];
       outcome := bind (execute (conn self) stmt ps) (mapM shape_row) |}.
Proof. intros Hget Hb. unfold search. rewrite Hget, Hb. reflexivity. Qed.

(** What [search] sends to the store for a configured, well-formed table. *)
Lemma search_executes self table_name tc q limit h m :
  dict_get table_name (default [] (tables (config self))) = Some tc ->
  well_formed tc = true ->
  exists stmt,
    build_query tc q limit h m =
      inr (stmt, PVector q :: map snd (optional_conditions tc h m)
                   ++ [PVector q; PInt limit]) /\
    search self table_name q limit h m =
      {| executed := [(query_text stmt,
                       PVector q :: map snd (optional_conditions tc h m)
                         ++ [PVector q; PInt limit])];
         outcome := bind (execute (conn self) stmt
                            (PVector q :: map snd (optional_conditions tc h m)
                               ++ [PVector q; PInt limit]))
                         (mapM shape_row) |}.
Proof.
  intros Hget Hwf.
  destruct (build_query_ok tc q limit h m Hwf) as (t & e & c & stmt & _ & _ & _ & Hb & _).
  exists stmt. split; [exact Hb|]. exact (search_found _ _ tc _ _ _ _ _ _ Hget Hb).
Qed.

(** The text of the f-string, spelled out for the sample [messages] table. *)
Example messages_query_text :
  option_map (fun sp => query_text (fst sp))
    (match build_query messages_table [1%R; 0%R] 5 None None with
     | inr sp => Some sp
     | inl _ => None
     end) =
  Some (nl +:+ "            SELECT m.id, m.content, p.name as sender_name, 1 - (m.embedding <=> %s::vector) as similarity_score"
        +:+ nl +:+ "            FROM messages m JOIN persons p ON p.id = m.sender_id"
        +:+ nl +:+ "            WHERE m.embedding IS NOT NULL AND m.created_at >= NOW() - INTERVAL '%s hours'"
        +:+ nl +:+ "            ORDER BY m.embedding <=> %s::vector"
        +:+ nl +:+ "            LIMIT %s"
        +:+ nl +:+ "        ").
Proof. reflexivity. Qed.

Example messages_query_params :
  option_map snd
    (match build_query messages_table [1%R; 0%R] 5 (Some 48) None with
     | inr sp => Some sp
     | inl _ => None
     end) =
  Some [PVector [1%R; 0%R]; PInt 48; PVector [1%R; 0%R]; PInt 5].
Proof. reflexivity. Qed.

(** C1. The text of the statement [search] executes is fixed by the table
    configuration: two calls on the same object and table name, whatever
    their query vectors, limits, hours and confidence bounds, send the same
    SQL text.  The runtime values travel in the parameter list only: the
    query vector first, then the bound of each configured filter, then the
    query vector again and the limit. *)
Theorem search_text_independent_of_runtime_values
    self table_name q1 l1 h1 m1 q2 l2 h2 m2 :
  map fst (executed (search self table_name q1 l1 h1 m1)) =
  map fst (executed (search self table_name q2 l2 h2 m2)) /\
  forall text params,
    In (text, params) (executed (search self table_name q1 l1 h1 m1)) ->
    exists tc,
      dict_get table_name (default [] (tables (config self))) = Some tc /\
      params = PVector q1 :: map snd (optional_conditions tc h1 m1)
                 ++ [PVector q1; PInt l1].
Proof.
  split.
  - unfold search.
    destruct (dict_get table_name _) as [tc|]; [|reflexivity].
    pose proof (build_query_statement_fixed tc q1 l1 h1 m1 q2 l2 h2 m2) as H.
    destruct (build_query tc q1 l1 h1 m1) as [e1|[s1 p1]],
             (build_query tc q2 l2 h2 m2) as [e2|[s2 p2]]; simpl; try contradiction.
    + reflexivity.
    + now subst.
  - intros text params Hin. unfold search in Hin.
    destruct (dict_get table_name _) as [tc|] eqn:Hget; [|contradiction].
    destruct (build_query tc q1 l1 h1 m1) as [e1|[s1 p1]] eqn:Hb; [contradiction|].
    exists tc. split; [reflexivity|].
    pose proof (build_query_well_formed tc _ _ _ _ _ Hb) as Hwf.
    destruct (build_query_ok tc q1 l1 h1 m1 Hwf) as (t & e & c & stmt & _ & _ & _ & Hb' & _).
    rewrite Hb in Hb'. injection Hb' as _ ->.
    destruct Hin as [Hin|[]]. now injection Hin as _ <-.
Qed.

Lemma search_text_independent_of_runtime_values_witness :
  map fst (executed (search (sample_search []) "messages"
                            [1%R; 0%R] 5 (Some 48) None)) =
  map fst (executed (search (sample_search []) "messages"
                            [0%R; 1%R] 50 None (Some (5 / 10)%R))).
Proof.
  exact (proj1 (search_text_independent_of_runtime_values (sample_search [])
                  "messages" [1%R; 0%R] 5 (Some 48) None
                  [0%R; 1%R] 50 None (Some (5 / 10)%R))).
Defined.

(** The two calls differ in their parameter lists only. *)
Example search_parameters_differ :
  map snd (executed (search (sample_search []) "messages"
                            [1%R; 0%R] 5 (Some 48) None)) =
    [[PVector [1%R; 0%R]; PInt 48; PVector [1%R; 0%R]; PInt 5]] /\
  map snd (executed (search (sample_search []) "messages"
                            [0%R; 1%R] 50 None (Some (5 / 10)%R))) =
    [[PVector [0%R; 1%R]; PInt 24; PVector [0%R; 1%R]; PInt 50]].
Proof. split; reflexivity. Qed.

(** C4. A table name that is not a key of the loaded configuration makes
    [search] raise at once, whatever the other arguments: nothing is sent to
    the store, and the message of the [ValueError] holds the list of the
    configured names, each in its [repr] form. *)
Theorem search_unknown_table self table_name q limit h m :
  ~ In table_name (dict_keys (default [] (tables (config self)))) ->
  exists msg,
    search self table_name q limit h m =
      {| executed := []; outcome := inl (ValueError msg) |} /\
    msg = "Table '" +:+ table_name +:+ "' not configured. Available: "
          +:+ repr_list (dict_keys (default [] (tables (config self)))) /\
    forall name, In name (dict_keys (default [] (tables (config self)))) ->
                 is_substring (repr_str name) msg.
Proof.
  intros Hno. apply dict_get_None in Hno.
  eexists; repeat split.
  - unfold search. rewrite Hno. reflexivity.
  - intros name Hin.
    apply is_substring_app_l, is_substring_app_l, is_substring_app_l.
    unfold repr_list. apply is_substring_app_l, is_substring_app_r.
    apply join_substring, in_map, Hin.
Qed.

Lemma search_unknown_table_witness :
  search (sample_search []) "users" [1%R] 5 None None =
    {| executed := [];
       outcome := inl (ValueError
         "Table 'users' not configured. Available: ['messages', 'facts', 'notes']") |}.
Proof.
  destruct (search_unknown_table (sample_search []) "users" [1%R] 5 None None)
    as (msg & Hrun & Hmsg & _).
  - simpl. intros [H|[H|[H|[]]]]; discriminate H.
  - rewrite Hrun, Hmsg. reflexivity.
Defined.

(** ** Cosine distance *)

Section Cosine.
Local Open Scope R_scope.

Lemma dot_self_nonneg a : 0 <= dot a a.
Proof. induction a as [|x a IH]; simpl; [lra | nra]. Qed.

Lemma cauchy_schwarz a b : dot a b * dot a b <= dot a a * dot b b.
Proof.
  revert b. induction a as [|x a IH]; intros [|y b]; simpl.
  - lra.
  - lra.
  - pose proof (dot_self_nonneg a). nra.
  - pose proof (dot_self_nonneg a) as HA. pose proof (dot_self_nonneg b) as HB.
    specialize (IH b).
    set (s := dot a b) in *. set (A := dot a a) in *. set (B := dot b b) in *.
    assert (Hmix : 2 * (x * y * s) <= x * x * B + y * y * A).
    { destruct (Req_dec A 0) as [HA0|HA0].
      - assert (s = 0) by nra. subst s. rewrite H, HA0. nra.
      - assert (0 < A) by lra.
        assert (0 <= A * (x * x * B + y * y * A - 2 * (x * y * s))).
        { replace (A * (x * x * B + y * y * A - 2 * (x * y * s)))
            with (x * x * (A * B - s * s) + (x * s - y * A) * (x * s - y * A)) by ring.
          assert (0 <= x * x * (A * B - s * s)) by (apply Rmult_le_pos; nra).
          pose proof (Rle_0_sqr (x * s - y * A)) as Hsq. unfold Rsqr in Hsq. lra. }
        apply Rmult_le_reg_l with A; [lra | lra]. }
    nra.
Qed.

(** The cosine of an angle lies between -1 and 1, both attained. *)
Lemma cosine_distance_finite a b x : cosine_distance a b = Finite x -> 0 <= x <= 2.
Proof.
  unfold cosine_distance.
  destruct (Req_dec_T (dot a a * dot b b) 0) as [E|E]; [discriminate|].
  intros Hx. injection Hx as <-.
  pose proof (cauchy_schwarz a b) as HCS.
  pose proof (dot_self_nonneg a) as HA. pose proof (dot_self_nonneg b) as HB.
  assert (HAB : 0 <= dot a a * dot b b) by (apply Rmult_le_pos; assumption).
  pose proof (sqrt_sqrt _ HAB) as HN. pose proof (sqrt_pos (dot a a * dot b b)) as HN0.
  set (N := sqrt (dot a a * dot b b)) in *. set (s := dot a b) in *.
  assert (N <> 0) by (intros E0; rewrite E0 in HN; lra).
  assert (0 < N) by lra. assert (Hi : 0 < / N) by now apply Rinv_0_lt_compat.
  assert (HNi : N * / N = 1) by now apply Rinv_r.
  assert (- N <= s <= N) by nra.
  unfold Rdiv. set (i := / N) in *.
  assert (- (N * i) <= s * i <= N * i) by nra. lra.
Qed.

Lemma cosine_distance_range a b : between_or_nan 0 2 (cosine_distance a b).
Proof.
  destruct (cosine_distance a b) as [x|] eqn:E; simpl; [|exact I].
  now apply cosine_distance_finite in E.
Qed.

Lemma score_range a b : between_or_nan (-1) 1 (one_minus (cosine_distance a b)).
Proof.
  pose proof (cosine_distance_range a b) as H.
  destruct (cosine_distance a b); simpl in *; [lra | exact I].
Qed.

(** The distance is a number unless one of the vectors has norm zero. *)
Lemma cosine_distance_number a b :
  dot a a * dot b b <> 0 ->
  cosine_distance a b = Finite (1 - dot a b / sqrt (dot a a * dot b b)).
Proof.
  intros H. unfold cosine_distance.
  destruct (Req_dec_T (dot a a * dot b b) 0); [contradiction | reflexivity].
Qed.

Lemma cosine_distance_nan a b : dot a a * dot b b = 0 -> cosine_distance a b = NaN.
Proof.
  intros H. unfold cosine_distance.
  destruct (Req_dec_T (dot a a * dot b b) 0); [reflexivity | contradiction].
Qed.

Lemma cosine_distance_self v : 0 < dot v v -> cosine_distance v v = Finite 0.
Proof.
  intros Hpos. rewrite cosine_distance_number by nra.
  rewrite sqrt_square by lra. unfold Rdiv. rewrite Rinv_r by lra. f_equal. lra.
Qed.

Lemma cosine_distance_same : cosine_distance [1; 0] [1; 0] = Finite 0.
Proof. apply cosine_distance_self. simpl. lra. Qed.

Lemma cosine_distance_orthogonal : cosine_distance [0; 1] [1; 0] = Finite 1.
Proof.
  rewrite cosine_distance_number by (simpl; lra). simpl.
  replace ((0 * 0 + (1 * 1 + 0)) * (1 * 1 + (0 * 0 + 0))) with 1 by lra.
  rewrite sqrt_1. f_equal. lra.
Qed.

Lemma cosine_distance_opposite : cosine_distance [-1] [1] = Finite 2.
Proof.
  rewrite cosine_distance_number by (simpl; lra). simpl.
  replace ((-1 * -1 + 0) * (1 * 1 + 0)) with 1 by lra.
  rewrite sqrt_1. f_equal. lra.
Qed.

(** A stored vector of norm zero has no angle with the query vector. *)
Lemma cosine_distance_zero : cosine_distance [0; 0] [1; 0] = NaN.
Proof. apply cosine_distance_nan. simpl. lra. Qed.
End Cosine.

(** The distances between the sample vectors. *)
Ltac known_distances :=
  rewrite ?cosine_distance_same, ?cosine_distance_orthogonal,
    ?cosine_distance_opposite, ?cosine_distance_zero.

(** ** The statement at the store *)

Lemma compiled_built tc q limit h m stmt ps :
  build_query tc q limit h m = inr (stmt, ps) -> compiled tc = Some stmt.
Proof.
  intros Hb. unfold compiled.
  pose proof (build_query_statement_fixed tc [] 0 None None q limit h m) as H.
  rewrite Hb in H.
  destruct (build_query tc [] 0 None None) as [err|[s ps']]; [contradiction | now subst].
Qed.

Lemma bind_conditions_optional tc h m rest :
  bind_conditions (map fst (optional_conditions tc h m))
                  (map snd (optional_conditions tc h m) ++ rest)
  = inr (bound_optional tc h m, rest).
Proof.
  unfold optional_conditions, bound_optional.
  destruct (truthy_str (time_column _)); destruct (truthy_str (confidence_column _));
    reflexivity.
Qed.

(** The parameter list of [search] fills the placeholders of its statement:
    binding fails only on an empty query vector, and the SELECT list and the
    ORDER BY clause get the same vector. *)
Lemma bind_statement_built tc q limit h m stmt e :
  where_conditions stmt =
    EmbeddingNotNull (alias_of tc) e :: map fst (optional_conditions tc h m) ->
  bind_statement stmt (PVector q :: map snd (optional_conditions tc h m)
                         ++ [PVector q; PInt limit])
  = match q with
    | [] => inl (DatabaseError "malformed vector literal")
    | _ :: _ =>
        inr {| b_select_vector := q;
               b_conditions := BNotNull (alias_of tc) e :: bound_optional tc h m;
               b_order_vector := q;
               b_limit := limit |}
    end.
Proof.
  intros Hw. unfold bind_statement. rewrite Hw.
  destruct q as [|x q]; [reflexivity|]. simpl.
  rewrite bind_conditions_optional. reflexivity.
Qed.

(** Of the conditions of [search] only the time bound can be out of
    range. *)
Lemma checks_built {A} now tc e h m (k : Result A) :
  bind (mapM (check_condition now)
             (BNotNull (alias_of tc) e :: bound_optional tc h m)) (fun _ => k)
  = if time_bound_ok now tc h then k
    else inl (DatabaseError "timestamp out of range").
Proof.
  unfold bound_optional, time_bound_ok.
  destruct (truthy_str (time_column _)); destruct (truthy_str (confidence_column _));
    simpl; try destruct (time_bound_in_range _ _); reflexivity.
Qed.

Lemma pg_plan_built st tc q limit h m stmt e :
  where_conditions stmt =
    EmbeddingNotNull (alias_of tc) e :: map fst (optional_conditions tc h m) ->
  pg_plan st stmt (PVector q :: map snd (optional_conditions tc h m)
                     ++ [PVector q; PInt limit])
  = if reads (query_text stmt) stmt then
      match q with
      | [] => inl (DatabaseError "malformed vector literal")
      | _ :: _ =>
          if time_bound_ok (now st) tc h then
            inr {| b_select_vector := q;
                   b_conditions := BNotNull (alias_of tc) e :: bound_optional tc h m;
                   b_order_vector := q;
                   b_limit := limit |}
          else inl (DatabaseError "timestamp out of range")
      end
    else inl (DatabaseError "syntax error").
Proof.
  intros Hw. unfold pg_plan.
  destruct (reads (query_text stmt) stmt); [|reflexivity].
  rewrite (bind_statement_built tc q limit h m stmt e Hw).
  destruct q as [|x q]; [reflexivity|].
  change (bind (inr ?b) ?k) with (k b). cbv beta. cbn [b_conditions].
  apply checks_built.
Qed.

(** The outcome of [search] against the modelled store, as one expression. *)
Lemma search_pg_outcome st cfg table_name tc q limit h m :
  dict_get table_name (default [] (tables cfg)) = Some tc ->
  well_formed tc = true ->
  outcome (search {| conn := pg_connection st; config := cfg |}
                  table_name q limit h m) =
  if readable tc then
    match q with
    | [] => inl (DatabaseError "malformed vector literal")
    | _ :: _ =>
        if time_bound_ok (now st) tc h then
          if (limit <? 0)%Z then inl (DatabaseError "LIMIT must not be negative")
          else if (limit =? 0)%Z then inr []
          else
            try! kept := filterM (selected (now st) (bound_conditions tc h m))
                                 (source st) in
            try! keyed := mapM (with_key q (embedding_distance tc)) kept in
            try! rows := mapM (output_row q (embedding_distance tc))
                              (take (Z.to_nat limit) (sort_by_key keyed)) in
            mapM shape_row rows
        else inl (DatabaseError "timestamp out of range")
    end
  else inl (DatabaseError "syntax error").
Proof.
  intros Hget Hwf.
  destruct (build_query_ok tc q limit h m Hwf)
    as (t & e & c & stmt & Ht & He & Hc & Hb & Hsel & Hw & Hs & Ho).
  rewrite (search_found {| conn := pg_connection st; config := cfg |}
             _ _ _ _ _ _ _ _ Hget Hb).
  unfold readable. rewrite (compiled_built _ _ _ _ _ _ _ Hb).
  cbn [outcome conn pg_connection execute].
  unfold pg_execute. rewrite (pg_plan_built st tc q limit h m stmt e Hw).
  destruct (reads (query_text stmt) stmt); [|reflexivity].
  destruct q as [|x q]; [reflexivity|].
  destruct (time_bound_ok (now st) tc h); [|reflexivity].
  change (bind (inr ?b) ?k) with (k b). cbv beta. cbn [b_limit].
  destruct (limit <? 0)%Z; [reflexivity|].
  destruct (limit =? 0)%Z; [reflexivity|].
  unfold pg_scan, bound_conditions, embedding_distance. rewrite He, Hs, Ho.
  cbn [b_conditions b_order_vector b_select_vector b_limit default].
  destruct (filterM _ _) as [err|kept]; [reflexivity|].
  change (bind (inr ?b) ?k) with (k b). cbv beta.
  destruct (mapM _ kept) as [err|keyed]; reflexivity.
Qed.

(** The sample tables compile to texts that the store reads. *)
Lemma sample_tables_readable :
  readable messages_table = true /\ readable facts_table = true /\
  readable notes_table = true.
Proof. repeat split; vm_compute; reflexivity. Qed.

(** Settles the comparisons of real constants that a concrete run of the
    store leaves behind. *)
Ltac settle_comparisons :=
  repeat match goal with
         | |- context [bool_decide (?a <= ?b)%R] =>
             first [ rewrite (bool_decide_eq_true_2 (a <= b)%R)
                       by (known_distances; lra)
                   | rewrite (bool_decide_eq_false_2 (a <= b)%R)
                       by (known_distances; lra) ]
         | |- context [bool_decide (?a < ?b)%R] =>
             first [ rewrite (bool_decide_eq_true_2 (a < b)%R)
                       by (known_distances; lra)
                   | rewrite (bool_decide_eq_false_2 (a < b)%R)
                       by (known_distances; lra) ]
         end.

(** Works out the characters of a constant text. *)
Ltac eval_characters :=
  repeat match goal with
         | |- context [characters ?s] =>
             let l := eval vm_compute in (characters s) in
             change (characters s) with l
         end.

Ltac eval_limit :=
  repeat match goal with
         | |- context [Z.to_nat ?z] =>
             let n := eval vm_compute in (Z.to_nat z) in
             progress change (Z.to_nat z) with n
         end.

(** Runs the modelled store on concrete rows. *)
Ltac run_store :=
  rewrite ?(proj1 sample_tables_readable),
    ?(proj1 (proj2 sample_tables_readable)),
    ?(proj2 (proj2 sample_tables_readable));
  repeat (cbn;
          unfold time_bound_ok, time_bound_in_range, min_timestamp, end_timestamp,
            selected, bound_conditions, bound_optional, filters_of, alias_of,
            first_char, effective_hours, effective_confidence, embedding_distance,
            condition_holds, column, with_key, output_row, distance_to, shape_row,
            dict_pop, key_le, sort_by_key, score_value, py_float, bind, ret, raise;
          eval_characters; eval_limit;
          cbv [String.append]; cbn; known_distances; settle_comparisons).

(** ** Limits and dimensions are left to the store *)

(** C2, as amended. [search] does not check [limit]: for every limit, zero
    and negative ones included, a configured well-formed table makes it send
    exactly one statement, with the limit as the last bound parameter, and
    its outcome is the store's answer, shaped row by row.  The modelled
    store itself refuses a negative limit: the call raises, and the error is
    the one of the limit whenever the store had nothing to say against the
    text, the query vector and the time bound, which it looks at first. *)
Theorem search_passes_any_limit self table_name tc q limit h m :
  dict_get table_name (default [] (tables (config self))) = Some tc ->
  well_formed tc = true ->
  (exists stmt params,
     build_query tc q limit h m = inr (stmt, params) /\
     last params = Some (PInt limit) /\
     executed (search self table_name q limit h m) = [(query_text stmt, params)] /\
     outcome (search self table_name q limit h m) =
       bind (execute (conn self) stmt params) (mapM shape_row)) /\
  (forall st, conn self = pg_connection st -> (limit < 0)%Z ->
     exists err,
       outcome (search self table_name q limit h m) = inl err /\
       (readable tc = true -> q <> [] -> time_bound_ok (now st) tc h = true ->
        err = DatabaseError "LIMIT must not be negative")).
Proof.
  intros Hget Hwf. split.
  - destruct (search_executes self table_name tc q limit h m Hget Hwf)
      as (stmt & Hb & Hrun).
    exists stmt. eexists. split; [exact Hb|]. rewrite Hrun. simpl.
    repeat split.
    replace (PVector q :: map snd (optional_conditions tc h m) ++ [PVector q; PInt limit])
      with ((PVector q :: map snd (optional_conditions tc h m) ++ [PVector q])
              ++ [PInt limit]) by (simpl; now rewrite <- app_assoc).
    apply last_snoc.
  - intros st Hconn Hneg. destruct self as [c cfg]. simpl in *. subst c.
    rewrite (search_pg_outcome st cfg table_name tc q limit h m Hget Hwf).
    apply Z.ltb_lt in Hneg. rewrite Hneg.
    destruct (readable tc); [|eexists; split; [reflexivity | discriminate]].
    destruct q as [|x q]; [eexists; split; [reflexivity | congruence]|].
    destruct (time_bound_ok (now st) tc h).
    + eexists. split; reflexivity.
    + eexists. split; [reflexivity | discriminate].
Qed.

Lemma search_passes_any_limit_witness :
  executed (search (sample_search []) "facts" [1%R; 0%R] 0 None None) <> [] /\
  outcome (search (sample_search []) "facts" [1%R; 0%R] (-1) None None) =
    inl (DatabaseError "LIMIT must not be negative").
Proof.
  split.
  - destruct (search_passes_any_limit (sample_search []) "facts" facts_table
                [1%R; 0%R] 0 None None eq_refl eq_refl)
      as [(stmt & params & _ & _ & Hrun & _) _].
    rewrite Hrun. discriminate.
  - destruct (search_passes_any_limit (sample_search []) "facts" facts_table
                [1%R; 0%R] (-1) None None eq_refl eq_refl) as [_ Hneg].
    destruct (Hneg (sample_store []) eq_refl ltac:(lia)) as (err & Hout & Herr).
    rewrite Hout. f_equal. apply Herr.
    + apply sample_tables_readable.
    + discriminate.
    + reflexivity.
Defined.

(** C2 as stated fails: with limit 0 the statement goes to the store. *)
Lemma zero_limit_reaches_store :
  ~ rejects_before_executing
      (search (sample_search []) "facts" [1%R; 0%R] 0 None None).
Proof. intros [H _]. discriminate H. Qed.

(** With limit 0 the call even succeeds, with no result. *)
Example zero_limit_returns_nothing :
  outcome (search (sample_search [fact_record 1 "tea" [1%R; 0%R] (9 / 10)%R])
                  "facts" [1%R; 0%R] 0 None None) = inr [].
Proof.
  unfold sample_search.
  rewrite (search_pg_outcome _ _ _ facts_table) by reflexivity.
  run_store. reflexivity.
Qed.

(** A negative limit together with an empty query vector: the store
    stumbles over the vector first. *)
Example negative_limit_after_the_vector :
  outcome (search (sample_search []) "facts" [] (-1) None None)
  = inl (DatabaseError "malformed vector literal").
Proof.
  unfold sample_search.
  rewrite (search_pg_outcome _ _ _ facts_table) by reflexivity.
  run_store. reflexivity.
Qed.

(** C3, as amended. [search] does not look at the dimension of the query
    vector: whatever its length, a configured well-formed table makes it
    send exactly one statement, with the vector bound to the first
    placeholder and to the one of the ORDER BY clause.  What the store
    answers is what the call answers: rows are shaped, and an error of the
    store is raised unchanged. *)
Theorem search_passes_any_vector self table_name tc q limit h m :
  dict_get table_name (default [] (tables (config self))) = Some tc ->
  well_formed tc = true ->
  exists stmt bounds,
    build_query tc q limit h m =
      inr (stmt, PVector q :: bounds ++ [PVector q; PInt limit]) /\
    executed (search self table_name q limit h m) =
      [(query_text stmt, PVector q :: bounds ++ [PVector q; PInt limit])] /\
    (forall rows,
       execute (conn self) stmt (PVector q :: bounds ++ [PVector q; PInt limit])
         = inr rows ->
       outcome (search self table_name q limit h m) = mapM shape_row rows) /\
    (forall err,
       execute (conn self) stmt (PVector q :: bounds ++ [PVector q; PInt limit])
         = inl err ->
       outcome (search self table_name q limit h m) = inl err).
Proof.
  intros Hget Hwf.
  destruct (search_executes self table_name tc q limit h m Hget Hwf)
    as (stmt & Hb & Hrun).
  exists stmt, (map snd (optional_conditions tc h m)).
  split; [exact Hb|]. rewrite Hrun. simpl.
  repeat split; intros x Hx; now rewrite Hx.
Qed.

Lemma search_passes_any_vector_witness :
  exists text params,
    executed (search (sample_search [fact_record 1 "tea" [1%R; 0%R; 0%R] (9 / 10)%R])
                     "facts" [1%R; 0%R] 5 None None) = [(text, params)] /\
    In (PVector [1%R; 0%R]) params.
Proof.
  destruct (search_passes_any_vector
              (sample_search [fact_record 1 "tea" [1%R; 0%R; 0%R] (9 / 10)%R])
              "facts" facts_table [1%R; 0%R] 5 None None eq_refl eq_refl)
    as (stmt & bounds & _ & Hrun & _).
  eexists _, _. split; [exact Hrun | now left].
Defined.

(** C3 as stated fails: a query vector of two components against stored
    embeddings of three is sent to the store all the same. *)
Lemma wrong_dimension_reaches_store :
  ~ rejects_before_executing
      (search (sample_search [fact_record 1 "tea" [1%R; 0%R; 0%R] (9 / 10)%R])
              "facts" [1%R; 0%R] 5 None None).
Proof. intros [H _]. discriminate H. Qed.

(** There the store raises, when it compares the vectors. *)
Example wrong_dimension_raised_by_store :
  outcome (search (sample_search [fact_record 1 "tea" [1%R; 0%R; 0%R] (9 / 10)%R])
                  "facts" [1%R; 0%R] 5 None None)
  = inl (DatabaseError "different vector dimensions").
Proof.
  unfold sample_search.
  rewrite (search_pg_outcome _ _ _ facts_table) by reflexivity.
  run_store. reflexivity.
Qed.

(** With nothing to compare against, the scan of a table checks no
    dimension. *)
Example wrong_dimension_unnoticed_on_empty_store :
  outcome (search (sample_search []) "facts" [1%R; 0%R] 5 None None) = inr [].
Proof.
  unfold sample_search.
  rewrite (search_pg_outcome _ _ _ facts_table) by reflexivity.
  run_store. reflexivity.
Qed.

(** A vector without components has no cast to [vector]: the store raises,
    whatever it holds. *)
Example empty_vector_refused_by_store :
  outcome (search (sample_search []) "facts" [] 5 None None)
  = inl (DatabaseError "malformed vector literal").
Proof.
  unfold sample_search.
  rewrite (search_pg_outcome _ _ _ facts_table) by reflexivity.
  run_store. reflexivity.
Qed.


(** ** Defaults of the configuration *)

Lemma optional_conditions_time tc h m col :
  truthy_str (time_column (filters_of tc)) = Some col ->
  exists rest,
    optional_conditions tc h m =
      (TimeWithin (alias_of tc) col, PInt (effective_hours tc h)) :: rest.
Proof. intros H. unfold optional_conditions. rewrite H. simpl. eauto. Qed.

Lemma optional_conditions_confidence tc h m col :
  truthy_str (confidence_column (filters_of tc)) = Some col ->
  exists front,
    optional_conditions tc h m =
      front ++ [(ConfidenceAtLeast (alias_of tc) col,
                 PFloat (effective_confidence tc m))].
Proof. intros H. unfold optional_conditions. rewrite H. eauto. Qed.

(** The text of a statement shows each of its conditions, its score and its
    ORDER BY clause. *)
Lemma condition_in_text stmt c :
  In c (where_conditions stmt) -> is_substring (condition_sql c) (query_text stmt).
Proof.
  intros Hin. unfold query_text.
  do 11 apply is_substring_app_l. apply is_substring_app_r.
  unfold where_clause. apply join_substring, in_map, Hin.
Qed.

Lemma query_text_shape stmt :
  selects_score (query_text stmt) (distance_sql (score_expr stmt)) /\
  orders_by (query_text stmt) (distance_sql (order_expr stmt)).
Proof.
  split.
  - exists (select_cols stmt),
      (from_clause stmt +:+ nl +:+ indent12 +:+ "WHERE " +:+ where_clause stmt
       +:+ nl +:+ indent12 +:+ "ORDER BY " +:+ order_clause stmt
       +:+ nl +:+ indent12 +:+ "LIMIT %s" +:+ nl +:+ indent8).
    unfold query_text, select_clause. now rewrite !append_assoc.
  - exists (nl +:+ indent12 +:+ "SELECT " +:+ select_clause stmt
            +:+ nl +:+ indent12 +:+ "FROM " +:+ from_clause stmt
            +:+ nl +:+ indent12 +:+ "WHERE " +:+ where_clause stmt).
    unfold query_text, order_clause. now rewrite !append_assoc.
Qed.

(** What the bound 0.0 lets through: NULL does not pass, and neither does a
    negative confidence. *)
Lemma confidence_bound_zero now r a col v :
  column r a col = inr v ->
  condition_holds now r (BConfidenceAtLeast a col 0) = inr true <->
  v = VNaN \/ (exists x, v = VFloat x /\ (0 <= x)%R)
  \/ (exists n, v = VInt n /\ (0 <= n)%Z).
Proof.
  intros Hv. unfold condition_holds. rewrite Hv. simpl.
  destruct v as [|n|x| |s|t|w]; simpl; split; intros H;
    try discriminate; try (destruct H as [H|[(y & H & _)|(y & H & _)]]; discriminate).
  - right. right. exists n. split; [reflexivity|].
    injection H as H. apply bool_decide_eq_true in H. now apply le_IZR.
  - destruct H as [H|[(y & H & _)|(y & H & Hy)]]; try discriminate.
    injection H as <-. f_equal. apply bool_decide_eq_true. now apply IZR_le.
  - right. left. exists x. split; [reflexivity|].
    injection H as H. now apply bool_decide_eq_true in H.
  - destruct H as [H|[(y & H & Hy)|(y & H & _)]]; try discriminate.
    injection H as <-. f_equal. now apply bool_decide_eq_true.
  - now left.
  - reflexivity.
Qed.

(** C10, as amended. A table entry that names a filter column without a
    default still makes [search] send its statement: with [hours] omitted
    the time condition is there and its bound is 168, with [min_confidence]
    omitted the confidence condition is there and its bound is 0.0; and
    without [display_columns] the statement selects the aliased [id] and the
    aliased content column.  The bound 0.0 lets through the confidences
    from 0 up (and NaN), not every one: a negative or unknown (NULL)
    confidence fails it. *)
Theorem search_built_in_defaults self table_name tc q limit :
  dict_get table_name (default [] (tables (config self))) = Some tc ->
  well_formed tc = true ->
  (forall col m,
     truthy_str (time_column (filters_of tc)) = Some col ->
     default_hours (filters_of tc) = None ->
     exists stmt rest,
       executed (search self table_name q limit None m) =
         [(query_text stmt, PVector q :: PInt 168 :: rest)] /\
       In (TimeWithin (alias_of tc) col) (where_conditions stmt) /\
       is_substring (alias_of tc +:+ "." +:+ col +:+ " >= NOW() - INTERVAL '%s hours'")
                    (query_text stmt)) /\
  (forall col h,
     truthy_str (confidence_column (filters_of tc)) = Some col ->
     default_min_confidence (filters_of tc) = None ->
     (exists stmt front,
        executed (search self table_name q limit h None) =
          [(query_text stmt, front ++ [PFloat 0; PVector q; PInt limit])] /\
        In (ConfidenceAtLeast (alias_of tc) col) (where_conditions stmt) /\
        is_substring (alias_of tc +:+ "." +:+ col +:+ " >= %s") (query_text stmt)) /\
     (forall now r v,
        column r (alias_of tc) col = inr v ->
        condition_holds now r (BConfidenceAtLeast (alias_of tc) col 0) = inr true <->
        v = VNaN \/ (exists x, v = VFloat x /\ (0 <= x)%R)
        \/ (exists n, v = VInt n /\ (0 <= n)%Z))) /\
  (forall c h m,
     display_columns tc = None -> content_column tc = Some c ->
     exists stmt params rest,
       executed (search self table_name q limit h m) = [(query_text stmt, params)] /\
       select_cols stmt =
         alias_of tc +:+ ".id" +:+ ", " +:+ alias_of tc +:+ "." +:+ c /\
       query_text stmt =
         nl +:+ indent12 +:+ "SELECT " +:+ alias_of tc +:+ ".id" +:+ ", "
         +:+ alias_of tc +:+ "." +:+ c +:+ ", 1 - (" +:+ rest).
Proof.
  intros Hget Hwf. split; [|split].
  - intros col m Hcol Hdef.
    destruct (search_executes self table_name tc q limit None m Hget Hwf)
      as (stmt & Hb & Hrun).
    destruct (build_query_ok tc q limit None m Hwf)
      as (t & e & c & stmt' & _ & _ & _ & Hb' & _ & Hw & _).
    rewrite Hb in Hb'. injection Hb' as <-.
    destruct (optional_conditions_time tc None m col Hcol) as (rest & Hoc).
    unfold effective_hours in Hoc. rewrite Hdef in Hoc. simpl in Hoc.
    rewrite Hoc in Hrun, Hw. simpl in Hrun, Hw.
    assert (Hin : In (TimeWithin (alias_of tc) col) (where_conditions stmt))
      by (rewrite Hw; right; now left).
    exists stmt. eexists. split; [rewrite Hrun; reflexivity|].
    split; [exact Hin|]. exact (condition_in_text stmt _ Hin).
  - intros col h Hcol Hdef. split.
    + destruct (search_executes self table_name tc q limit h None Hget Hwf)
        as (stmt & Hb & Hrun).
      destruct (build_query_ok tc q limit h None Hwf)
        as (t & e & c & stmt' & _ & _ & _ & Hb' & _ & Hw & _).
      rewrite Hb in Hb'. injection Hb' as <-.
      destruct (optional_conditions_confidence tc h None col Hcol) as (front & Hoc).
      unfold effective_confidence in Hoc. rewrite Hdef in Hoc. simpl in Hoc.
      rewrite Hoc in Hrun, Hw. rewrite map_app in Hrun, Hw. simpl in Hrun, Hw.
      assert (Hin : In (ConfidenceAtLeast (alias_of tc) col) (where_conditions stmt))
        by (rewrite Hw; right; apply in_or_app; right; now left).
      exists stmt, (PVector q :: map snd front). split; [|split].
      * rewrite Hrun. simpl. now rewrite <- app_assoc.
      * exact Hin.
      * exact (condition_in_text stmt _ Hin).
    + intros now r v. apply confidence_bound_zero.
  - intros c h m Hdisp Hc.
    destruct (search_executes self table_name tc q limit h m Hget Hwf)
      as (stmt & Hb & Hrun).
    destruct (build_query_ok tc q limit h m Hwf)
      as (t & e & c' & stmt' & _ & _ & Hc' & Hb' & Hsel & _).
    rewrite Hb in Hb'. injection Hb' as <-.
    rewrite Hc in Hc'. injection Hc' as <-.
    assert (Hcols : select_cols stmt =
                    alias_of tc +:+ ".id" +:+ ", " +:+ alias_of tc +:+ "." +:+ c).
    { rewrite Hsel, Hdisp. simpl. now rewrite append_assoc. }
    exists stmt. eexists. eexists. split; [rewrite Hrun; reflexivity|].
    split; [exact Hcols|].
    unfold query_text, select_clause. rewrite Hcols, !append_assoc. reflexivity.
Qed.

Lemma search_built_in_defaults_witness :
  exists stmt,
    executed (search (sample_search []) "notes" [1%R; 0%R] 5 None None) =
      [(query_text stmt,
        [PVector [1%R; 0%R]; PInt 168; PFloat 0; PVector [1%R; 0%R]; PInt 5])] /\
    select_cols stmt = "n.id, n.body".
Proof.
  destruct (search_built_in_defaults (sample_search []) "notes" notes_table
              [1%R; 0%R] 5 eq_refl eq_refl) as (Htime & Hconf & Hdisp).
  destruct (Hdisp "body" None None eq_refl eq_refl)
    as (stmt & params & rest & Hrun & Hsel & _).
  exists stmt. split; [|exact Hsel].
  rewrite Hrun. cbv in Hrun. injection Hrun as _ <-. reflexivity.
Defined.

(** C10 as stated fails: under the bound 0.0 not every confidence passes.
    A note whose certainty is unknown, and one whose certainty is negative,
    are not returned although nothing else than the confidence filter keeps
    them out. *)
Lemma confidence_zero_excludes :
  ~ returned (note_record 1 "rumour" [1%R; 0%R] VNull)
      (search (sample_search [note_record 1 "rumour" [1%R; 0%R] VNull])
              "notes" [1%R; 0%R] 10 None None) /\
  ~ returned (note_record 2 "doubt" [1%R; 0%R] (VFloat (-1 / 2)))
      (search (sample_search [note_record 2 "doubt" [1%R; 0%R] (VFloat (-1 / 2))])
              "notes" [1%R; 0%R] 10 None None).
Proof.
  unfold returned, sample_search. split.
  - intros (results & score & Hout & Hin).
    rewrite (search_pg_outcome _ _ _ notes_table) in Hout by reflexivity.
    revert Hout. run_store. intros Hout. injection Hout as <-. exact Hin.
  - intros (results & score & Hout & Hin).
    rewrite (search_pg_outcome _ _ _ notes_table) in Hout by reflexivity.
    revert Hout. run_store. intros Hout. injection Hout as <-. exact Hin.
Qed.

(** The same note with the certainty 0 is returned. *)
Example confidence_zero_includes :
  returned (note_record 3 "fact" [1%R; 0%R] (VFloat 0))
      (search (sample_search [note_record 3 "fact" [1%R; 0%R] (VFloat 0)])
              "notes" [1%R; 0%R] 10 None None).
Proof.
  unfold returned, sample_search.
  exists [([("id", VInt 3); ("body", VText "fact")], Finite (1 - 0))], (Finite (1 - 0)).
  split.
  - rewrite (search_pg_outcome _ _ _ notes_table) by reflexivity.
    run_store. reflexivity.
  - now left.
Qed.

(** ** Ordering by distance *)

Lemma key_le_total k1 k2 : key_le k1 k2 = false -> key_le k2 k1 = true.
Proof.
  destruct k1 as [[x|]|], k2 as [[y|]|]; simpl; try discriminate; auto.
  intros H. apply bool_decide_eq_false in H. apply bool_decide_eq_true. lra.
Qed.

Lemma key_le_trans k1 k2 k3 :
  key_le k1 k2 = true -> key_le k2 k3 = true -> key_le k1 k3 = true.
Proof.
  destruct k1 as [[x|]|], k2 as [[y|]|], k3 as [[z|]|]; simpl;
    try discriminate; auto.
  rewrite !bool_decide_eq_true. lra.
Qed.

Lemma insert_by_key_In {A} (x y : option Float * A) l :
  In y (insert_by_key x l) <-> y = x \/ In y l.
Proof.
  induction l as [|z l IH]; simpl.
  - intuition.
  - destruct (key_le (fst x) (fst z)); simpl; rewrite ?IH; intuition.
Qed.

Lemma sort_by_key_In {A} (y : option Float * A) l : In y (sort_by_key l) <-> In y l.
Proof.
  induction l as [|x l IH]; simpl; [tauto|].
  rewrite insert_by_key_In, IH. intuition.
Qed.

Lemma insert_by_key_length {A} (x : option Float * A) l :
  length (insert_by_key x l) = S (length l).
Proof.
  induction l as [|z l IH]; simpl; [reflexivity|].
  destruct (key_le (fst x) (fst z)); simpl; [reflexivity | now rewrite IH].
Qed.

Lemma sort_by_key_length {A} (l : list (option Float * A)) :
  length (sort_by_key l) = length l.
Proof.
  induction l as [|x l IH]; simpl; [reflexivity|].
  now rewrite insert_by_key_length, IH.
Qed.

Lemma insert_by_key_sorted {A} (x : option Float * A) l :
  StronglySorted key_order l -> StronglySorted key_order (insert_by_key x l).
Proof.
  induction 1 as [|y l Hs IH Hy]; simpl.
  - repeat constructor.
  - destruct (key_le (fst x) (fst y)) eqn:E.
    + constructor; [now constructor|]. constructor; [exact E|].
      eapply Forall_impl; [exact Hy|]. intros z Hz. unfold key_order in *.
      eapply key_le_trans; eauto.
    + constructor; [exact IH|]. apply Forall_forall. intros z Hz.
      apply list_elem_of_In in Hz. apply (proj1 (insert_by_key_In _ _ _)) in Hz as [->|Hz].
      * now apply key_le_total.
      * rewrite Forall_forall in Hy. now apply Hy, list_elem_of_In.
Qed.

Lemma sort_by_key_sorted {A} (l : list (option Float * A)) :
  StronglySorted key_order (sort_by_key l).
Proof.
  induction l as [|x l IH]; simpl; [constructor | now apply insert_by_key_sorted].
Qed.

Lemma StronglySorted_take {A} (R : A -> A -> Prop) n l :
  StronglySorted R l -> StronglySorted R (take n l).
Proof.
  intros H. revert n. induction H as [|x l Hs IH Hx]; intros [|n]; simpl;
    try constructor; auto. now apply Forall_take.
Qed.

Lemma StronglySorted_Forall2 {A B} (RA : A -> A -> Prop) (RB : B -> B -> Prop)
    (P : A -> B -> Prop) l l' :
  (forall a1 a2 b1 b2, RA a1 a2 -> P a1 b1 -> P a2 b2 -> RB b1 b2) ->
  StronglySorted RA l -> Forall2 P l l' -> StronglySorted RB l'.
Proof.
  intros HR Hs. revert l'.
  induction Hs as [|a l Hs IH Ha]; intros l' HF; inversion HF as [|? b ? k Hab Hlk];
    subst; constructor; auto.
  clear IH Hs HF. induction Hlk as [|a' b' l k Hab' Hlk IH]; constructor.
  - inversion Ha; subst. eauto.
  - inversion Ha; subst. auto.
Qed.

(** ** From the rows of the store to the results of [search] *)

Lemma shape_row_output v p :
  shape_row (dict_set "similarity_score" v p) =
  bind (py_float v) (fun s => ret (dict_remove "similarity_score" p, s)).
Proof.
  unfold shape_row, dict_pop. rewrite dict_get_set. simpl.
  now rewrite dict_remove_set.
Qed.

(** The score of a row with an embedding, as Python gets it. *)
Lemma py_float_score d : py_float (score_value (Some d)) = inr (one_minus d).
Proof. destruct d; reflexivity. Qed.

Lemma with_key_inv q d r kr :
  with_key q d r = inr kr -> snd kr = r /\ distance_to q d r = inr (fst kr).
Proof.
  unfold with_key. intros H. apply bind_inr in H as (k & Hk & H).
  injection H as <-. auto.
Qed.

Lemma distance_to_Some q d r x :
  distance_to q d r = inr (Some x) ->
  exists e, column r (d_alias d) (d_column d) = inr (VVector e) /\
            length e = length q /\ x = cosine_distance e q.
Proof.
  unfold distance_to. intros H. apply bind_inr in H as (v & Hv & H).
  destruct v; try discriminate.
  destruct (Nat.eqb (length v) (length q)) eqn:E; try discriminate.
  injection H as <-. apply Nat.eqb_eq in E. eauto.
Qed.

Lemma outputs_results q d l rows results :
  Forall (fun kr => distance_to q d (snd kr) = inr (fst kr)) l ->
  mapM (output_row q d) l = inr rows ->
  mapM shape_row rows = inr results ->
  Forall2 (keyed_result q d) l results.
Proof.
  intros Hl. revert rows results.
  induction Hl as [|kr l Hkr Hl IH]; simpl; intros rows results Hrows Hres.
  - injection Hrows as <-. injection Hres as <-. constructor.
  - apply bind_inr in Hrows as (row & Hrow & Hrows).
    apply bind_inr in Hrows as (rows' & Hrows' & Hrows). injection Hrows as <-.
    simpl in Hres.
    apply bind_inr in Hres as (res & Hres1 & Hres).
    apply bind_inr in Hres as (results' & Hres' & Hres). injection Hres as <-.
    constructor; [|eauto].
    unfold output_row in Hrow. rewrite Hkr in Hrow. simpl in Hrow.
    injection Hrow as <-. rewrite shape_row_output in Hres1.
    destruct (fst kr) as [x|] eqn:Ek; [|discriminate].
    rewrite py_float_score in Hres1. simpl in Hres1. injection Hres1 as <-.
    apply distance_to_Some in Hkr as (e & Hc & Hlen & ->).
    exists e. auto.
Qed.

(** A call that returned: the store could read the statement and its
    parameters, and unless the limit was zero, here are the rows that passed
    the WHERE clause, their sort keys, and the results, one for each of the
    first [limit] rows in the order of the keys. *)
Lemma search_pg_results st cfg table_name tc q limit h m results :
  dict_get table_name (default [] (tables cfg)) = Some tc ->
  outcome (search {| conn := pg_connection st; config := cfg |}
                  table_name q limit h m) = inr results ->
  well_formed tc = true /\ (0 <= limit)%Z /\
  (limit = 0%Z /\ results = [] \/
   exists kept keyed,
     filterM (selected (now st) (bound_conditions tc h m)) (source st) = inr kept /\
     Forall2 (fun r kr => with_key q (embedding_distance tc) r = inr kr) kept keyed /\
     Forall2 (keyed_result q (embedding_distance tc))
             (take (Z.to_nat limit) (sort_by_key keyed)) results).
Proof.
  intros Hget Hout.
  assert (Hwf : well_formed tc = true).
  { unfold search in Hout. simpl in Hout. rewrite Hget in Hout.
    destruct (build_query tc q limit h m) as [err|[stmt ps]] eqn:Hb; [discriminate|].
    exact (build_query_well_formed tc _ _ _ _ _ Hb). }
  rewrite (search_pg_outcome st cfg table_name tc q limit h m Hget Hwf) in Hout.
  destruct (readable tc); [|discriminate].
  destruct q as [|x q]; [discriminate|].
  destruct (time_bound_ok (now st) tc h); [|discriminate].
  destruct (limit <? 0)%Z eqn:El; [discriminate|]. apply Z.ltb_ge in El.
  split; [exact Hwf|]. split; [exact El|].
  destruct (limit =? 0)%Z eqn:E0.
  { left. apply Z.eqb_eq in E0. injection Hout as <-. auto. }
  right.
  apply bind_inr in Hout as (kept & Hkept & Hout).
  apply bind_inr in Hout as (keyed & Hkeyed & Hout).
  apply bind_inr in Hout as (rows & Hrows & Hres).
  apply mapM_Forall2 in Hkeyed.
  exists kept, keyed. split; [exact Hkept|]. split; [exact Hkeyed|].
  apply (outputs_results _ _ _ rows); [|exact Hrows|exact Hres].
  apply Forall_take, Forall_forall. intros kr Hin.
  apply list_elem_of_In in Hin. apply (proj1 (sort_by_key_In _ _)) in Hin.
  clear -Hin Hkeyed. induction Hkeyed as [|r kr' l l' Hr _ IH]; [contradiction|].
  simpl in Hin. destruct Hin as [<-|Hin]; [|auto].
  apply with_key_inv in Hr as [<- Hd]. exact Hd.
Qed.

Lemma Forall2_origin {A B} (P : A -> B -> Prop) l l' :
  Forall2 P l l' -> Forall (fun b => exists a, In a l /\ P a b) l'.
Proof.
  induction 1 as [|a b l l' Hab _ IH]; constructor.
  - exists a. split; [now left | exact Hab].
  - eapply Forall_impl; [exact IH|]. intros b' (a' & Hin & HP).
    exists a'. split; [now right | exact HP].
Qed.

Lemma all_nan (l : list Float) :
  Forall (fun s => s = NaN) l -> l = repeat NaN (length l).
Proof. induction 1 as [|s l -> _ IH]; simpl; [reflexivity | now rewrite <- IH]. Qed.

(** Scores made from keys in ascending order: the numbers come first, in
    non-increasing order, and the NaNs last. *)
Lemma keyed_scores_nan_last {A} (l : list (option Float * A)) (ss : list Float) :
  StronglySorted key_order l ->
  Forall2 (fun kr s => exists d, fst kr = Some d /\ s = one_minus d) l ss ->
  nan_last ss.
Proof.
  intros Hs HF. induction HF as [|kr s l ss (d & Hd & ->) HF IH].
  - exists [], 0%nat. split; [reflexivity | constructor].
  - apply StronglySorted_inv in Hs as [Hs Hkr].
    destruct (IH Hs) as (numbers & k & -> & Hnum).
    apply Forall2_origin in HF.
    destruct d as [x|]; simpl.
    + exists ((1 - x)%R :: numbers), k. split; [reflexivity|].
      constructor; [exact Hnum|].
      apply Forall_forall. intros n Hn.
      rewrite Forall_forall in HF.
      destruct (HF (Finite n)) as (kr' & Hin & d' & Hd' & Hs').
      { apply list_elem_of_In, in_or_app. left. now apply in_map, list_elem_of_In. }
      rewrite Forall_forall in Hkr.
      specialize (Hkr kr' (proj2 (list_elem_of_In _ _) Hin)).
      unfold key_order in Hkr. rewrite Hd, Hd' in Hkr.
      destruct d' as [y|]; [|discriminate]. simpl in Hs', Hkr.
      injection Hs' as ->. apply bool_decide_eq_true in Hkr. lra.
    + exists [], (S (length (map Finite numbers ++ repeat NaN k))).
      split; [|constructor]. simpl. f_equal. apply all_nan.
      eapply Forall_impl; [exact HF|]. intros s (kr' & Hin & d' & Hd' & ->).
      rewrite Forall_forall in Hkr.
      specialize (Hkr kr' (proj2 (list_elem_of_In _ _) Hin)).
      unfold key_order in Hkr. rewrite Hd, Hd' in Hkr.
      destruct d' as [y|]; [discriminate | reflexivity].
Qed.

(** Without a NaN among them, such scores are in non-increasing order. *)
Lemma nan_last_non_increasing l :
  nan_last l -> Forall (fun s => s <> NaN) l -> non_increasing l.
Proof.
  intros (numbers & k & -> & Hnum) Hno.
  destruct k as [|k].
  - simpl. rewrite app_nil_r. clear Hno. unfold non_increasing.
    induction Hnum as [|n numbers _ IH Hn]; simpl; constructor; [exact IH|].
    apply Forall_forall. intros s Hs.
    apply list_elem_of_In, in_map_iff in Hs as (y & <- & Hy).
    rewrite Forall_forall in Hn. simpl. now apply Hn, list_elem_of_In.
  - exfalso. rewrite Forall_forall in Hno. apply (Hno NaN); [|reflexivity].
    apply list_elem_of_In, in_or_app. right. now left.
Qed.

(** C5, as amended. The results of [search] come with their numeric scores
    first, in non-increasing order, and the scores that are NaN (a record or
    a query vector of norm zero) after them; without a NaN the whole
    sequence is non-increasing.  The statement sent has the same distance
    expression, the embedding column of the table under the cosine operator
    against a placeholder, inside the score of its SELECT list and as its
    ORDER BY clause, ascending, and both placeholders are bound to the
    query vector of the call. *)
Theorem search_results_ordered st cfg table_name tc q limit h m results :
  dict_get table_name (default [] (tables cfg)) = Some tc ->
  outcome (search {| conn := pg_connection st; config := cfg |}
                  table_name q limit h m) = inr results ->
  nan_last (scores results) /\
  (Forall (fun s => s <> NaN) (scores results) -> non_increasing (scores results)) /\
  exists stmt bounds e,
    embedding_column tc = Some e /\
    executed (search {| conn := pg_connection st; config := cfg |}
                     table_name q limit h m) =
      [(query_text stmt, PVector q :: bounds ++ [PVector q; PInt limit])] /\
    order_expr stmt = score_expr stmt /\
    selects_score (query_text stmt)
                  (alias_of tc +:+ "." +:+ e +:+ " <=> %s::vector") /\
    orders_by (query_text stmt)
              (alias_of tc +:+ "." +:+ e +:+ " <=> %s::vector").
Proof.
  intros Hget Hout.
  destruct (search_pg_results st cfg table_name tc q limit h m results Hget Hout)
    as (Hwf & Hlimit & Hres).
  assert (Hnan : nan_last (scores results)).
  { destruct Hres as [[_ ->]|(kept & keyed & Hkept & Hkeyed & Hres)].
    - exists [], 0%nat. split; [reflexivity | constructor].
    - apply (keyed_scores_nan_last (take (Z.to_nat limit) (sort_by_key keyed))).
      + apply StronglySorted_take, sort_by_key_sorted.
      + unfold scores. apply Forall2_fmap_r. eapply Forall2_impl; [exact Hres|].
        intros kr res (e & _ & _ & Hk & ->). eauto. }
  split; [exact Hnan|]. split; [now apply nan_last_non_increasing|].
  destruct (search_executes {| conn := pg_connection st; config := cfg |}
              table_name tc q limit h m Hget Hwf) as (stmt & Hb & Hrun).
  destruct (build_query_ok tc q limit h m Hwf)
    as (t & e & c & stmt' & _ & He & _ & Hb' & _ & _ & Hs & Ho).
  rewrite Hb in Hb'. injection Hb' as <-.
  exists stmt, (map snd (optional_conditions tc h m)), e.
  split; [exact He|]. split; [rewrite Hrun; reflexivity|].
  split; [congruence|].
  destruct (query_text_shape stmt) as [Hsel Hord].
  rewrite Hs in Hsel. rewrite Ho in Hord. split; [exact Hsel | exact Hord].
Qed.

(** The sample run of the ordering: the nearest first, a record without
    direction last. *)
Example ordered_run :
  outcome (search (sample_search [fact_record 1 "coffee" [0%R; 1%R] (9 / 10)%R;
                                  fact_record 2 "void" [0%R; 0%R] (9 / 10)%R;
                                  fact_record 3 "tea" [1%R; 0%R] (9 / 10)%R])
                  "facts" [1%R; 0%R] 10 None None)
  = inr [([("id", VInt 3); ("content", VText "tea")], Finite (1 - 0));
         ([("id", VInt 1); ("content", VText "coffee")], Finite (1 - 1));
         ([("id", VInt 2); ("content", VText "void")], NaN)].
Proof.
  unfold sample_search.
  rewrite (search_pg_outcome _ _ _ facts_table) by reflexivity.
  run_store. reflexivity.
Qed.

Lemma search_results_ordered_witness :
  nan_last [Finite (1 - 0); Finite (1 - 1); NaN].
Proof.
  exact (proj1 (search_results_ordered
                  (sample_store [fact_record 1 "coffee" [0%R; 1%R] (9 / 10)%R;
                                 fact_record 2 "void" [0%R; 0%R] (9 / 10)%R;
                                 fact_record 3 "tea" [1%R; 0%R] (9 / 10)%R])
                  sample_config "facts" facts_table [1%R; 0%R] 10 None None _
                  eq_refl ordered_run)).
Defined.

(** C5 as stated fails: a record whose embedding has norm zero has the score
    NaN, which is neither above nor below another score, so the sequence
    returned is not in non-increasing order. *)
Lemma nan_score_not_ordered :
  exists results,
    outcome (search (sample_search [fact_record 1 "coffee" [0%R; 1%R] (9 / 10)%R;
                                    fact_record 2 "void" [0%R; 0%R] (9 / 10)%R;
                                    fact_record 3 "tea" [1%R; 0%R] (9 / 10)%R])
                    "facts" [1%R; 0%R] 10 None None) = inr results /\
    ~ non_increasing (scores results).
Proof.
  eexists. split; [exact ordered_run|].
  unfold non_increasing, scores. simpl. intros H.
  apply StronglySorted_inv in H as [_ H].
  apply Forall_cons in H as [_ H]. apply Forall_cons in H as [H _]. exact H.
Qed.

Lemma In_take {A} n (l : list A) x : In x (take n l) -> In x l.
Proof.
  revert n. induction l as [|a l IH]; intros [|n]; simpl; try tauto.
  intros [->|H]; [now left | right; eauto].
Qed.






(** On an empty store the call still raises when the store cannot work out
    the time bound, or cannot read the statement: here the bound lies before
    the first timestamp, and the select list of the entry is empty. *)
Example empty_store_raises :
  outcome (search (sample_search []) "messages" [1%R; 0%R] 5 (Some 2147483648) None)
  = inl (DatabaseError "timestamp out of range") /\
  outcome (search {| conn := pg_connection (sample_store []);
                     config := {| tables := Some [("bare", bare_table)] |} |}
                  "bare" [1%R; 0%R] 5 None None)
  = inl (DatabaseError "syntax error").
Proof.
  split.
  - unfold sample_search.
    rewrite (search_pg_outcome _ _ _ messages_table) by reflexivity.
    run_store. reflexivity.
  - rewrite (search_pg_outcome _ _ _ bare_table) by reflexivity.
    replace (readable bare_table) with false by (vm_compute; reflexivity).
    reflexivity.
Qed.

(** ** The confidence filter *)

(** The WHERE clause of a table with a confidence filter and no time
    filter, on a row with an embedding. *)
Lemma selected_by_confidence st tc f e col record v x h m :
  embedding_column tc = Some e ->
  filters tc = Some f ->
  truthy_str (time_column f) = None ->
  truthy_str (confidence_column f) = Some col ->
  column record (alias_of tc) e = inr (VVector v) ->
  column record (alias_of tc) col = inr (VFloat x) ->
  selected (now st) (bound_conditions tc h m) record =
    inr (bool_decide (effective_confidence tc m <= x)%R).
Proof.
  intros He Hf Ht Hc Hv Hx.
  unfold selected, bound_conditions, bound_optional, filters_of.
  rewrite He, Hf. simpl. rewrite Ht, Hc. simpl.
  rewrite Hv, Hx. simpl. now rewrite andb_true_r.
Qed.

Lemma filterM_without {A} (f : A -> Result bool) pre x post :
  f x = inr false -> filterM f (pre ++ x :: post) = filterM f (pre ++ post).
Proof.
  intros Hx. rewrite !filterM_app. simpl. rewrite Hx. simpl.
  destruct (filterM f pre) as [err|a]; simpl; [reflexivity|].
  destruct (filterM f post) as [err|b]; reflexivity.
Qed.

Lemma Forall2_In_l {A B} (P : A -> B -> Prop) l l' a :
  Forall2 P l l' -> In a l -> exists b, In b l' /\ P a b.
Proof.
  induction 1 as [|x y l l' Hxy _ IH]; simpl; [tauto|].
  intros [->|Hin].
  - exists y. auto.
  - destruct (IH Hin) as (b & Hb & HP). exists b. auto.
Qed.

(** C7. A table whose entry sets [confidence_column] to [confidence] and
    [default_min_confidence] to 0.6, and a record of confidence 0.4 with an
    embedding.  When the caller omits [min_confidence] the record plays no
    part in the search: the call does what it does on the store without the
    record.  When the caller passes 0.3, a call that returns, with a limit
    that does not cut the results short, has the record among its results. *)
Theorem confidence_threshold_falls_back
    st cfg table_name tc f e record v q limit pre post :
  dict_get table_name (default [] (tables cfg)) = Some tc ->
  well_formed tc = true ->
  embedding_column tc = Some e ->
  filters tc = Some f ->
  truthy_str (time_column f) = None ->
  truthy_str (confidence_column f) = Some "confidence" ->
  default_min_confidence f = Some (6 / 10)%R ->
  column record (alias_of tc) e = inr (VVector v) ->
  column record (alias_of tc) "confidence" = inr (VFloat (4 / 10)) ->
  source st = pre ++ record :: post ->
  outcome (search {| conn := pg_connection st; config := cfg |}
                  table_name q limit None None) =
  outcome (search {| conn := pg_connection {| now := now st; source := pre ++ post |};
                     config := cfg |}
                  table_name q limit None None) /\
  (forall results,
     outcome (search {| conn := pg_connection st; config := cfg |}
                     table_name q limit None (Some (3 / 10)%R)) = inr results ->
     (Z.of_nat (length (source st)) <= limit)%Z ->
     In (dict_remove "similarity_score" (projection record),
         one_minus (cosine_distance v q)) results).
Proof.
  intros Hget Hwf He Hf Ht Hc Hdef Hv Hx Hsrc. split.
  - rewrite !(search_pg_outcome _ cfg table_name tc q limit _ _ Hget Hwf).
    simpl. rewrite Hsrc. rewrite filterM_without; [reflexivity|].
    rewrite (selected_by_confidence _ tc f e "confidence" record v _ _ _
               He Hf Ht Hc Hv Hx).
    unfold effective_confidence, filters_of. rewrite Hf. simpl. rewrite Hdef. simpl.
    rewrite bool_decide_eq_false_2 by lra. reflexivity.
  - intros results Hout Hlen.
    destruct (search_pg_results st cfg table_name tc q limit None _ results Hget Hout)
      as (_ & Hlimit & [[-> _]|(kept & keyed & Hkept & Hkeyed & Hres)]).
    { rewrite Hsrc, length_app in Hlen. simpl in Hlen. lia. }
    assert (Hin : In record kept).
    { apply (filterM_keeps _ _ _ record Hkept).
      - rewrite Hsrc. apply in_or_app. right. now left.
      - rewrite (selected_by_confidence _ tc f e "confidence" record v _ _ _
                   He Hf Ht Hc Hv Hx).
        simpl. rewrite bool_decide_eq_true_2 by lra. reflexivity. }
    destruct (Forall2_In_l _ _ _ _ Hkeyed Hin) as (kr & Hkr & Hwith).
    rewrite take_ge in Hres.
    2:{ rewrite sort_by_key_length, <- (Forall2_length _ _ _ Hkeyed).
        pose proof (proj2 (filterM_sublist _ _ _ Hkept)). lia. }
    apply (proj2 (sort_by_key_In _ _)) in Hkr.
    destruct (Forall2_In_l _ _ _ _ Hres Hkr) as (res & Hres_in & e' & Hcol & _ & _ & ->).
    apply with_key_inv in Hwith as [Hsnd _]. rewrite Hsnd in *.
    unfold embedding_distance in Hcol. rewrite He in Hcol. simpl in Hcol.
    rewrite Hv in Hcol. injection Hcol as <-. exact Hres_in.
Qed.

Lemma confidence_threshold_falls_back_witness :
  outcome (search (sample_search [fact_record 7 "prefers tea" [1%R; 0%R] (4 / 10)%R])
                  "facts" [1%R; 0%R] 10 None None) = inr [] /\
  (forall results,
     outcome (search (sample_search [fact_record 7 "prefers tea" [1%R; 0%R] (4 / 10)%R])
                     "facts" [1%R; 0%R] 10 None (Some (3 / 10)%R)) = inr results ->
     In ([("id", VInt 7); ("content", VText "prefers tea")],
         one_minus (cosine_distance [1%R; 0%R] [1%R; 0%R])) results).
Proof.
  destruct (confidence_threshold_falls_back
              (sample_store [fact_record 7 "prefers tea" [1%R; 0%R] (4 / 10)%R])
              sample_config "facts" facts_table
              {| time_column := None; default_hours := None;
                 confidence_column := Some "confidence";
                 default_min_confidence := Some (6 / 10)%R |}
              "embedding" (fact_record 7 "prefers tea" [1%R; 0%R] (4 / 10)%R)
              [1%R; 0%R] [1%R; 0%R] 10 [] []
              eq_refl eq_refl eq_refl eq_refl eq_refl eq_refl eq_refl eq_refl eq_refl
              eq_refl) as [Hout Hin].
  split.
  - unfold sample_search. rewrite Hout.
    rewrite (search_pg_outcome _ _ _ facts_table) by reflexivity.
    run_store. reflexivity.
  - intros results Hres. apply (Hin results Hres). simpl. lia.
Defined.

(** The scenario, run: excluded by the default, included with 0.3. *)
Example confidence_default_excludes :
  outcome (search (sample_search [fact_record 7 "prefers tea" [1%R; 0%R] (4 / 10)%R])
                  "facts" [1%R; 0%R] 10 None None) = inr [].
Proof.
  unfold sample_search.
  rewrite (search_pg_outcome _ _ _ facts_table) by reflexivity.
  run_store. reflexivity.
Qed.

Example confidence_argument_includes :
  outcome (search (sample_search [fact_record 7 "prefers tea" [1%R; 0%R] (4 / 10)%R])
                  "facts" [1%R; 0%R] 10 None (Some (3 / 10)%R))
  = inr [([("id", VInt 7); ("content", VText "prefers tea")],
          one_minus (cosine_distance [1%R; 0%R] [1%R; 0%R]))].
Proof.
  unfold sample_search.
  rewrite (search_pg_outcome _ _ _ facts_table) by reflexivity.
  run_store. reflexivity.
Qed.

(** ** Schema initialisation *)

Lemma create_index_after_table (db : Database) cols rows :
  relations db !! "code_elements" = Some (TableRel cols rows) ->
  let step := create_index_if_not_exists "idx_code_elements_embedding" "code_elements"
                "ivfflat" "embedding" "vector_cosine_ops" "lists = 100" in
  relations (fst (step db)) !! "code_elements" = Some (TableRel cols rows) /\
  extensions (fst (step db)) = extensions db /\
  step (fst (step db)) = step db.
Proof.
  intros Ht step. unfold step, create_index_if_not_exists. rewrite Ht.
  destruct (find_column "embedding" cols) as [c|] eqn:Hc; simpl;
    [|rewrite Ht, Hc; auto].
  destruct (uses_vector c) eqn:Hu; simpl; [|rewrite Ht, Hc, Hu; auto].
  destruct (relations db !! "idx_code_elements_embedding") as [rel|] eqn:Hi; simpl.
  - rewrite Ht, Hc, Hu, Hi. auto.
  - rewrite lookup_insert_ne by discriminate. rewrite Ht, Hc, Hu.
    rewrite lookup_insert_eq. auto.
Qed.


(** Once the extension is there and the table name is taken, only the index
    statement can still change the database. *)
Lemma ensure_schema_settled (db : Database) rel :
  "vector" ∈ extensions db ->
  relations db !! "code_elements" = Some rel ->
  _ensure_schema db = create_embedding_index db.
Proof.
  intros He Ht. unfold _ensure_schema, st_bind, create_extension_if_not_exists,
    create_table_if_not_exists.
  rewrite decide_True by exact He. rewrite Ht. reflexivity.
Qed.

Lemma create_embedding_index_settled (db : Database) rel :
  "vector" ∈ extensions db ->
  relations db !! "code_elements" = Some rel ->
  "vector" ∈ extensions (fst (create_embedding_index db)) /\
  relations (fst (create_embedding_index db)) !! "code_elements" = Some rel /\
  create_embedding_index (fst (create_embedding_index db)) = create_embedding_index db.
Proof.
  intros He Ht. destruct rel as [cols rows|t m c o w].
  - destruct (create_index_after_table db cols rows Ht) as (H1 & H2 & H3).
    unfold create_embedding_index. rewrite H2. auto.
  - unfold create_embedding_index, create_index_if_not_exists. rewrite Ht. simpl.
    rewrite Ht. auto.
Qed.

(** C8. Running [_ensure_schema] on the database it has just left gives the
    same database and the same outcome again: a second run changes nothing,
    whether the first one created the schema, found it there, or raised. *)
Theorem ensure_schema_idempotent (db : Database) :
  _ensure_schema (fst (_ensure_schema db)) = _ensure_schema db.
Proof.
  assert (Hsettled : forall d rel,
             "vector" ∈ extensions d -> relations d !! "code_elements" = Some rel ->
             _ensure_schema (fst (create_embedding_index d)) = create_embedding_index d).
  { intros d rel He Ht.
    destruct (create_embedding_index_settled d rel He Ht) as (He' & Ht' & Hi).
    now rewrite (ensure_schema_settled _ rel He' Ht'). }
  unfold _ensure_schema at 2 3. unfold st_bind, create_extension_if_not_exists.
  destruct (decide ("vector" ∈ extensions db)) as [He|He].
  - unfold create_table_if_not_exists.
    destruct (relations db !! "code_elements") as [rel|] eqn:Ht.
    + exact (Hsettled db rel He Ht).
    + simpl. rewrite bool_decide_eq_true_2 by exact He. simpl.
      eapply Hsettled; [exact He | apply lookup_insert_eq].
  - destruct (decide ("vector" ∈ installable db)) as [Hi|Hi].
    + unfold create_table_if_not_exists. simpl.
      assert (He' : "vector" ∈ ({["vector"]} ∪ extensions db : gset string))
        by set_solver.
      destruct (relations db !! "code_elements") as [rel|] eqn:Ht.
      * exact (Hsettled (with_extensions db _) rel He' Ht).
      * simpl. rewrite bool_decide_eq_true_2 by exact He'. simpl.
        eapply (Hsettled (with_relations (with_extensions db _) _));
          [exact He' | apply lookup_insert_eq].
    + simpl. unfold _ensure_schema, st_bind, create_extension_if_not_exists.
      rewrite decide_False by exact He. rewrite decide_False by exact Hi. reflexivity.
Qed.

(** On a fresh database the first run creates the extension, the table and
    the index. *)
Example ensure_schema_creates :
  let db := fst (_ensure_schema fresh_database) in
  snd (_ensure_schema fresh_database) = inr tt /\
  db <> fresh_database /\
  relations db !! "code_elements" = Some (TableRel code_elements_columns []) /\
  relations db !! "idx_code_elements_embedding" =
    Some (IndexRel "code_elements" "ivfflat" "embedding" "vector_cosine_ops" "lists = 100").
Proof.
  repeat split; try (vm_compute; reflexivity).
  intros H. apply (f_equal (fun d => relations d !! "code_elements")) in H.
  vm_compute in H. discriminate H.
Qed.

(** ** Indexing *)

Section IndexingFacts.
Variable find_python_files : string -> list string.
Variable create_searchable_text : string -> string -> string -> string.
Variable generate_embedding : string -> option vector.
Variable extract_code_elements : string -> list Element.

Hypothesis provider_dimension :
  forall text v, truthy_vector (generate_embedding text) = Some v -> length v = 1536%nat.

Local Abbreviation indexed := (indexed_rows generate_embedding create_searchable_text).

Lemma insert_element db rows el v :
  relations db !! "code_elements" = Some (TableRel code_elements_columns rows) ->
  length v = 1536%nat ->
  insert create_searchable_text (file_path el) (element_name el) (element_type el)
    (signature el) (docstring el) v db =
  (with_relations db
     (<["code_elements" :=
          TableRel code_elements_columns (rows ++ [element_row create_searchable_text el v])]>
        (relations db)),
   inr tt).
Proof.
  intros Ht Hlen. unfold insert, insert_into. rewrite Ht.
  assert (Hok : forallb (assignable code_elements_columns)
                  (element_row create_searchable_text el v) = true).
  { unfold element_row, assignable, accepts. cbn. rewrite Hlen. reflexivity. }
  unfold element_row in *. rewrite Hok. reflexivity.
Qed.

Lemma index_elements_run elements : forall total w rows,
  relations (database w) !! "code_elements" =
    Some (TableRel code_elements_columns rows) ->
  exists w',
    index_elements create_searchable_text generate_embedding elements total w =
      (w', inr (total + length (indexed elements))%nat) /\
    stdout w' = stdout w /\
    relations (database w') !! "code_elements" =
      Some (TableRel code_elements_columns (rows ++ indexed elements)).
Proof.
  induction elements as [|el elements IH]; intros total w rows Ht.
  - exists w. simpl. unfold st_ret. rewrite Nat.add_0_r, app_nil_r. auto.
  - cbn [index_elements]. unfold indexed_rows. cbn [flat_map].
    fold (indexed elements). unfold embedding_of at 1 2.
    destruct (truthy_vector _) as [v|] eqn:Hv.
    + unfold st_bind, on_database.
      rewrite (insert_element _ rows el v Ht (provider_dimension _ _ Hv)).
      cbn [database stdout].
      set (w1 := {| database := _; stdout := stdout w |}).
      destruct (IH (S total) w1 (rows ++ [element_row create_searchable_text el v]))
        as (w' & Hrun & Hout & Hrel).
      { subst w1. cbn. apply lookup_insert_eq. }
      exists w'. rewrite Hrun. repeat split.
      * do 2 f_equal. cbn [length app]. lia.
      * exact Hout.
      * rewrite Hrel. now rewrite <- app_assoc.
    + destruct (IH total w rows Ht) as (w' & Hrun & Hout & Hrel).
      exists w'. rewrite Hrun. cbn [app]. auto.
Qed.

Lemma index_files_run files : forall total w rows,
  relations (database w) !! "code_elements" =
    Some (TableRel code_elements_columns rows) ->
  exists w',
    index_files create_searchable_text generate_embedding extract_code_elements
      files total w =
      (w', inr (total + length (indexed (flat_map extract_code_elements files)))%nat) /\
    relations (database w') !! "code_elements" =
      Some (TableRel code_elements_columns
              (rows ++ indexed (flat_map extract_code_elements files))).
Proof.
  induction files as [|f files IH]; intros total w rows Ht.
  - exists w. simpl. unfold st_ret. rewrite Nat.add_0_r, app_nil_r. auto.
  - cbn [index_files flat_map]. unfold st_bind at 1, print at 1.
    set (w1 := {| database := database w; stdout := _ |}).
    destruct (index_elements_run (extract_code_elements f) total w1 rows Ht)
      as (w2 & Hrun & _ & Hrel).
    unfold st_bind. rewrite Hrun.
    destruct (IH (total + length (indexed (extract_code_elements f)))%nat w2 _ Hrel)
      as (w3 & Hrun3 & Hrel3).
    exists w3. rewrite Hrun3.
    assert (Happ : indexed (extract_code_elements f ++ flat_map extract_code_elements files)
                   = indexed (extract_code_elements f)
                     ++ indexed (flat_map extract_code_elements files)).
    { unfold indexed_rows. apply flat_map_app. }
    rewrite Happ. split.
    + do 2 f_equal. rewrite length_app. lia.
    + rewrite Hrel3. now rewrite <- app_assoc.
Qed.
End IndexingFacts.

Lemma indexed_plus_failures gen cst elements :
  (length (indexed_rows gen cst elements) + failures gen cst elements)%nat
  = length elements.
Proof.
  unfold indexed_rows, failures.
  induction elements as [|el elements IH]; simpl; [reflexivity|].
  destruct (embedding_of gen cst el); simpl; lia.
Qed.

(** C9, as amended. A unit for which the provider gives no embedding is
    skipped and the run goes on: on a database whose schema is in place, and
    with a provider whose vectors have the dimension of the schema, the run
    ends normally, the table holds one more row for each unit that got an
    embedding, in the order of the run, and the last line printed reports
    how many units were indexed, out of how many files.  The units that
    failed are all the others; their number is not printed. *)
Theorem cmd_index_skips_failed_units
    (find_python_files : string -> list string)
    (create_searchable_text : string -> string -> string -> string)
    (generate_embedding : string -> option vector)
    (extract_code_elements : string -> list Element)
    (args : Args) (w0 : World) (db1 : Database) (rows0 : list Row) :
  _ensure_schema (database w0) = (db1, inr tt) ->
  relations db1 !! "code_elements" = Some (TableRel code_elements_columns rows0) ->
  (forall text v, truthy_vector (generate_embedding text) = Some v ->
                  length v = 1536%nat) ->
  let files := find_python_files (directory args) in
  let units := flat_map extract_code_elements files in
  let added := indexed_rows generate_embedding create_searchable_text units in
  exists w1,
    cmd_index find_python_files create_searchable_text generate_embedding
      extract_code_elements args w0 = (w1, inr tt) /\
    relations (database w1) !! "code_elements" =
      Some (TableRel code_elements_columns
              ((if clear args then [] else rows0) ++ added)) /\
    last (stdout w1) =
      Some ("Indexed " +:+ pretty (length added) +:+ " elements from "
            +:+ pretty (length files) +:+ " files") /\
    (length added + failures generate_embedding create_searchable_text units)%nat
      = length units.
Proof.
  intros Hschema Htable Hdim files units added.
  unfold cmd_index. unfold st_bind at 1, print at 1.
  unfold st_bind at 1, on_database at 1, VectorDB. cbn [database stdout].
  rewrite Hschema.
  set (w1 := {| database := db1; stdout := _ |}).
  assert (Hclear : exists w2,
             (if clear args
              then st_bind (on_database clear_all) (fun _ => print "Cleared existing index")
              else st_ret tt) w1 = (w2, inr tt) /\
             relations (database w2) !! "code_elements" =
               Some (TableRel code_elements_columns (if clear args then [] else rows0))).
  { destruct (clear args).
    - unfold st_bind, on_database, clear_all, delete_from, print. subst w1.
      cbn [database stdout]. rewrite Htable. cbn [database stdout].
      eexists. split; [reflexivity|]. cbn. apply lookup_insert_eq.
    - exists w1. split; [reflexivity | exact Htable]. }
  destruct Hclear as (w2 & Hrun2 & Hrel2).
  unfold st_bind at 1. rewrite Hrun2.
  destruct (index_files_run create_searchable_text generate_embedding
              extract_code_elements Hdim files 0%nat w2 _ Hrel2)
    as (w3 & Hrun3 & Hrel3).
  unfold st_bind. fold files. rewrite Hrun3. unfold print.
  eexists. split; [reflexivity|]. cbn [database stdout]. repeat split.
  - exact Hrel3.
  - rewrite last_snoc. reflexivity.
  - apply indexed_plus_failures.
Qed.

(** C9 as stated fails: a run with no failure and a run with one print the
    same lines, so the number of failures cannot be read off the output. *)
Lemma failures_not_in_report :
  ~ exists report : list string -> nat,
      report (stdout (fst (sample_run [unit_f]))) = failures sample_provider sample_text [unit_f] /\
      report (stdout (fst (sample_run [unit_f; unit_g])))
        = failures sample_provider sample_text [unit_f; unit_g].
Proof.
  intros (report & H1 & H2).
  assert (E : stdout (fst (sample_run [unit_f])) = stdout (fst (sample_run [unit_f; unit_g])))
    by (vm_compute; reflexivity).
  rewrite E in H1. rewrite H1 in H2. vm_compute in H2. discriminate.
Qed.

Lemma cmd_index_skips_failed_units_witness :
  exists w1,
    sample_run [unit_f; unit_g] = (w1, inr tt) /\
    last (stdout w1) = Some "Indexed 1 elements from 1 files".
Proof.
  destruct (cmd_index_skips_failed_units (fun _ => ["a.py"]) sample_text sample_provider
              (fun _ => [unit_f; unit_g]) {| directory := "src"; clear := false |}
              {| database := fresh_database; stdout := [] |}
              (fst (_ensure_schema fresh_database)) [])
    as (w1 & Hrun & _ & Hlast & _).
  - vm_compute. reflexivity.
  - vm_compute. reflexivity.
  - intros text v. unfold sample_provider.
    destruct (String.eqb text "f"); [|discriminate].
    change (repeat 1%R 1536) with (1%R :: repeat 1%R 1535).
    intros H. injection H as <-. vm_compute. reflexivity.
  - exists w1. split; [exact Hrun|]. exact Hlast.
Defined.

(** ** The code index: similarity search, statistics, insertion *)

Lemma dict_get_In {V} k (v : V) d : dict_get k d = Some v -> In (k, v) d.
Proof.
  induction d as [|[k' v'] d IH]; simpl; [discriminate|].
  destruct (String.eqb_spec k k') as [->|Hne].
  - intros H. injection H as ->. now left.
  - intros H. right. auto.
Qed.

Lemma mapM_total {A B} (f : A -> Result B) (g : A -> B) l :
  Forall (fun a => f a = inr (g a)) l -> mapM f l = inr (map g l).
Proof.
  induction 1 as [|a l Ha _ IH]; simpl; [reflexivity|]. now rewrite Ha, IH.
Qed.

Lemma filterM_total {A} (f : A -> Result bool) (g : A -> bool) l :
  Forall (fun a => f a = inr (g a)) l -> filterM f l = inr (List.filter g l).
Proof.
  induction 1 as [|a l Ha _ IH]; simpl; [reflexivity|]. rewrite Ha, IH. simpl.
  destruct (g a); reflexivity.
Qed.

(** The embedding of a stored row of the schema's table. *)
Lemma stored_embedding row :
  column (stored_row code_elements_columns row) "code_elements" "embedding"
  = inr (default VNull (dict_get "embedding" row)).
Proof. reflexivity. Qed.

Lemma stored_selected row :
  selected 0 [BNotNull "code_elements" "embedding"]
           (stored_row code_elements_columns row) = inr (has_embedding row).
Proof.
  unfold selected, mapM, condition_holds. rewrite stored_embedding.
  unfold has_embedding.
  destruct (dict_get "embedding" row) as [[]|]; reflexivity.
Qed.

(** In a row that fits the schema the embedding is NULL or a vector of 1536
    components. *)
Lemma fitting_embedding row :
  row_fits code_elements_columns row = true ->
  has_embedding row = true ->
  dict_get "embedding" row = Some (VVector (row_vector row)) /\
  length (row_vector row) = 1536%nat.
Proof.
  unfold row_fits, has_embedding. intros Hfit Hhas.
  apply andb_true_iff in Hfit as [Hfit _].
  destruct (dict_get "embedding" row) as [v|] eqn:Hget; [|discriminate].
  pose proof Hget as Hget'. apply dict_get_In in Hget.
  rewrite forallb_forall in Hfit. specialize (Hfit _ Hget).
  unfold assignable in Hfit. simpl in Hfit. unfold accepts in Hfit. simpl in Hfit.
  unfold row_vector. rewrite Hget'.
  destruct v; try discriminate. apply Nat.eqb_eq in Hfit. auto.
Qed.

Lemma similar_projection_clean row :
  dict_remove "similarity_score" (projection (stored_row code_elements_columns row))
  = projection (stored_row code_elements_columns row).
Proof. reflexivity. Qed.

Lemma nonzero_nil : nonzero [] = false.
Proof.
  unfold nonzero. simpl. destruct (Req_dec_T 0 0) as [_|H]; [reflexivity|].
  now contradiction H.
Qed.

Lemma nonzero_positive v : (0 < dot v v)%R -> nonzero v = true.
Proof.
  intros H. unfold nonzero. destruct (Req_dec_T (dot v v) 0) as [E|_]; [lra | reflexivity].
Qed.

(** What a scan of the index comes across, row by row. *)
Lemma visited_stored list_of q row :
  visited list_of q (stored_row code_elements_columns row)
  = inr (in_list list_of q row).
Proof.
  unfold visited. rewrite stored_embedding. unfold in_list, has_embedding, row_vector.
  destruct (dict_get "embedding" row) as [[]|]; simpl;
    rewrite ?nonzero_nil; reflexivity.
Qed.

Lemma in_list_has_embedding list_of q row :
  in_list list_of q row = true -> has_embedding row = true.
Proof.
  unfold in_list. intros H. apply andb_true_iff in H as [H _].
  now apply andb_true_iff in H as [H _].
Qed.

Lemma filter_implied {A} (f g : A -> bool) l :
  (forall a, f a = true -> g a = true) ->
  List.filter g (List.filter f l) = List.filter f l.
Proof.
  intros H. induction l as [|a l IH]; simpl; [reflexivity|].
  destruct (f a) eqn:E; simpl; [|exact IH].
  now rewrite (H a E), IH.
Qed.

Lemma filter_narrows {A} (f g : A -> bool) l :
  (forall a, f a = true -> g a = true) ->
  (length (List.filter f l) <= length (List.filter g l))%nat.
Proof.
  intros H. induction l as [|a l IH]; simpl; [lia|].
  destruct (f a) eqn:E.
  - rewrite (H a E). simpl. lia.
  - destruct (g a); simpl; lia.
Qed.

(** The rows the statement looks at have an embedding, under either plan. *)
Lemma searched_rows index_scan list_of q rows row :
  In row (searched index_scan list_of q rows) ->
  In row rows /\ has_embedding row = true.
Proof.
  unfold searched. destruct index_scan; intros H; apply filter_In in H as [Hin H].
  - split; [exact Hin|]. exact (in_list_has_embedding _ _ _ H).
  - auto.
Qed.

Lemma searched_length index_scan list_of q rows :
  (length (searched index_scan list_of q rows)
   <= length (List.filter has_embedding rows))%nat.
Proof.
  unfold searched. destruct index_scan; [|lia].
  apply filter_narrows, in_list_has_embedding.
Qed.

Lemma searched_filtered index_scan list_of q rows :
  List.filter has_embedding (searched index_scan list_of q rows)
  = searched index_scan list_of q rows.
Proof.
  unfold searched. destruct index_scan; apply filter_implied; [|auto].
  apply in_list_has_embedding.
Qed.

Section Similar.
Variable q : vector.
Hypothesis q_dimension : length q = 1536%nat.

Lemma similar_key_ok row :
  row_fits code_elements_columns row = true ->
  has_embedding row = true ->
  with_key q similar_distance (stored_row code_elements_columns row)
  = inr (similar_key q row).
Proof.
  intros Hfit Hhas. destruct (fitting_embedding row Hfit Hhas) as [Hget Hlen].
  unfold with_key, distance_to. simpl d_alias. simpl d_column.
  rewrite stored_embedding, Hget. simpl.
  rewrite Hlen, q_dimension, Nat.eqb_refl. reflexivity.
Qed.

Lemma similar_output_ok row :
  row_fits code_elements_columns row = true ->
  has_embedding row = true ->
  bind (output_row q similar_distance (similar_key q row)) shape_row
  = inr (similar_result (similar_key q row)).
Proof.
  intros Hfit Hhas. pose proof (similar_key_ok row Hfit Hhas) as Hkey.
  unfold with_key in Hkey.
  destruct (distance_to q similar_distance (stored_row code_elements_columns row))
    as [err|k] eqn:Hd; [discriminate|].
  unfold similar_key in Hkey. simpl in Hkey. injection Hkey as ->.
  unfold output_row.
  change (snd (similar_key q row)) with (stored_row code_elements_columns row).
  rewrite Hd.
  change (shape_row (dict_set "similarity_score"
                       (score_value (Some (cosine_distance (row_vector row) q)))
                       (projection (stored_row code_elements_columns row)))
          = inr (similar_result (similar_key q row))).
  rewrite shape_row_output, similar_projection_clean, py_float_score. reflexivity.
Qed.
End Similar.

Lemma mapM_bind_total {A B C} (f : A -> Result B) (g : B -> Result C) (h : A -> C) l :
  Forall (fun a => bind (f a) g = inr (h a)) l ->
  bind (mapM f l) (mapM g) = inr (map h l).
Proof.
  induction 1 as [|a l Ha _ IH]; simpl; [reflexivity|].
  destruct (f a) as [err|b]; simpl in *; [discriminate|].
  destruct (mapM f l) as [err|bs]; simpl in *; [discriminate|].
  now rewrite Ha, IH.
Qed.

Lemma filterM_map_total {A B} (f : B -> Result bool) (s : A -> B) (g : A -> bool) l :
  Forall (fun a => f (s a) = inr (g a)) l ->
  filterM f (map s l) = inr (map s (List.filter g l)).
Proof.
  induction 1 as [|a l Ha _ IH]; simpl; [reflexivity|]. rewrite Ha, IH. simpl.
  destruct (g a); reflexivity.
Qed.

Lemma mapM_map_total {A B C} (f : B -> Result C) (s : A -> B) (k : A -> C) l :
  Forall (fun a => f (s a) = inr (k a)) l -> mapM f (map s l) = inr (map k l).
Proof.
  induction 1 as [|a l Ha _ IH]; simpl; [reflexivity|]. now rewrite Ha, IH.
Qed.

(** The rows the statement looks at, on a sound index: each fits the
    schema. *)
Lemma searched_fit index_scan list_of q rows (P : Row -> Prop) :
  Forall (fun row => row_fits code_elements_columns row = true) rows ->
  (forall row, In row rows -> row_fits code_elements_columns row = true ->
               has_embedding row = true -> P row) ->
  Forall P (searched index_scan list_of q rows).
Proof.
  intros Hfit HP. apply Forall_forall. intros row Hin.
  apply list_elem_of_In, searched_rows in Hin as [Hin Hhas].
  apply HP; [exact Hin | | exact Hhas].
  rewrite Forall_forall in Hfit. now apply Hfit, list_elem_of_In.
Qed.

Lemma bind_assoc {A B C} (m : Result A) (f : A -> Result B) (k : B -> Result C) :
  bind (bind m f) k = bind m (fun a => bind (f a) k).
Proof. destruct m; reflexivity. Qed.

(** The candidates of the statement, under either plan. *)
Lemma candidates_sound (index_scan : bool) list_of q rows :
  length q = 1536%nat ->
  bind (if index_scan
        then if dimension_fits q code_elements_columns
             then filterM (visited list_of q) (map (stored_row code_elements_columns) rows)
             else raise (DatabaseError "different vector dimensions")
        else ret (map (stored_row code_elements_columns) rows))
       (filterM (selected 0 [BNotNull "code_elements" "embedding"]))
  = inr (map (stored_row code_elements_columns) (searched index_scan list_of q rows)).
Proof.
  intros Hq. unfold searched. destruct index_scan.
  - replace (dimension_fits q code_elements_columns) with true
      by (unfold dimension_fits; simpl; now rewrite Hq).
    rewrite (filterM_map_total _ _ (in_list list_of q))
      by (apply Forall_forall; intros row _; apply visited_stored).
    simpl.
    rewrite (filterM_map_total _ _ has_embedding)
      by (apply Forall_forall; intros row _; apply stored_selected).
    rewrite filter_implied by apply in_list_has_embedding. reflexivity.
  - simpl.
    apply (filterM_map_total _ _ has_embedding), Forall_forall.
    intros row _. apply stored_selected.
Qed.

(** On a sound index a query vector of the right dimension and a limit that
    is not negative never make [search_similar] raise, and this is what it
    returns; the database is left as it was. *)
Lemma search_similar_sound index_scan list_of db rows q limit :
  index_holds db rows -> length q = 1536%nat -> (0 <= limit)%Z ->
  search_similar index_scan list_of q limit db
  = (db, inr (similar_results index_scan list_of q limit rows)).
Proof.
  intros [Hrel Hfit] Hq Hlimit.
  assert (Hselect :
    select_similar index_scan list_of q q limit db =
    (db, if (limit =? 0)%Z then inr []
         else mapM (output_row q similar_distance)
                (take (Z.to_nat limit)
                   (sort_by_key (map (similar_key q)
                                     (searched index_scan list_of q rows)))))).
  { unfold select_similar. rewrite Hrel.
    replace (has_columns ("embedding" :: similar_columns) code_elements_columns)
      with true by reflexivity.
    destruct q as [|x q']; [discriminate Hq|]. set (q := x :: q') in *.
    change (param_vector (PVector q)) with (@inr Exception vector q).
    do 2 (change (bind (inr ?a) ?k) with (k a); cbv beta).
    apply Z.ltb_ge in Hlimit. rewrite Hlimit.
    destruct (limit =? 0)%Z; [reflexivity|].
    rewrite <- bind_assoc, (candidates_sound index_scan list_of q rows Hq).
    change (bind (inr ?a) ?k) with (k a). cbv beta.
    rewrite (mapM_map_total _ _ (similar_key q))
      by (apply searched_fit; [exact Hfit | intros row _; apply similar_key_ok; exact Hq]).
    reflexivity. }
  unfold search_similar, st_bind. rewrite Hselect.
  destruct (limit =? 0)%Z eqn:E0.
  { apply Z.eqb_eq in E0. subst limit. reflexivity. }
  assert (Hall :
    bind (mapM (output_row q similar_distance)
               (take (Z.to_nat limit)
                  (sort_by_key (map (similar_key q)
                                    (searched index_scan list_of q rows)))))
         (mapM shape_row)
    = inr (similar_results index_scan list_of q limit rows)).
  { apply mapM_bind_total, Forall_take, Forall_forall. intros kr Hin.
    apply list_elem_of_In in Hin. apply (proj1 (sort_by_key_In _ _)) in Hin.
    apply in_map_iff in Hin as (row & <- & Hrow).
    apply searched_rows in Hrow as [Hrow Hhas].
    apply similar_output_ok; [exact Hq | | exact Hhas].
    rewrite Forall_forall in Hfit. apply Hfit, list_elem_of_In, Hrow. }
  destruct (mapM (output_row q similar_distance) _) as [err|out]; simpl in Hall;
    [discriminate|].
  now rewrite Hall.
Qed.

Lemma Forall2_map_self {A B} (P : A -> B -> Prop) (f : A -> B) l :
  Forall (fun a => P a (f a)) l -> Forall2 P l (map f l).
Proof. induction 1; simpl; constructor; auto. Qed.

Lemma similar_keys_sorted index_scan list_of q limit rows :
  let l := take (Z.to_nat limit)
             (sort_by_key (map (similar_key q) (searched index_scan list_of q rows))) in
  StronglySorted key_order l /\
  Forall (fun kr => exists row, kr = similar_key q row /\ In row rows /\
                                has_embedding row = true) l.
Proof.
  split.
  - apply StronglySorted_take, sort_by_key_sorted.
  - apply Forall_take, Forall_forall. intros kr Hin.
    apply list_elem_of_In in Hin. apply (proj1 (sort_by_key_In _ _)) in Hin.
    apply in_map_iff in Hin as (row & <- & Hrow).
    apply searched_rows in Hrow as [Hrow Hhas]. eauto.
Qed.

Lemma similar_results_found index_scan list_of q limit rows :
  Forall (fun row => row_fits code_elements_columns row = true) rows ->
  Forall (found_in rows) (similar_results index_scan list_of q limit rows).
Proof.
  intros Hfit. unfold similar_results. apply Forall_forall. intros res Hin.
  apply list_elem_of_In, in_map_iff in Hin as (kr & <- & Hkr).
  apply In_take in Hkr. apply (proj1 (sort_by_key_In _ _)) in Hkr.
  apply in_map_iff in Hkr as (row & <- & Hrow).
  apply searched_rows in Hrow as [Hrow _].
  exists row. split; [exact Hrow|]. split; [|reflexivity].
  rewrite Forall_forall in Hfit. apply Hfit, list_elem_of_In, Hrow.
Qed.

Lemma similar_results_length index_scan list_of q limit rows :
  length (similar_results index_scan list_of q limit rows) =
    Nat.min (Z.to_nat limit) (length (searched index_scan list_of q rows)).
Proof.
  unfold similar_results.
  now rewrite length_map, length_take, sort_by_key_length, length_map.
Qed.

Lemma similar_results_scores index_scan list_of q limit rows :
  Forall (between_or_nan (-1) 1)
         (scores (similar_results index_scan list_of q limit rows)).
Proof.
  destruct (similar_keys_sorted index_scan list_of q limit rows) as [_ Hkeys].
  unfold similar_results, scores. rewrite map_map. apply Forall_forall. intros s Hs.
  apply list_elem_of_In, in_map_iff in Hs as (kr & <- & Hkr).
  rewrite Forall_forall in Hkeys.
  destruct (Hkeys kr (proj2 (list_elem_of_In _ _) Hkr)) as (row & -> & _).
  simpl. apply score_range.
Qed.

(** X1. On an index that holds rows accepted by INSERT, [search_similar] with
    a query vector of 1536 components and a limit that is not negative
    returns and leaves the database as it was.  It gives at most as many
    results as the limit allows among the rows with an embedding: exactly as
    many when the store scans the table, possibly fewer when it goes through
    the index, which looks at one of its lists only.  Each result shows a
    stored row; the numeric scores come first, best first, the NaN scores
    last, and every score is NaN or lies between -1 and 1. *)
Theorem search_similar_returns index_scan list_of db rows q limit :
  index_holds db rows -> length q = 1536%nat -> (0 <= limit)%Z ->
  exists results,
    search_similar index_scan list_of q limit db = (db, inr results) /\
    (length results
     <= Nat.min (Z.to_nat limit) (length (List.filter has_embedding rows)))%nat /\
    (index_scan = false ->
     length results =
       Nat.min (Z.to_nat limit) (length (List.filter has_embedding rows))) /\
    Forall (found_in rows) results /\
    nan_last (scores results) /\
    Forall (between_or_nan (-1) 1) (scores results).
Proof.
  intros Hdb Hq Hlimit. exists (similar_results index_scan list_of q limit rows).
  split; [now apply search_similar_sound|].
  split; [|split; [|split; [|split]]].
  - rewrite similar_results_length.
    pose proof (searched_length index_scan list_of q rows). lia.
  - intros ->. now rewrite similar_results_length.
  - apply similar_results_found, Hdb.
  - destruct (similar_keys_sorted index_scan list_of q limit rows) as [Hsorted Hkeys].
    apply (keyed_scores_nan_last
             (take (Z.to_nat limit)
                (sort_by_key (map (similar_key q)
                                  (searched index_scan list_of q rows))))).
    + exact Hsorted.
    + unfold similar_results, scores. rewrite map_map.
      apply Forall2_map_self. eapply Forall_impl; [exact Hkeys|].
      intros kr (row & -> & _). simpl. eauto.
  - apply similar_results_scores.
Qed.

Lemma element_row_fits cst el v :
  length v = 1536%nat -> row_fits code_elements_columns (element_row cst el v) = true.
Proof.
  intros Hlen. unfold row_fits, element_row, assignable, accepts. cbn.
  rewrite Hlen. reflexivity.
Qed.

(** [insert] on a sound index: the row goes in exactly when the embedding
    has 1536 components. *)
Lemma insert_sound cst db rows el v :
  index_holds db rows -> length v = 1536%nat ->
  exists db',
    insert cst (file_path el) (element_name el) (element_type el)
      (signature el) (docstring el) v db = (db', inr tt) /\
    index_holds db' (rows ++ [element_row cst el v]) /\
    extensions db' = extensions db /\
    forall name, name <> "code_elements" ->
                 relations db' !! name = relations db !! name.
Proof.
  intros [Hrel Hfit] Hlen.
  rewrite (insert_element cst db rows el v Hrel Hlen). eexists. split; [reflexivity|].
  split; [split|split].
  - simpl. apply lookup_insert_eq.
  - apply Forall_app. split; [exact Hfit|]. constructor; [|constructor].
    now apply element_row_fits.
  - reflexivity.
  - intros name Hne. simpl. now apply lookup_insert_ne.
Qed.

(** X2. Round trip: a unit inserted with a non-zero embedding [v] is found by
    [search_similar v] with score 1, which no other result exceeds, as long
    as the limit does not cut the results short. *)
Theorem insert_then_search_similar index_scan list_of cst db rows el v limit :
  index_holds db rows -> length v = 1536%nat -> (0 < dot v v)%R ->
  (Z.of_nat (length rows) < limit)%Z ->
  exists db' results,
    insert cst (file_path el) (element_name el) (element_type el)
      (signature el) (docstring el) v db = (db', inr tt) /\
    search_similar index_scan list_of v limit db' = (db', inr results) /\
    In (element_display el, Finite 1) results /\
    Forall (between_or_nan (-1) 1) (scores results).
Proof.
  intros Hdb Hlen Hpos Hlimit.
  destruct (insert_sound cst db rows el v Hdb Hlen) as (db' & Hins & Hdb' & _).
  exists db', (similar_results index_scan list_of v limit (rows ++ [element_row cst el v])).
  split; [exact Hins|]. split; [apply search_similar_sound; auto; lia|]. split.
  - unfold similar_results.
    rewrite take_ge.
    2:{ rewrite sort_by_key_length, length_map.
        pose proof (searched_length index_scan list_of v (rows ++ [element_row cst el v])).
        pose proof (filter_length_le has_embedding (rows ++ [element_row cst el v])) as Hle.
        rewrite length_app in Hle. simpl in Hle. lia. }
    apply in_map_iff. exists (similar_key v (element_row cst el v)). split.
    + unfold similar_result, similar_key. simpl fst. simpl snd.
      replace (row_vector (element_row cst el v)) with v by reflexivity.
      rewrite cosine_distance_self by exact Hpos. simpl.
      f_equal. f_equal. lra.
    + apply (proj2 (sort_by_key_In _ _)), in_map.
      unfold searched. destruct index_scan; apply filter_In; split;
        try (apply in_or_app; right; now left); try reflexivity.
      unfold in_list.
      replace (row_vector (element_row cst el v)) with v by reflexivity.
      rewrite (nonzero_positive v Hpos), Nat.eqb_refl. reflexivity.
  - apply similar_results_scores.
Qed.

(** X3. An embedding that has not 1536 components is refused by the store:
    [insert] raises and the database stays as it was. *)
Theorem insert_wrong_dimension cst db rows fp name ty sig doc v :
  relations db !! "code_elements" = Some (TableRel code_elements_columns rows) ->
  length v <> 1536%nat ->
  insert cst fp name ty sig doc v db = (db, inl (DatabaseError "insert rejected")).
Proof.
  intros Hrel Hlen. unfold insert, insert_into. rewrite Hrel.
  apply Nat.eqb_neq in Hlen.
  assert (Hno : forallb (assignable code_elements_columns)
                  [("file_path", VText fp); ("element_name", VText name);
                   ("element_type", VText ty); ("signature", VText sig);
                   ("docstring", VText doc);
                   ("searchable_text", VText (cst name sig doc));
                   ("embedding", VVector v)] = false).
  { unfold assignable, accepts. cbn. rewrite Hlen. reflexivity. }
  rewrite Hno. reflexivity.
Qed.

(** [clear_all] on a sound index. *)
Lemma clear_all_sound db rows :
  index_holds db rows ->
  exists db', clear_all db = (db', inr tt) /\ index_holds db' [] /\
              extensions db' = extensions db /\
              forall name, name <> "code_elements" ->
                           relations db' !! name = relations db !! name.
Proof.
  intros [Hrel _]. unfold clear_all, delete_from. rewrite Hrel.
  eexists. split; [reflexivity|]. split; [split|split].
  - simpl. apply lookup_insert_eq.
  - constructor.
  - reflexivity.
  - intros name Hne. simpl. now apply lookup_insert_ne.
Qed.

(** X4. After [clear_all] nothing is found by a query vector of 1536
    components, and the statistics are all zero.  (A query vector of another
    dimension is refused by a scan of the index even then.) *)
Theorem clear_all_empties index_scan list_of db rows q limit :
  index_holds db rows -> length q = 1536%nat -> (0 <= limit)%Z ->
  exists db',
    clear_all db = (db', inr tt) /\
    search_similar index_scan list_of q limit db' = (db', inr []) /\
    stats db' = (db', inr {| total_elements := 0; functions := 0;
                             classes := 0; unique_files := 0 |}).
Proof.
  intros Hdb Hq Hlimit.
  destruct (clear_all_sound db rows Hdb) as (db' & Hclear & Hdb' & _).
  exists db'. split; [exact Hclear|]. split.
  - rewrite (search_similar_sound index_scan list_of db' [] q limit Hdb' Hq Hlimit).
    unfold similar_results, searched. destruct index_scan; simpl; now rewrite take_nil.
  - destruct Hdb' as [Hrel _].
    unfold stats, st_bind, select_count, select_count_distinct_files.
    repeat (rewrite Hrel; simpl). reflexivity.
Qed.

(** A query vector of two components after [clear_all]: the scan of the
    index refuses it, the scan of the table has nothing to compare it
    with. *)
Example wrong_dimension_on_empty_index :
  search_similar true one_list [1%R; 0%R] 5 ready_database
  = (ready_database, inl (DatabaseError "different vector dimensions")) /\
  search_similar false one_list [1%R; 0%R] 5 ready_database
  = (ready_database, inr []).
Proof. split; reflexivity. Qed.

Lemma filter_disjoint_length {A} (f g : A -> bool) l :
  (forall a, f a = true -> g a = false) ->
  (length (List.filter f l) + length (List.filter g l) <= length l)%nat.
Proof.
  intros Hfg. induction l as [|a l IH]; simpl; [lia|].
  destruct (f a) eqn:Hf; [rewrite (Hfg a Hf)|destruct (g a)]; simpl; lia.
Qed.

Lemma column_texts_length name rows : (length (column_texts name rows) <= length rows)%nat.
Proof.
  induction rows as [|row rows IH]; simpl; [lia|].
  rewrite length_app.
  destruct (dict_get name row) as [[]|]; simpl; lia.
Qed.

Lemma nodup_length_le {A} (dec : forall x y : A, {x = y} + {x <> y}) l :
  (length (nodup dec l) <= length l)%nat.
Proof.
  induction l as [|a l IH]; simpl; [lia|].
  destruct (in_dec dec a l); simpl; lia.
Qed.

(** X5. Whatever the table holds, the counts of [stats] fit together:
    functions and classes are different rows, and there are no more files
    than rows; [stats] changes nothing. *)
Theorem stats_counts_consistent db db' s :
  stats db = (db', inr s) ->
  db' = db /\
  (functions s + classes s <= total_elements s)%nat /\
  (unique_files s <= total_elements s)%nat.
Proof.
  intros H. unfold stats, st_bind, select_count, select_count_distinct_files, st_ret in H.
  destruct (relations db !! "code_elements") as [[columns rows|]|] eqn:Hrel;
    simpl in H; rewrite ?Hrel in H; simpl in H; try discriminate.
  destruct (find_column "element_type" columns);
    simpl in H; rewrite ?Hrel in H; simpl in H; try discriminate.
  destruct (find_column "file_path" columns);
    simpl in H; rewrite ?Hrel in H; simpl in H; try discriminate.
  injection H as <- <-. split; [reflexivity|]. simpl. split.
  - apply filter_disjoint_length. intros row.
    destruct (dict_get "element_type" row) as [[]|]; try discriminate.
    intros Hf. apply String.eqb_eq in Hf. now subst.
  - etransitivity; [apply nodup_length_le | apply column_texts_length].
Qed.

Lemma nodup_snoc_length {A} (dec : forall x y : A, {x = y} + {x <> y}) l x :
  length (nodup dec (l ++ [x])) =
  (length (nodup dec l) + if in_dec dec x l then 0 else 1)%nat.
Proof.
  induction l as [|a l IH]; [reflexivity|].
  cbn [app nodup].
  assert (Hsnoc : In a (l ++ [x]) <-> In a l \/ a = x).
  { rewrite in_app_iff. simpl. intuition. }
  assert (Hcons : In x (a :: l) <-> a = x \/ In x l) by (simpl; tauto).
  destruct (in_dec dec a (l ++ [x])) as [H1|H1];
    destruct (in_dec dec a l) as [H2|H2];
    destruct (in_dec dec x (a :: l)) as [H3|H3];
    cbn [length]; rewrite IH;
    destruct (in_dec dec x l) as [H4|H4];
    try lia; exfalso; intuition congruence.
Qed.

Lemma column_texts_app name rows1 rows2 :
  column_texts name (rows1 ++ rows2) = column_texts name rows1 ++ column_texts name rows2.
Proof. unfold column_texts. apply flat_map_app. Qed.

(** [stats] on a sound index. *)
Lemma stats_sound db rows :
  index_holds db rows ->
  stats db =
    (db, inr {| total_elements := length rows;
                functions := length (List.filter
                  (fun row => match dict_get "element_type" row with
                              | Some (VText s) => String.eqb s "function"
                              | _ => false
                              end) rows);
                classes := length (List.filter
                  (fun row => match dict_get "element_type" row with
                              | Some (VText s) => String.eqb s "class"
                              | _ => false
                              end) rows);
                unique_files :=
                  length (nodup String.string_dec (column_texts "file_path" rows)) |}).
Proof.
  intros [Hrel _]. unfold stats, st_bind, select_count, select_count_distinct_files.
  repeat (rewrite Hrel; simpl). reflexivity.
Qed.

(** X6. One [insert] moves the statistics by one row: the total grows by one,
    the count of its element type, if it is a function or a class, grows by
    one, and the number of files grows exactly when the file is new. *)
Theorem stats_after_insert cst db rows el v s :
  index_holds db rows -> length v = 1536%nat ->
  stats db = (db, inr s) ->
  exists db',
    insert cst (file_path el) (element_name el) (element_type el)
      (signature el) (docstring el) v db = (db', inr tt) /\
    stats db' =
      (db', inr {| total_elements := S (total_elements s);
                   functions := functions s +
                     (if String.eqb (element_type el) "function" then 1 else 0);
                   classes := classes s +
                     (if String.eqb (element_type el) "class" then 1 else 0);
                   unique_files := unique_files s +
                     (if in_dec String.string_dec (file_path el)
                                (column_texts "file_path" rows)
                      then 0 else 1) |}).
Proof.
  intros Hdb Hlen Hstats.
  destruct (insert_sound cst db rows el v Hdb Hlen) as (db' & Hins & Hdb' & _).
  exists db'. split; [exact Hins|].
  rewrite (stats_sound db rows Hdb) in Hstats. injection Hstats as <-.
  rewrite (stats_sound db' _ Hdb'). cbn [total_elements functions classes unique_files].
  rewrite !List.filter_app, !length_app, column_texts_app.
  change (column_texts "file_path" [element_row cst el v]) with [file_path el].
  rewrite nodup_snoc_length.
  change (length [element_row cst el v]) with 1%nat. rewrite Nat.add_1_r.
  cbn [List.filter element_row dict_get].
  change (String.eqb "element_type" "file_path") with false.
  change (String.eqb "element_type" "element_name") with false.
  change (String.eqb "element_type" "element_type") with true.
  cbn iota.
  destruct (String.eqb (element_type el) "function");
    destruct (String.eqb (element_type el) "class"); reflexivity.
Qed.

(** ** Schema initialisation by [VectorDB()] *)

Lemma VectorDB_fresh db :
  relations db !! "code_elements" = None ->
  "vector" ∈ extensions db \/ "vector" ∈ installable db ->
  exists db', VectorDB db = (db', inr tt) /\ schema_ready db' [].
Proof.
  intros Hnone Hext.
  assert (Hgo : forall d, "vector" ∈ extensions d ->
                          relations d !! "code_elements" = None ->
                          exists db', _ensure_schema d = (db', inr tt) /\
                                      schema_ready db' []).
  { intros d He Hn.
    unfold _ensure_schema, st_bind, create_extension_if_not_exists,
      create_table_if_not_exists, create_index_if_not_exists.
    rewrite decide_True by exact He. rewrite Hn. simpl.
    rewrite bool_decide_eq_true_2 by exact He. simpl.
    rewrite lookup_insert_eq. simpl.
    destruct (relations d !! "idx_code_elements_embedding") as [rel|] eqn:Hi.
    - rewrite lookup_insert_ne by discriminate. rewrite Hi.
      eexists. split; [reflexivity|]. split; [exact He|]. split.
      + split; [simpl; apply lookup_insert_eq | constructor].
      + simpl. rewrite lookup_insert_ne by discriminate. rewrite Hi. eauto.
    - rewrite lookup_insert_ne by discriminate. rewrite Hi.
      eexists. split; [reflexivity|]. split; [exact He|]. split.
      + split; [|constructor]. simpl.
        rewrite lookup_insert_ne by discriminate. apply lookup_insert_eq.
      + simpl. rewrite lookup_insert_eq. eauto. }
  unfold VectorDB. destruct (decide ("vector" ∈ extensions db)) as [He|He].
  + exact (Hgo db He Hnone).
  + destruct Hext as [He'|Hi]; [contradiction|].
    destruct (Hgo (with_extensions db ({["vector"]} ∪ extensions db)))
      as (db' & Hrun & Hready); [simpl; set_solver | exact Hnone |].
    exists db'. split; [|exact Hready].
    rewrite <- Hrun. unfold _ensure_schema at 1, st_bind at 1 2,
      create_extension_if_not_exists at 1.
    rewrite decide_False by exact He. rewrite decide_True by exact Hi.
    unfold _ensure_schema, st_bind, create_extension_if_not_exists.
    rewrite decide_True by (simpl; set_solver). reflexivity.
Qed.

Lemma VectorDB_ready db rows : schema_ready db rows -> VectorDB db = (db, inr tt).
Proof.
  intros (He & [Hrel _] & [rel Hi]).
  unfold VectorDB, _ensure_schema, st_bind, create_extension_if_not_exists,
    create_table_if_not_exists, create_index_if_not_exists.
  rewrite decide_True by exact He. rewrite Hrel. simpl. rewrite Hi, Hrel. reflexivity.
Qed.

Lemma fresh_database_ready :
  exists db', VectorDB fresh_database = (db', inr tt) /\ schema_ready db' [].
Proof.
  apply VectorDB_fresh; [reflexivity|]. right. unfold fresh_database. simpl. set_solver.
Qed.

(** ** Whole runs of [cmd_index] *)

Lemma insert_ready cst db rows el v :
  schema_ready db rows -> length v = 1536%nat ->
  exists db',
    insert cst (file_path el) (element_name el) (element_type el)
      (signature el) (docstring el) v db = (db', inr tt) /\
    schema_ready db' (rows ++ [element_row cst el v]).
Proof.
  intros (He & Hdb & Hi) Hlen.
  destruct (insert_sound cst db rows el v Hdb Hlen) as (db' & Hins & Hdb' & Hext & Hother).
  exists db'. split; [exact Hins|]. split; [now rewrite Hext|]. split; [exact Hdb'|].
  rewrite Hother by discriminate. exact Hi.
Qed.

Lemma clear_all_ready db rows :
  schema_ready db rows ->
  exists db', clear_all db = (db', inr tt) /\ schema_ready db' [].
Proof.
  intros (He & Hdb & Hi).
  destruct (clear_all_sound db rows Hdb) as (db' & Hclear & Hdb' & Hext & Hother).
  exists db'. split; [exact Hclear|]. split; [now rewrite Hext|]. split; [exact Hdb'|].
  rewrite Hother by discriminate. exact Hi.
Qed.

Section IndexingRuns.
Variable find_python_files : string -> list string.
Variable create_searchable_text : string -> string -> string -> string.
Variable generate_embedding : string -> option vector.
Variable extract_code_elements : string -> list Element.

Local Abbreviation indexed := (indexed_rows generate_embedding create_searchable_text).
Local Abbreviation well := (embeds_well create_searchable_text generate_embedding).

Lemma indexed_app l1 l2 : indexed (l1 ++ l2) = indexed l1 ++ indexed l2.
Proof. unfold indexed_rows. apply flat_map_app. Qed.

Lemma index_elements_ready elements : forall total w rows,
  schema_ready (database w) rows ->
  Forall well elements ->
  exists w',
    index_elements create_searchable_text generate_embedding elements total w =
      (w', inr (total + length (indexed elements))%nat) /\
    stdout w' = stdout w /\
    schema_ready (database w') (rows ++ indexed elements).
Proof.
  induction elements as [|el elements IH]; intros total w rows Hready Hall.
  - exists w. simpl. unfold st_ret. rewrite Nat.add_0_r, app_nil_r. auto.
  - inversion Hall as [|? ? Hel Hrest]; subst.
    cbn [index_elements]. unfold indexed_rows. cbn [flat_map].
    fold (indexed elements). unfold embeds_well in Hel.
    unfold embedding_of in Hel |- *.
    destruct (truthy_vector _) as [v|] eqn:Hv.
    + destruct (insert_ready create_searchable_text (database w) rows el v Hready
                  (Hel v eq_refl)) as (db' & Hins & Hready').
      unfold st_bind, on_database. rewrite Hins. cbn [database stdout].
      set (w1 := {| database := db'; stdout := stdout w |}).
      destruct (IH (S total) w1 (rows ++ [element_row create_searchable_text el v])
                  Hready' Hrest) as (w' & Hrun & Hout & Hrel).
      exists w'. rewrite Hrun. split; [|split].
      * do 2 f_equal. cbn [length app]. lia.
      * exact Hout.
      * now rewrite <- app_assoc in Hrel.
    + destruct (IH total w rows Hready Hrest) as (w' & Hrun & Hout & Hrel).
      exists w'. rewrite Hrun. cbn [app]. auto.
Qed.

Lemma index_files_ready files : forall total w rows,
  schema_ready (database w) rows ->
  Forall well (flat_map extract_code_elements files) ->
  exists w',
    index_files create_searchable_text generate_embedding extract_code_elements
      files total w =
      (w', inr (total + length (indexed (flat_map extract_code_elements files)))%nat) /\
    stdout w' = stdout w ++ processing_lines files /\
    schema_ready (database w')
      (rows ++ indexed (flat_map extract_code_elements files)).
Proof.
  induction files as [|f files IH]; intros total w rows Hready Hall.
  - exists w. simpl. unfold st_ret. rewrite Nat.add_0_r, !app_nil_r. auto.
  - cbn [flat_map] in Hall. apply Forall_app in Hall as [Hf Hrest].
    cbn [index_files flat_map]. unfold st_bind at 1, print at 1.
    set (w1 := {| database := database w; stdout := _ |}).
    destruct (index_elements_ready (extract_code_elements f) total w1 rows Hready Hf)
      as (w2 & Hrun & Hout2 & Hready2).
    unfold st_bind. rewrite Hrun.
    destruct (IH (total + length (indexed (extract_code_elements f)))%nat w2 _
                Hready2 Hrest) as (w3 & Hrun3 & Hout3 & Hready3).
    exists w3. rewrite Hrun3, indexed_app. split; [|split].
    + do 2 f_equal. rewrite length_app. lia.
    + rewrite Hout3, Hout2. subst w1. cbn [stdout processing_lines map].
      now rewrite <- app_assoc.
    + now rewrite <- app_assoc in Hready3.
Qed.

(** The whole run of [cmd_index] where no insert is refused. *)
Lemma cmd_index_run args w0 db1 rows0 :
  VectorDB (database w0) = (db1, inr tt) ->
  schema_ready db1 rows0 ->
  Forall well
    (flat_map extract_code_elements (find_python_files (directory args))) ->
  let files := find_python_files (directory args) in
  let added := indexed (flat_map extract_code_elements files) in
  exists w1,
    cmd_index find_python_files create_searchable_text generate_embedding
      extract_code_elements args w0 = (w1, inr tt) /\
    stdout w1 =
      stdout w0
      ++ ["Indexing Python files in " +:+ directory args +:+ "..."]
      ++ (if clear args then ["Cleared existing index"] else [])
      ++ processing_lines files
      ++ ["Indexed " +:+ pretty (length added) +:+ " elements from "
          +:+ pretty (length files) +:+ " files"] /\
    schema_ready (database w1) ((if clear args then [] else rows0) ++ added).
Proof.
  intros Hinit Hready Hall files added.
  unfold cmd_index. unfold st_bind at 1, print at 1.
  unfold st_bind at 1, on_database at 1. cbn [database stdout].
  rewrite Hinit.
  set (w1 := {| database := db1; stdout := _ |}).
  assert (Hclear : exists w2,
             (if clear args
              then st_bind (on_database clear_all) (fun _ => print "Cleared existing index")
              else st_ret tt) w1 = (w2, inr tt) /\
             stdout w2 = stdout w1
                         ++ (if clear args then ["Cleared existing index"] else []) /\
             schema_ready (database w2) (if clear args then [] else rows0)).
  { destruct (clear args).
    - destruct (clear_all_ready db1 rows0 Hready) as (db2 & Hc & Hready2).
      unfold st_bind, on_database, print. subst w1. cbn [database stdout].
      rewrite Hc. cbn [database stdout]. eexists. split; [reflexivity|].
      split; [reflexivity | exact Hready2].
    - exists w1. split; [reflexivity|]. split; [now rewrite app_nil_r | exact Hready]. }
  destruct Hclear as (w2 & Hrun2 & Hout2 & Hready2).
  unfold st_bind at 1. rewrite Hrun2.
  destruct (index_files_ready files 0%nat w2 _ Hready2 Hall)
    as (w3 & Hrun3 & Hout3 & Hready3).
  unfold st_bind. fold files. rewrite Hrun3. unfold print.
  eexists. split; [reflexivity|]. cbn [database stdout]. split; [|exact Hready3].
  rewrite Hout3, Hout2. subst w1. cbn [stdout]. fold added.
  now rewrite <- !app_assoc.
Qed.
End IndexingRuns.

Lemma insert_refused cst db rows fp name ty sig doc v :
  relations db !! "code_elements" = Some (TableRel code_elements_columns rows) ->
  length v <> 1536%nat ->
  insert cst fp name ty sig doc v db = (db, inl (DatabaseError "insert rejected")).
Proof.
  intros Hrel Hlen. unfold insert, insert_into. rewrite Hrel.
  apply Nat.eqb_neq in Hlen.
  assert (Hno : forallb (assignable code_elements_columns)
                  [("file_path", VText fp); ("element_name", VText name);
                   ("element_type", VText ty); ("signature", VText sig);
                   ("docstring", VText doc);
                   ("searchable_text", VText (cst name sig doc));
                   ("embedding", VVector v)] = false).
  { unfold assignable, accepts. cbn. rewrite Hlen. reflexivity. }
  rewrite Hno. reflexivity.
Qed.

Lemma cmd_stats_ready w rows :
  schema_ready (database w) rows ->
  exists s,
    stats (database w) = (database w, inr s) /\
    total_elements s = length rows /\
    cmd_stats w = ({| database := database w; stdout := stdout w ++ stats_lines s |},
                   inr tt).
Proof.
  intros Hready. pose proof Hready as (_ & Hdb & _).
  pose proof (stats_sound _ _ Hdb) as Hstats.
  eexists. split; [exact Hstats|]. split; [reflexivity|].
  unfold cmd_stats. unfold st_bind at 1, on_database at 1.
  rewrite (VectorDB_ready _ _ Hready).
  unfold st_bind at 1, on_database at 1. cbn [database stdout]. rewrite Hstats.
  unfold st_bind, print. cbn [database stdout total_elements functions classes unique_files].
  unfold stats_lines. cbn [total_elements functions classes unique_files].
  now rewrite <- !app_assoc.
Qed.

Section IndexingRuns2.
Variable find_python_files : string -> list string.
Variable create_searchable_text : string -> string -> string -> string.
Variable generate_embedding : string -> option vector.
Variable extract_code_elements : string -> list Element.

Local Abbreviation indexed := (indexed_rows generate_embedding create_searchable_text).
Local Abbreviation well := (embeds_well create_searchable_text generate_embedding).
Local Abbreviation run_index :=
  (cmd_index find_python_files create_searchable_text generate_embedding
     extract_code_elements).

Lemma cmd_index_ready args w0 rows0 :
  schema_ready (database w0) rows0 ->
  Forall well (flat_map extract_code_elements (find_python_files (directory args))) ->
  exists w1,
    run_index args w0 = (w1, inr tt) /\
    stdout w1 =
      stdout w0
      ++ ["Indexing Python files in " +:+ directory args +:+ "..."]
      ++ (if clear args then ["Cleared existing index"] else [])
      ++ processing_lines (find_python_files (directory args))
      ++ [report_line
            (length (indexed (flat_map extract_code_elements
                                (find_python_files (directory args)))))
            (length (find_python_files (directory args)))] /\
    schema_ready (database w1)
      ((if clear args then [] else rows0)
       ++ indexed (flat_map extract_code_elements (find_python_files (directory args)))).
Proof.
  intros Hready Hall.
  exact (cmd_index_run find_python_files create_searchable_text generate_embedding
           extract_code_elements args w0 (database w0) rows0
           (VectorDB_ready _ _ Hready) Hready Hall).
Qed.

(** X7. On a database that has the schema, with a provider whose vectors
    have 1536 components, [cmd_index] goes through and prints the start
    line, the line about clearing if [--clear] is given, one line per file
    in the order of [find_python_files], and the report, which counts the
    units that got an embedding; the table then holds the former rows (none
    of them with [--clear]) followed by one row per such unit, in the order
    of the run. *)
Theorem cmd_index_output args w0 rows0 :
  schema_ready (database w0) rows0 ->
  Forall well (flat_map extract_code_elements (find_python_files (directory args))) ->
  let files := find_python_files (directory args) in
  let added := indexed (flat_map extract_code_elements files) in
  exists w1,
    run_index args w0 = (w1, inr tt) /\
    stdout w1 =
      stdout w0
      ++ ["Indexing Python files in " +:+ directory args +:+ "..."]
      ++ (if clear args then ["Cleared existing index"] else [])
      ++ processing_lines files
      ++ ["Indexed " +:+ pretty (length added) +:+ " elements from "
          +:+ pretty (length files) +:+ " files"] /\
    index_holds (database w1) ((if clear args then [] else rows0) ++ added).
Proof.
  intros Hready Hall files added.
  destruct (cmd_index_ready args w0 rows0 Hready Hall) as (w1 & Hrun & Hout & Hready1).
  exists w1. split; [exact Hrun|]. split; [exact Hout|]. apply Hready1.
Qed.

(** X8. Indexing the same directory twice: without [--clear] every unit
    that got an embedding is stored twice, with [--clear] the second run
    leaves the rows of the first. *)
Theorem cmd_index_twice args w0 rows0 :
  schema_ready (database w0) rows0 ->
  Forall well (flat_map extract_code_elements (find_python_files (directory args))) ->
  let added := indexed (flat_map extract_code_elements
                          (find_python_files (directory args))) in
  exists w1 w2,
    run_index args w0 = (w1, inr tt) /\
    run_index args w1 = (w2, inr tt) /\
    index_holds (database w1) ((if clear args then [] else rows0) ++ added) /\
    index_holds (database w2)
      (if clear args then added else rows0 ++ added ++ added).
Proof.
  intros Hready Hall added.
  destruct (cmd_index_ready args w0 rows0 Hready Hall) as (w1 & Hrun1 & _ & Hready1).
  destruct (cmd_index_ready args w1 _ Hready1 Hall) as (w2 & Hrun2 & _ & Hready2).
  exists w1, w2. split; [exact Hrun1|]. split; [exact Hrun2|].
  split; [apply Hready1|].
  destruct Hready2 as (_ & Hdb2 & _). fold added in Hdb2.
  destruct (clear args); [exact Hdb2|]. now rewrite <- app_assoc in Hdb2.
Qed.

(** X9. [cmd_stats] after [cmd_index]: the total it prints is the number of
    rows that were there (none with [--clear]) plus the number the report
    of [cmd_index] gives; the database is left as [cmd_index] left it. *)
Theorem cmd_index_then_cmd_stats args w0 rows0 :
  schema_ready (database w0) rows0 ->
  Forall well (flat_map extract_code_elements (find_python_files (directory args))) ->
  let files := find_python_files (directory args) in
  let added := indexed (flat_map extract_code_elements files) in
  exists w1 w2 s,
    run_index args w0 = (w1, inr tt) /\
    cmd_stats w1 = (w2, inr tt) /\
    last (stdout w1) = Some (report_line (length added) (length files)) /\
    database w2 = database w1 /\
    stdout w2 = stdout w1 ++ stats_lines s /\
    total_elements s =
      ((if clear args then 0 else length rows0) + length added)%nat.
Proof.
  intros Hready Hall files added.
  destruct (cmd_index_ready args w0 rows0 Hready Hall) as (w1 & Hrun1 & Hout & Hready1).
  destruct (cmd_stats_ready w1 _ Hready1) as (s & _ & Htotal & Hstats).
  eexists w1, _, s. split; [exact Hrun1|]. split; [exact Hstats|].
  split; [|split; [reflexivity|split; [reflexivity|]]].
  - rewrite Hout, !app_assoc. apply last_snoc.
  - rewrite Htotal, length_app. fold files. fold added.
    destruct (clear args); reflexivity.
Qed.

Lemma index_elements_refused pre bad post v : forall total w rows,
  schema_ready (database w) rows ->
  Forall well pre ->
  embedding_of generate_embedding create_searchable_text bad = Some v ->
  length v <> 1536%nat ->
  exists w',
    index_elements create_searchable_text generate_embedding
      (pre ++ bad :: post) total w = (w', inl (DatabaseError "insert rejected")) /\
    stdout w' = stdout w /\
    schema_ready (database w') (rows ++ indexed pre).
Proof.
  induction pre as [|el pre IH]; intros total w rows Hready Hall Hbad Hlen.
  - exists w. cbn [app index_elements]. unfold embedding_of in Hbad. rewrite Hbad.
    unfold st_bind, on_database. pose proof Hready as (_ & [Hrel _] & _).
    rewrite (insert_refused _ _ _ _ _ _ _ _ _ Hrel Hlen).
    destruct w. cbn. rewrite app_nil_r. auto.
  - inversion Hall as [|? ? Hel Hrest]; subst.
    cbn [app index_elements]. unfold indexed_rows. cbn [flat_map].
    fold (indexed pre). unfold embeds_well in Hel. unfold embedding_of in Hel |- *.
    destruct (truthy_vector _) as [u|] eqn:Hu.
    + destruct (insert_ready create_searchable_text (database w) rows el u Hready
                  (Hel u eq_refl)) as (db' & Hins & Hready').
      unfold st_bind, on_database. rewrite Hins. cbn [database stdout].
      set (w1 := {| database := db'; stdout := stdout w |}).
      destruct (IH (S total) w1 _ Hready' Hrest Hbad Hlen) as (w' & Hrun & Hout & Hrel).
      exists w'. rewrite Hrun. split; [reflexivity|]. split; [exact Hout|].
      now rewrite <- app_assoc in Hrel.
    + destruct (IH total w rows Hready Hrest Hbad Hlen) as (w' & Hrun & Hout & Hrel).
      exists w'. rewrite Hrun. cbn [app]. auto.
Qed.

Lemma index_files_refused fpre f fpost pre bad post v : forall total w rows,
  schema_ready (database w) rows ->
  Forall well (flat_map extract_code_elements fpre) ->
  extract_code_elements f = pre ++ bad :: post ->
  Forall well pre ->
  embedding_of generate_embedding create_searchable_text bad = Some v ->
  length v <> 1536%nat ->
  exists w',
    index_files create_searchable_text generate_embedding extract_code_elements
      (fpre ++ f :: fpost) total w = (w', inl (DatabaseError "insert rejected")) /\
    stdout w' = stdout w ++ processing_lines (fpre ++ [f]) /\
    schema_ready (database w')
      (rows ++ indexed (flat_map extract_code_elements fpre ++ pre)).
Proof.
  induction fpre as [|g fpre IH]; intros total w rows Hready Hall Hf Hpre Hbad Hlen.
  - cbn [app index_files flat_map]. unfold st_bind at 1, print at 1.
    set (w1 := {| database := database w; stdout := _ |}).
    destruct (index_elements_refused pre bad post v total w1 rows Hready Hpre Hbad Hlen)
      as (w2 & Hrun & Hout & Hready2).
    unfold st_bind. rewrite Hf, Hrun. exists w2. split; [reflexivity|].
    split; [|exact Hready2]. rewrite Hout. reflexivity.
  - cbn [flat_map] in Hall. apply Forall_app in Hall as [Hg Hrest].
    cbn [app index_files flat_map]. unfold st_bind at 1, print at 1.
    set (w1 := {| database := database w; stdout := _ |}).
    destruct (index_elements_ready create_searchable_text generate_embedding
                (extract_code_elements g) total w1 rows Hready Hg)
      as (w2 & Hrun & Hout2 & Hready2).
    unfold st_bind. rewrite Hrun.
    destruct (IH (total + length (indexed (extract_code_elements g)))%nat w2 _
                Hready2 Hrest Hf Hpre Hbad Hlen) as (w3 & Hrun3 & Hout3 & Hready3).
    exists w3. rewrite Hrun3. split; [reflexivity|]. split.
    + rewrite Hout3, Hout2. subst w1. cbn [stdout processing_lines map app].
      now rewrite <- app_assoc.
    + rewrite <- app_assoc in Hready3. rewrite <- app_assoc.
      repeat rewrite indexed_app in Hready3. repeat rewrite indexed_app.
      rewrite <- ?app_assoc in Hready3 |- *. exact Hready3.
Qed.

(** X10. An embedding of another dimension than 1536 stops the run: the
    exception of the refused [insert] leaves [cmd_index], nothing is printed
    after the line of the file being processed, so no report, and the units
    indexed before stay in the table. *)
Theorem cmd_index_stops_at_refused_insert args w0 rows0 fpre f fpost pre bad post v :
  schema_ready (database w0) rows0 ->
  find_python_files (directory args) = fpre ++ f :: fpost ->
  Forall well (flat_map extract_code_elements fpre) ->
  extract_code_elements f = pre ++ bad :: post ->
  Forall well pre ->
  embedding_of generate_embedding create_searchable_text bad = Some v ->
  length v <> 1536%nat ->
  exists w1,
    run_index args w0 = (w1, inl (DatabaseError "insert rejected")) /\
    stdout w1 =
      stdout w0
      ++ ["Indexing Python files in " +:+ directory args +:+ "..."]
      ++ (if clear args then ["Cleared existing index"] else [])
      ++ processing_lines (fpre ++ [f]) /\
    index_holds (database w1)
      ((if clear args then [] else rows0)
       ++ indexed (flat_map extract_code_elements fpre ++ pre)).
Proof.
  intros Hready Hfiles Hall Hf Hpre Hbad Hlen.
  unfold cmd_index. unfold st_bind at 1, print at 1.
  unfold st_bind at 1, on_database at 1. cbn [database stdout].
  rewrite (VectorDB_ready _ _ Hready).
  set (w1 := {| database := database w0; stdout := _ |}).
  assert (Hclear : exists w2,
             (if clear args
              then st_bind (on_database clear_all) (fun _ => print "Cleared existing index")
              else st_ret tt) w1 = (w2, inr tt) /\
             stdout w2 = stdout w1
                         ++ (if clear args then ["Cleared existing index"] else []) /\
             schema_ready (database w2) (if clear args then [] else rows0)).
  { destruct (clear args).
    - destruct (clear_all_ready (database w0) rows0 Hready) as (db2 & Hc & Hready2).
      unfold st_bind, on_database, print. subst w1. cbn [database stdout].
      rewrite Hc. cbn [database stdout]. eexists. split; [reflexivity|].
      split; [reflexivity | exact Hready2].
    - exists w1. split; [reflexivity|]. split; [now rewrite app_nil_r | exact Hready]. }
  destruct Hclear as (w2 & Hrun2 & Hout2 & Hready2).
  unfold st_bind at 1. rewrite Hrun2. rewrite Hfiles.
  destruct (index_files_refused fpre f fpost pre bad post v 0%nat w2 _
              Hready2 Hall Hf Hpre Hbad Hlen) as (w3 & Hrun3 & Hout3 & Hready3).
  unfold st_bind. rewrite Hrun3.
  exists w3. split; [reflexivity|]. split; [|apply Hready3].
  rewrite Hout3, Hout2. subst w1. cbn [stdout]. now rewrite <- !app_assoc.
Qed.
End IndexingRuns2.

(** ** [cmd_find] *)

Lemma append_length a b : String.length (a +:+ b) = (String.length a + String.length b)%nat.
Proof.
  induction a as [|c a IH]; [reflexivity|].
  change (String c a +:+ b) with (String c (a +:+ b)). simpl. now rewrite IH.
Qed.

(** The characters of a text, one byte further to the left. *)
Lemma characters_cons c s :
  characters (String c s) =
    match characters s with
    | String d g :: gs =>
        if is_continuation d then String c (String d g) :: gs
        else String c EmptyString :: String d g :: gs
    | gs => String c EmptyString :: gs
    end.
Proof. reflexivity. Qed.

(** Put together again, the characters give the text. *)
Lemma concat_characters s : concat_strings (characters s) = s.
Proof.
  induction s as [|c s IH]; [reflexivity|]. rewrite characters_cons.
  destruct (characters s) as [|[|d g] gs]; simpl in *.
  - now rewrite <- IH.
  - now rewrite <- IH.
  - destruct (is_continuation d); simpl; now rewrite <- IH.
Qed.

Lemma concat_strings_app l1 l2 :
  concat_strings (l1 ++ l2) = concat_strings l1 +:+ concat_strings l2.
Proof.
  induction l1 as [|a l1 IH]; simpl; [reflexivity|].
  now rewrite IH, append_assoc.
Qed.

(** A character holds at least one byte. *)
Lemma characters_nonempty s : Forall (fun g => g <> EmptyString) (characters s).
Proof.
  induction s as [|c s IH]; [constructor|]. rewrite characters_cons.
  destruct (characters s) as [|[|d g] gs].
  - repeat constructor. discriminate.
  - constructor; [discriminate | exact IH].
  - destruct (is_continuation d).
    + inversion IH; subst. constructor; [discriminate | assumption].
    + constructor; [discriminate | exact IH].
Qed.

(** The first characters of a text are the characters of the text they
    make up. *)
Lemma characters_prefix s : forall n,
  characters (concat_strings (firstn n (characters s))) = firstn n (characters s).
Proof.
  induction s as [|c s IH]; intros n; [now destruct n|].
  rewrite characters_cons.
  destruct n as [|n]; [reflexivity|].
  destruct (characters s) as [|[|d g] gs] eqn:E.
  - simpl. now rewrite firstn_nil.
  - destruct n as [|n]; [reflexivity|].
    specialize (IH (S n)). simpl in IH |- *.
    change (String c EmptyString +:+ ?x) with (String c x).
    rewrite characters_cons, IH. reflexivity.
  - destruct (is_continuation d) eqn:Ed.
    + specialize (IH (S n)). simpl in IH |- *.
      change (String c (String d g) +:+ ?x) with (String c (String d g +:+ x)).
      rewrite characters_cons, IH, Ed. reflexivity.
    + destruct n as [|n]; [reflexivity|].
      specialize (IH (S n)). simpl in IH |- *.
      change (String c EmptyString +:+ ?x) with (String c x).
      rewrite characters_cons, IH, Ed. reflexivity.
Qed.

(** Characters that do not begin with a continuation byte stay characters of
    their own behind any text. *)
Lemma characters_app a b d :
  is_continuation d = false ->
  characters (a +:+ String d b) = characters a ++ characters (String d b).
Proof.
  intros Hd. induction a as [|c a IH]; [reflexivity|].
  change (String c a +:+ String d b) with (String c (a +:+ String d b)).
  rewrite !characters_cons, IH.
  destruct (characters a) as [|[|e g] gs] eqn:E; simpl; [|reflexivity|].
  - rewrite characters_cons.
    destruct (characters b) as [|[|e g] gs]; simpl; rewrite ?Hd; try reflexivity.
    destruct (is_continuation e); simpl; now rewrite Hd.
  - destruct (is_continuation e); reflexivity.
Qed.

(** X11. The preview of a docstring in [cmd_find], in characters (a
    character of several bytes counts once and is never cut in two): a
    docstring of at most 80 characters is shown whole; of a longer one the
    first 80 characters are shown, followed by three dots, 83 characters in
    all. *)
Theorem docstring_preview_cut s :
  ((len s <= 80)%nat -> docstring_preview s = s) /\
  ((80 < len s)%nat ->
   exists rest, s = slice_to 80 s +:+ rest /\ rest <> EmptyString /\
                len (slice_to 80 s) = 80%nat /\
                docstring_preview s = slice_to 80 s +:+ "..." /\
                len (docstring_preview s) = 83%nat).
Proof.
  unfold docstring_preview, len, slice_to. split; intros Hlen.
  - assert (H : Nat.ltb 80 (length (characters s)) = false) by (apply Nat.ltb_ge; lia).
    rewrite H, firstn_all2 by lia. apply concat_characters.
  - assert (H : Nat.ltb 80 (length (characters s)) = true) by (apply Nat.ltb_lt; lia).
    rewrite H.
    assert (H80 : length (characters (concat_strings (firstn 80 (characters s))))
                  = 80%nat).
    { rewrite characters_prefix, length_firstn. lia. }
    exists (concat_strings (skipn 80 (characters s))). split; [|split; [|split; [|split]]].
    + now rewrite <- concat_strings_app, firstn_skipn, concat_characters.
    + pose proof (characters_nonempty s) as Hne.
      rewrite <- (firstn_skipn 80 (characters s)) in Hne.
      apply Forall_app in Hne as [_ Hne].
      destruct (skipn 80 (characters s)) as [|g gs] eqn:E.
      * apply (f_equal (@length string)) in E. rewrite length_skipn in E.
        simpl in E. lia.
      * inversion Hne as [|? ? Hg _]; subst. simpl.
        destruct g as [|x g]; [contradiction | discriminate].
    + exact H80.
    + reflexivity.
    + rewrite (characters_app _ ".." "."%char) by reflexivity.
      rewrite length_app, H80. reflexivity.
Qed.

(** Fifty times the letter e with an acute accent, two bytes each: a
    docstring of a hundred bytes and fifty characters is shown whole. *)
Example docstring_preview_accents :
  let s := concat_strings (repeat e_acute 50) in
  String.length s = 100%nat /\ len s = 50%nat /\ docstring_preview s = s.
Proof. vm_compute. auto. Qed.

(** The columns [cmd_find] prints hold a text or NULL in a row that fits the
    schema. *)
Lemma text_field_stored row key :
  row_fits code_elements_columns row = true ->
  In key similar_columns ->
  exists o, text_field (projection (stored_row code_elements_columns row)) key = inr o.
Proof.
  intros Hfit Hkey. unfold row_fits in Hfit.
  apply andb_true_iff in Hfit as [Hfit _]. rewrite forallb_forall in Hfit.
  assert (Hcol : forall v, dict_get key row = Some v ->
                           v = VNull \/ exists s, v = VText s).
  { intros v Hget. apply dict_get_In in Hget. specialize (Hfit _ Hget).
    unfold assignable in Hfit. simpl in Hkey.
    destruct Hkey as [<-|[<-|[<-|[<-|[<-|[]]]]]]; simpl in Hfit;
      unfold accepts in Hfit; simpl in Hfit; destruct v; try discriminate; eauto. }
  assert (Hget : dict_get key (projection (stored_row code_elements_columns row))
                 = Some (default VNull (dict_get key row))).
  { simpl in Hkey. destruct Hkey as [<-|[<-|[<-|[<-|[<-|[]]]]]]; reflexivity. }
  unfold text_field. rewrite Hget.
  destruct (dict_get key row) as [v|]; simpl; [|eauto].
  destruct (Hcol v eq_refl) as [->|[s ->]]; eauto.
Qed.

Section FindFacts.
Variable index_scan : bool.
Variable list_of : vector -> nat.
Variable generate_embedding : string -> option vector.
Variable format_score : Float -> string.

Lemma print_found_ok rows i element score w :
  found_in rows (element, score) ->
  exists w' lines,
    print_found format_score i element score w = (w', inr tt) /\
    database w' = database w /\
    stdout w' = stdout w ++ lines /\
    (5 <= length lines <= 6)%nat.
Proof.
  intros (row & _ & Hfit & Hel). cbn [fst] in Hel. subst element.
  destruct (text_field_stored row "element_name" Hfit) as [o1 H1]; [simpl; tauto|].
  destruct (text_field_stored row "file_path" Hfit) as [o2 H2]; [simpl; tauto|].
  destruct (text_field_stored row "element_type" Hfit) as [o3 H3]; [simpl; tauto|].
  destruct (text_field_stored row "signature" Hfit) as [o4 H4]; [simpl; tauto|].
  destruct (text_field_stored row "docstring" Hfit) as [o5 H5]; [simpl; tauto|].
  unfold print_found, st_bind, lift, print. rewrite H1. cbn [database stdout].
  rewrite H2. cbn [database stdout]. rewrite H3. cbn [database stdout].
  rewrite H4. cbn [database stdout]. rewrite H5. cbn [database stdout].
  destruct o5 as [[|c s]|]; unfold st_ret; cbn [database stdout];
    eexists; eexists; (split; [reflexivity|]); (split; [reflexivity|]);
    cbn [stdout]; rewrite <- !app_assoc; (split; [reflexivity|]); simpl; lia.
Qed.

Lemma print_all_found_ok rows results : forall i w,
  Forall (found_in rows) results ->
  exists w' lines,
    print_all_found format_score i results w = (w', inr tt) /\
    database w' = database w /\
    stdout w' = stdout w ++ lines /\
    (5 * length results <= length lines <= 6 * length results)%nat.
Proof.
  induction results as [|[element score] results IH]; intros i w Hall.
  - exists w, []. simpl. unfold st_ret. rewrite app_nil_r. repeat split; lia.
  - inversion Hall as [|? ? Hres Hrest]; subst.
    destruct (print_found_ok rows i element score w Hres)
      as (w1 & lines1 & Hrun1 & Hdb1 & Hout1 & Hlen1).
    destruct (IH (S i) w1 Hrest) as (w2 & lines2 & Hrun2 & Hdb2 & Hout2 & Hlen2).
    exists w2, (lines1 ++ lines2). cbn [print_all_found]. unfold st_bind.
    rewrite Hrun1, Hrun2. split; [reflexivity|]. split; [congruence|].
    split; [now rewrite Hout2, Hout1, app_assoc|].
    rewrite length_app. cbn [length]. lia.
Qed.

(** X12. When the provider gives no embedding for the query, [cmd_find] has
    already initialised the schema: on a database without the table it
    leaves the empty table and its index behind, and prints the failure
    line only. *)
Theorem cmd_find_embedding_failure args w :
  relations (database w) !! "code_elements" = None ->
  "vector" ∈ extensions (database w) \/ "vector" ∈ installable (database w) ->
  truthy_vector (generate_embedding (query args)) = None ->
  exists w',
    cmd_find index_scan list_of generate_embedding format_score args w = (w', inr tt) /\
    stdout w' = stdout w ++ ["Failed to generate embedding for query"] /\
    schema_ready (database w') [].
Proof.
  intros Hnone Hext Hfail.
  destruct (VectorDB_fresh (database w) Hnone Hext) as (db' & Hinit & Hready).
  unfold cmd_find. unfold st_bind at 1, on_database at 1. rewrite Hinit, Hfail.
  unfold print. cbn [database stdout]. eexists. split; [reflexivity|].
  split; [reflexivity | exact Hready].
Qed.

(** X13. On a database with the schema, a query embedding of 1536 components
    and a limit that is not negative, [cmd_find] does not raise and leaves
    the database as it was.  It reports what [search_similar] finds, which is
    at most what the limit allows among the rows with an embedding, and
    exactly that when the store scans the table: if nothing is found, it
    prints [No results found]; else the header with the number of results
    and the rule of 80 dashes, then five or six lines per result. *)
Theorem cmd_find_reports args w rows q :
  schema_ready (database w) rows ->
  truthy_vector (generate_embedding (query args)) = Some q ->
  length q = 1536%nat -> (0 <= limit args)%Z ->
  exists w' results,
    search_similar index_scan list_of q (limit args) (database w)
      = (database w, inr results) /\
    (length results
     <= Nat.min (Z.to_nat (limit args)) (length (List.filter has_embedding rows)))%nat /\
    (index_scan = false ->
     length results =
       Nat.min (Z.to_nat (limit args)) (length (List.filter has_embedding rows))) /\
    cmd_find index_scan list_of generate_embedding format_score args w = (w', inr tt) /\
    database w' = database w /\
    if Nat.eqb (length results) 0 then stdout w' = stdout w ++ ["No results found"]
    else exists lines,
      stdout w' = stdout w
                  ++ [nl +:+ "Found " +:+ pretty (length results) +:+ " results:";
                      replicate_char "-" 80]
                  ++ lines /\
      (5 * length results <= length lines <= 6 * length results)%nat.
Proof.
  intros Hready Hq Hlen Hlimit. pose proof Hready as (_ & Hdb & _).
  pose proof (search_similar_sound index_scan list_of _ rows q (limit args)
                Hdb Hlen Hlimit) as Hsearch.
  pose proof (similar_results_length index_scan list_of q (limit args) rows) as Hn.
  pose proof (searched_length index_scan list_of q rows) as Hle.
  pose proof (similar_results_found index_scan list_of q (limit args) rows (proj2 Hdb))
    as Hfound.
  assert (Hexact : index_scan = false ->
            length (similar_results index_scan list_of q (limit args) rows) =
            Nat.min (Z.to_nat (limit args)) (length (List.filter has_embedding rows))).
  { intros E. rewrite Hn, E. reflexivity. }
  unfold cmd_find. unfold st_bind at 1, on_database at 1.
  rewrite (VectorDB_ready _ _ Hready), Hq. cbn [database stdout].
  unfold st_bind at 1, on_database at 1. cbn [database stdout].
  rewrite Hsearch.
  destruct (similar_results index_scan list_of q (limit args) rows)
    as [|res results] eqn:Hres.
  - unfold print. cbn [database stdout Nat.eqb length].
    eexists. exists []. split; [reflexivity|]. split; [simpl; lia|].
    split; [exact Hexact|]. split; [reflexivity|]. split; reflexivity.
  - unfold st_bind, print. cbn [database stdout]. unfold ret. cbv iota.
    set (w2 := {| database := database w; stdout := _ |}).
    destruct (print_all_found_ok rows (res :: results) 1%nat w2 Hfound)
      as (w3 & lines & Hrun & Hdb3 & Hout3 & Hlines).
    exists w3, (res :: results). split; [reflexivity|]. split; [lia|].
    split; [exact Hexact|]. split; [exact Hrun|]. split; [exact Hdb3|].
    cbn [length Nat.eqb].
    exists lines. split; [|exact Hlines].
    rewrite Hout3. subst w2. cbn [stdout]. now rewrite <- !app_assoc.
Qed.

(** X14. A negative [--limit] reaches the store, which refuses it: [cmd_find]
    raises the store's error and prints nothing. *)
Theorem cmd_find_negative_limit args w rows q :
  schema_ready (database w) rows ->
  truthy_vector (generate_embedding (query args)) = Some q ->
  (limit args < 0)%Z ->
  exists w',
    cmd_find index_scan list_of generate_embedding format_score args w =
      (w', inl (DatabaseError "LIMIT must not be negative")) /\
    database w' = database w /\ stdout w' = stdout w.
Proof.
  intros Hready Hq Hlimit. pose proof Hready as (_ & [Hrel _] & _).
  assert (Hne : exists x v, q = x :: v).
  { destruct (generate_embedding (query args)) as [[|x v]|]; try discriminate.
    injection Hq as <-. eauto. }
  destruct Hne as (x & v & ->).
  unfold cmd_find. unfold st_bind at 1, on_database at 1.
  rewrite (VectorDB_ready _ _ Hready), Hq. cbn [database stdout].
  unfold st_bind, on_database, search_similar, select_similar, st_bind.
  cbn [database stdout]. rewrite Hrel.
  replace (has_columns ("embedding" :: similar_columns) code_elements_columns)
    with true by reflexivity.
  apply Z.ltb_lt in Hlimit. cbn [param_vector bind ret]. rewrite Hlimit. cbn.
  eexists. split; [reflexivity|]. split; reflexivity.
Qed.
End FindFacts.

(** ** [ProductionDB] *)

(** X15. [search_messages] always sends a time bound of its own when the
    table has a time column: the hours given, or 168; the [default_hours]
    of the table entry is never used.  The limit left out is 10. *)
Theorem search_messages_time_bound self tc col q limit hours :
  dict_get "messages" (default [] (tables (config self))) = Some tc ->
  well_formed tc = true ->
  truthy_str (time_column (filters_of tc)) = Some col ->
  exists stmt rest,
    executed (search_messages self q limit hours) =
      [(query_text stmt,
        PVector q :: PInt (default 168 hours)
          :: map snd rest ++ [PVector q; PInt (default 10 limit)])] /\
    where_conditions stmt =
      EmbeddingNotNull (alias_of tc) (default EmptyString (embedding_column tc))
        :: TimeWithin (alias_of tc) col :: map fst rest.
Proof.
  intros Hget Hwf Hcol. unfold search_messages.
  destruct (build_query_ok tc q (default 10 limit) (Some (default 168 hours)) None Hwf)
    as (t & e & c & stmt & _ & He & _ & Hb & _ & Hwhere & _).
  destruct (optional_conditions_time tc (Some (default 168 hours)) None col Hcol)
    as (rest & Hopt).
  rewrite (search_found self "messages" tc q _ _ _ stmt _ Hget Hb).
  exists stmt, rest. cbn [executed]. rewrite Hwhere, Hopt, He. split; reflexivity.
Qed.

(** X16. [search_facts] always sends a confidence bound of its own when the
    table has a confidence column: the one given, or 0.6; the
    [default_min_confidence] of the table entry is never used. *)
Theorem search_facts_confidence_bound self tc col q limit min_confidence :
  dict_get "facts" (default [] (tables (config self))) = Some tc ->
  well_formed tc = true ->
  truthy_str (confidence_column (filters_of tc)) = Some col ->
  exists stmt front,
    executed (search_facts self q limit min_confidence) =
      [(query_text stmt,
        PVector q :: map snd front
          ++ [PFloat (default (6 / 10)%R min_confidence);
              PVector q; PInt (default 10 limit)])] /\
    where_conditions stmt =
      EmbeddingNotNull (alias_of tc) (default EmptyString (embedding_column tc))
        :: map fst front ++ [ConfidenceAtLeast (alias_of tc) col].
Proof.
  intros Hget Hwf Hcol. unfold search_facts.
  destruct (build_query_ok tc q (default 10 limit) None
              (Some (default (6 / 10)%R min_confidence)) Hwf)
    as (t & e & c & stmt & _ & He & _ & Hb & _ & Hwhere & _).
  destruct (optional_conditions_confidence tc None
              (Some (default (6 / 10)%R min_confidence)) col Hcol)
    as (front & Hopt).
  rewrite (search_found self "facts" tc q _ _ _ stmt _ Hget Hb).
  exists stmt, front. cbn [executed]. rewrite Hwhere, Hopt, He, !map_app.
  cbn [map fst snd effective_confidence]. rewrite <- app_assoc. split; reflexivity.
Qed.

(** ** The configuration file and the connection *)

Section FilesFacts.
Variable path_exists : string -> bool.
Variable safe_load : string -> Result Document.
Variable skill_tables_yaml : string.
Variable connect : ConnectArguments -> Result Connection.

Local Abbreviation load := (load_table_config path_exists safe_load skill_tables_yaml).
Local Abbreviation new_search :=
  (new_ConfigurableTableSearch path_exists safe_load skill_tables_yaml connect).

(** X17. Without a path [load_table_config] answers as for the Docker mount
    [/app/tables.yaml] if that file exists, and as for the file of the skill
    directory otherwise: when the mount is there the other file is not
    looked at, even if reading the mount raises. *)
Theorem load_table_config_candidates :
  load_table_config path_exists safe_load skill_tables_yaml None =
    if path_exists "/app/tables.yaml"
    then load_table_config path_exists safe_load skill_tables_yaml
           (Some "/app/tables.yaml")
    else load_table_config path_exists safe_load skill_tables_yaml
           (Some skill_tables_yaml).
Proof.
  unfold load_table_config, candidates. cbn [List.find].
  destruct (path_exists "/app/tables.yaml") eqn:Happ; [reflexivity|].
  unfold load_path.
  destruct (path_exists skill_tables_yaml) eqn:Hskill; now rewrite ?Hskill.
Qed.

Lemma load_path_nothing p :
  path_exists p = false \/ safe_load p = inr Falsy ->
  load_path path_exists safe_load p = inr empty_config.
Proof.
  unfold load_path. intros [H|H].
  - now rewrite H.
  - rewrite H. now destruct (path_exists p).
Qed.

Lemma load_nothing config_path :
  (forall p, In p (consulted skill_tables_yaml config_path) ->
             path_exists p = false \/ safe_load p = inr Falsy) ->
  load config_path = inr empty_config.
Proof.
  intros H. destruct config_path as [p|]; simpl.
  - apply load_path_nothing, H. now left.
  - unfold candidates. cbn [List.find].
    destruct (path_exists "/app/tables.yaml");
      [apply load_path_nothing, H; simpl; tauto|].
    destruct (path_exists skill_tables_yaml);
      [apply load_path_nothing, H; simpl; tauto | reflexivity].
Qed.

(** X18. When no configuration file is found, or the one found holds an empty
    document, a [ConfigurableTableSearch] can still be made, and each of its
    searches raises the error of an unknown table, listing no table, without
    sending anything to the store. *)
Theorem search_without_configuration config_path environ self table_name q limit h m :
  (forall p, In p (consulted skill_tables_yaml config_path) ->
             path_exists p = false \/ safe_load p = inr Falsy) ->
  new_search config_path environ = inr self ->
  get_available_tables self = [] /\
  search self table_name q limit h m =
    {| executed := [];
       outcome := inl (ValueError ("Table '" +:+ table_name
                                   +:+ "' not configured. Available: []")) |}.
Proof.
  intros Hnone Hnew. unfold new_ConfigurableTableSearch in Hnew.
  rewrite (load_nothing config_path Hnone) in Hnew. simpl in Hnew.
  destruct (_connect connect environ) as [e|c]; simpl in Hnew; [discriminate|].
  injection Hnew as <-. split; reflexivity.
Qed.
End FilesFacts.

Lemma truthy_str_None o : truthy_str o = None <-> o = None \/ o = Some EmptyString.
Proof.
  destruct o as [[|c s]|]; simpl; split; intros H; auto; try discriminate.
  destruct H; discriminate.
Qed.

Section ConnectFacts.
Variable connect : ConnectArguments -> Result Connection.

(** X19. [_connect] raises its [ValueError] exactly when one of the four
    variables [PROD_PGHOST], [PROD_PGDATABASE], [PROD_PGUSER],
    [PROD_PGPASSWORD] is unset or empty (given that the driver does not
    raise that very error). *)
Theorem connect_needs_credentials environ :
  (forall args, connect args <> inl (ValueError credentials_message)) ->
  _connect connect environ = inl (ValueError credentials_message) <->
  exists name, In name credential_variables /\
               (environ !! name = None \/ environ !! name = Some EmptyString).
Proof.
  intros Hdriver. unfold _connect, credential_variables. split.
  - intros H.
    destruct (truthy_str (environ !! "PROD_PGHOST")) eqn:H1;
      [|exists "PROD_PGHOST"; split; [simpl; tauto | now apply truthy_str_None]].
    destruct (truthy_str (environ !! "PROD_PGDATABASE")) eqn:H2;
      [|exists "PROD_PGDATABASE"; split; [simpl; tauto | now apply truthy_str_None]].
    destruct (truthy_str (environ !! "PROD_PGUSER")) eqn:H3;
      [|exists "PROD_PGUSER"; split; [simpl; tauto | now apply truthy_str_None]].
    destruct (truthy_str (environ !! "PROD_PGPASSWORD")) eqn:H4;
      [|exists "PROD_PGPASSWORD"; split; [simpl; tauto | now apply truthy_str_None]].
    now apply Hdriver in H.
  - intros (name & Hin & Hname). apply truthy_str_None in Hname.
    simpl in Hin. destruct Hin as [<-|[<-|[<-|[<-|[]]]]]; rewrite Hname;
      repeat (destruct (truthy_str _)); reflexivity.
Qed.

(** X20. With the four credentials set and not empty, [_connect] calls the
    driver with them, with the port of [PROD_PGPORT], or 5432 when that is
    not set, and with the SSL mode of [PROD_PGSSLMODE], or [require] when
    that is not set; what the driver answers is what [_connect] answers.
    (What else the driver reads on its own is not part of this.) *)
Theorem connect_reads_prefixed_variables environ h d u p :
  environ !! "PROD_PGHOST" = Some h -> h <> EmptyString ->
  environ !! "PROD_PGDATABASE" = Some d -> d <> EmptyString ->
  environ !! "PROD_PGUSER" = Some u -> u <> EmptyString ->
  environ !! "PROD_PGPASSWORD" = Some p -> p <> EmptyString ->
  _connect connect environ =
    connect {| host := h;
               port := default "5432" (environ !! "PROD_PGPORT");
               dbname := d; user := u; password := p;
               sslmode := default "require" (environ !! "PROD_PGSSLMODE") |}.
Proof.
  intros Hh Hh' Hd Hd' Hu Hu' Hp Hp'. unfold _connect.
  rewrite Hh, Hd, Hu, Hp.
  destruct h; [contradiction|]. destruct d; [contradiction|].
  destruct u; [contradiction|]. destruct p; [contradiction|]. reflexivity.
Qed.
End ConnectFacts.

(** ** The sample index *)

Lemma ready_database_ready : schema_ready ready_database [].
Proof.
  split; [|split; [split|]].
  - vm_compute. reflexivity.
  - vm_compute. reflexivity.
  - constructor.
  - vm_compute. eauto.
Qed.

Lemma sample_index_ready : schema_ready sample_index sample_rows.
Proof.
  split; [|split; [split|]].
  - vm_compute. reflexivity.
  - vm_compute. reflexivity.
  - constructor; [vm_compute; reflexivity | constructor].
  - vm_compute. eauto.
Qed.

(** X21. [VectorDB()] on a database without the table, where the extension is
    created or can be: the extension, the empty table and its index are
    there afterwards, and a second [VectorDB()] changes nothing.  On a
    database that has them all, [VectorDB()] keeps the rows. *)
Theorem VectorDB_establishes_schema db :
  relations db !! "code_elements" = None ->
  "vector" ∈ extensions db \/ "vector" ∈ installable db ->
  (exists db', VectorDB db = (db', inr tt) /\ schema_ready db' [] /\
               VectorDB db' = (db', inr tt)) /\
  (forall other rows, schema_ready other rows -> VectorDB other = (other, inr tt)).
Proof.
  intros Hnone Hext. split.
  - destruct (VectorDB_fresh db Hnone Hext) as (db' & Hrun & Hready).
    exists db'. split; [exact Hrun|]. split; [exact Hready|].
    exact (VectorDB_ready db' [] Hready).
  - intros other rows. apply VectorDB_ready.
Qed.

Lemma VectorDB_unavailable db :
  "vector" ∉ extensions db -> "vector" ∉ installable db ->
  VectorDB db = (db, inl (DatabaseError "extension vector is not available")).
Proof.
  intros He Hi. unfold VectorDB, _ensure_schema, st_bind, create_extension_if_not_exists.
  rewrite decide_False by exact He. rewrite decide_False by exact Hi. reflexivity.
Qed.

Section CommandsFacts.
Variable find_python_files : string -> list string.
Variable create_searchable_text : string -> string -> string -> string.
Variable generate_embedding : string -> option vector.
Variable extract_code_elements : string -> list Element.
Variable index_scan : bool.
Variable list_of : vector -> nat.
Variable format_score : Float -> string.

(** X22. On a server without pgvector every command of the code index stops
    at [VectorDB()] with the store's error: [cmd_index] has printed its
    first line only, [cmd_find] has not asked for an embedding and, like
    [cmd_stats], has printed nothing; the database is as before. *)
Theorem commands_need_the_extension args find_args w :
  "vector" ∉ extensions (database w) -> "vector" ∉ installable (database w) ->
  cmd_index find_python_files create_searchable_text generate_embedding
    extract_code_elements args w =
    ({| database := database w;
        stdout := stdout w ++ ["Indexing Python files in " +:+ directory args +:+ "..."] |},
     inl (DatabaseError "extension vector is not available")) /\
  cmd_find index_scan list_of generate_embedding format_score find_args w =
    (w, inl (DatabaseError "extension vector is not available")) /\
  cmd_stats w = (w, inl (DatabaseError "extension vector is not available")).
Proof.
  intros He Hi. pose proof (VectorDB_unavailable _ He Hi) as Hno.
  split; [|split].
  - unfold cmd_index. unfold st_bind at 1, print at 1.
    unfold st_bind at 1, on_database at 1. cbn [database stdout]. now rewrite Hno.
  - unfold cmd_find. unfold st_bind at 1, on_database at 1. rewrite Hno.
    now destruct w.
  - unfold cmd_stats. unfold st_bind at 1, on_database at 1. rewrite Hno.
    now destruct w.
Qed.
End CommandsFacts.

(** ** The properties above on the sample index *)

Lemma dot_ones_positive n : (0 < dot (repeat 1%R (S n)) (repeat 1%R (S n)))%R.
Proof.
  cbn [repeat dot]. pose proof (dot_self_nonneg (repeat 1%R n)). lra.
Qed.

Lemma sample_units_embed_well :
  Forall (embeds_well sample_text sample_provider) [unit_f; unit_g].
Proof.
  constructor; [|constructor; [|constructor]]; intros v.
  - change (embedding_of sample_provider sample_text unit_f) with (Some ones).
    intros H. injection H as <-. vm_compute. reflexivity.
  - change (embedding_of sample_provider sample_text unit_g) with (@None vector).
    discriminate.
Qed.

Lemma search_similar_returns_witness :
  exists results,
    search_similar false one_list ones 5 sample_index = (sample_index, inr results) /\
    length results = 1%nat /\
    nan_last (scores results).
Proof.
  destruct (search_similar_returns false one_list sample_index sample_rows ones 5)
    as (results & Hrun & _ & Hlen & _ & Hnan & _).
  - apply sample_index_ready.
  - vm_compute. reflexivity.
  - lia.
  - exists results. split; [exact Hrun|]. split; [exact (Hlen eq_refl) | exact Hnan].
Defined.

(** The index at work: with the stored vector in one list and the query
    vector in another, the scan of the index finds nothing where the scan of
    the table finds the row. *)
Example index_scan_may_miss :
  search_similar true by_sign (repeat (-1)%R 1536) 5 sample_index
  = (sample_index, inr []) /\
  exists results,
    search_similar false by_sign (repeat (-1)%R 1536) 5 sample_index
    = (sample_index, inr results) /\
    length results = 1%nat.
Proof.
  assert (Hq : length (repeat (-1)%R 1536) = 1536%nat) by apply repeat_length.
  split.
  - rewrite (search_similar_sound true by_sign sample_index sample_rows _ 5
               (proj1 (proj2 sample_index_ready)) Hq ltac:(lia)).
    unfold similar_results, searched, sample_rows. cbn [List.filter].
    replace (in_list by_sign (repeat (-1)%R 1536) (element_row sample_text unit_f ones))
      with false; [reflexivity|].
    unfold in_list.
    replace (row_vector (element_row sample_text unit_f ones)) with ones by reflexivity.
    change ones with (1%R :: repeat 1%R 1535).
    change (repeat (-1)%R 1536) with ((-1)%R :: repeat (-1)%R 1535).
    unfold by_sign.
    destruct (Rlt_dec 1 0) as [H|_]; [lra|].
    destruct (Rlt_dec (-1) 0) as [_|H]; [|lra].
    now rewrite andb_false_r.
  - eexists. split.
    + apply (search_similar_sound false by_sign sample_index sample_rows _ 5
               (proj1 (proj2 sample_index_ready)) Hq ltac:(lia)).
    + rewrite similar_results_length. reflexivity.
Qed.

Lemma insert_then_search_similar_witness :
  exists db' results,
    insert sample_text "a.py" "f" "function" "def f()" "adds" ones ready_database
      = (db', inr tt) /\
    search_similar true one_list ones 5 db' = (db', inr results) /\
    In (element_display unit_f, Finite 1) results.
Proof.
  destruct (insert_then_search_similar true one_list sample_text ready_database []
              unit_f ones 5)
    as (db' & results & Hins & Hrun & Hin & _).
  - apply ready_database_ready.
  - vm_compute. reflexivity.
  - apply (dot_ones_positive 1535).
  - simpl. lia.
  - exists db', results. split; [exact Hins|]. split; [exact Hrun | exact Hin].
Defined.

Lemma insert_wrong_dimension_witness :
  insert sample_text "a.py" "g" "function" "def g()" "subtracts" [1%R; 0%R]
    ready_database
  = (ready_database, inl (DatabaseError "insert rejected")).
Proof.
  apply (insert_wrong_dimension sample_text ready_database []).
  - vm_compute. reflexivity.
  - simpl. lia.
Defined.

Lemma clear_all_empties_witness :
  exists db',
    clear_all sample_index = (db', inr tt) /\
    search_similar true one_list ones 5 db' = (db', inr []).
Proof.
  destruct (clear_all_empties true one_list sample_index sample_rows ones 5)
    as (db' & Hclear & Hrun & _).
  - apply sample_index_ready.
  - vm_compute. reflexivity.
  - lia.
  - exists db'. split; [exact Hclear | exact Hrun].
Defined.

Lemma sample_index_stats : stats sample_index = (sample_index, inr sample_stats).
Proof. vm_compute. reflexivity. Qed.

Lemma stats_counts_consistent_witness :
  (functions sample_stats + classes sample_stats <= total_elements sample_stats)%nat /\
  (unique_files sample_stats <= total_elements sample_stats)%nat.
Proof.
  apply (stats_counts_consistent sample_index sample_index sample_stats).
  vm_compute. reflexivity.
Defined.

Lemma stats_after_insert_witness :
  exists db',
    insert sample_text "a.py" "g" "function" "def g()" "subtracts" ones sample_index
      = (db', inr tt) /\
    stats db' = (db', inr {| total_elements := 2; functions := 2; classes := 0;
                             unique_files := 1 |}).
Proof.
  destruct (stats_after_insert sample_text sample_index sample_rows unit_g ones
              sample_stats) as (db' & Hins & Hstats).
  - apply sample_index_ready.
  - vm_compute. reflexivity.
  - vm_compute. reflexivity.
  - exists db'. split; [exact Hins | exact Hstats].
Defined.

Lemma VectorDB_establishes_schema_witness :
  exists db', VectorDB fresh_database = (db', inr tt) /\ schema_ready db' [].
Proof.
  destruct (VectorDB_establishes_schema fresh_database)
    as [(db' & Hrun & Hready & _) _].
  - vm_compute. reflexivity.
  - right. vm_compute. reflexivity.
  - exists db'. split; [exact Hrun | exact Hready].
Defined.

Lemma cmd_index_output_witness :
  exists w1,
    cmd_index (fun _ => ["a.py"]) sample_text sample_provider
      (fun _ => [unit_f; unit_g]) sample_args ready_world = (w1, inr tt) /\
    stdout w1 = ["Indexing Python files in src..."; "Processing a.py...";
                 "Indexed 1 elements from 1 files"] /\
    index_holds (database w1) sample_rows.
Proof.
  destruct (cmd_index_output (fun _ => ["a.py"]) sample_text sample_provider
              (fun _ => [unit_f; unit_g]) sample_args ready_world [])
    as (w1 & Hrun & Hout & Hrows).
  - apply ready_database_ready.
  - simpl. apply sample_units_embed_well.
  - exists w1. split; [exact Hrun|]. split; [exact Hout | exact Hrows].
Defined.

Lemma cmd_index_twice_witness :
  exists w1 w2,
    cmd_index (fun _ => ["a.py"]) sample_text sample_provider
      (fun _ => [unit_f; unit_g]) sample_args ready_world = (w1, inr tt) /\
    cmd_index (fun _ => ["a.py"]) sample_text sample_provider
      (fun _ => [unit_f; unit_g]) sample_args w1 = (w2, inr tt) /\
    index_holds (database w2) (sample_rows ++ sample_rows).
Proof.
  destruct (cmd_index_twice (fun _ => ["a.py"]) sample_text sample_provider
              (fun _ => [unit_f; unit_g]) sample_args ready_world [])
    as (w1 & w2 & Hrun1 & Hrun2 & _ & Hrows).
  - apply ready_database_ready.
  - simpl. apply sample_units_embed_well.
  - exists w1, w2. split; [exact Hrun1|]. split; [exact Hrun2 | exact Hrows].
Defined.

Lemma cmd_index_then_cmd_stats_witness :
  exists w1 w2 s,
    cmd_index (fun _ => ["a.py"]) sample_text sample_provider
      (fun _ => [unit_f; unit_g]) sample_args sample_world = (w1, inr tt) /\
    cmd_stats w1 = (w2, inr tt) /\
    stdout w2 = stdout w1 ++ stats_lines s /\
    total_elements s = 2%nat.
Proof.
  destruct (cmd_index_then_cmd_stats (fun _ => ["a.py"]) sample_text sample_provider
              (fun _ => [unit_f; unit_g]) sample_args sample_world sample_rows)
    as (w1 & w2 & s & Hrun & Hstats & _ & _ & Hout & Htotal).
  - apply sample_index_ready.
  - simpl. apply sample_units_embed_well.
  - exists w1, w2, s. split; [exact Hrun|]. split; [exact Hstats|].
    split; [exact Hout | exact Htotal].
Defined.

Lemma cmd_index_stops_at_refused_insert_witness :
  exists w1,
    cmd_index (fun _ => ["a.py"]) sample_text short_provider
      (fun _ => [unit_f; unit_g]) sample_args ready_world
      = (w1, inl (DatabaseError "insert rejected")) /\
    stdout w1 = ["Indexing Python files in src..."; "Processing a.py..."] /\
    index_holds (database w1) sample_rows.
Proof.
  destruct (cmd_index_stops_at_refused_insert (fun _ => ["a.py"]) sample_text
              short_provider (fun _ => [unit_f; unit_g]) sample_args ready_world
              [] [] "a.py" [] [unit_f] unit_g [] [1%R; 0%R])
    as (w1 & Hrun & Hout & Hrows).
  - apply ready_database_ready.
  - reflexivity.
  - constructor.
  - reflexivity.
  - constructor; [|constructor]. intros v.
    change (embedding_of short_provider sample_text unit_f) with (Some ones).
    intros H. injection H as <-. vm_compute. reflexivity.
  - reflexivity.
  - simpl. lia.
  - exists w1. split; [exact Hrun|]. split; [exact Hout | exact Hrows].
Defined.

Lemma cmd_find_embedding_failure_witness :
  exists w',
    cmd_find true one_list sample_provider three_decimals
      {| query := "subtract"; limit := 5 |}
      {| database := fresh_database; stdout := [] |} = (w', inr tt) /\
    stdout w' = ["Failed to generate embedding for query"] /\
    schema_ready (database w') [].
Proof.
  apply (cmd_find_embedding_failure true one_list sample_provider three_decimals
           {| query := "subtract"; limit := 5 |}
           {| database := fresh_database; stdout := [] |}).
  - vm_compute. reflexivity.
  - right. vm_compute. reflexivity.
  - reflexivity.
Defined.

Lemma cmd_find_reports_witness :
  exists w' lines,
    cmd_find false one_list sample_provider three_decimals
      {| query := "f"; limit := 5 |} sample_world = (w', inr tt) /\
    stdout w' = [nl +:+ "Found 1 results:"; replicate_char "-" 80] ++ lines /\
    (5 <= length lines <= 6)%nat.
Proof.
  destruct (cmd_find_reports false one_list sample_provider three_decimals
              {| query := "f"; limit := 5 |} sample_world sample_rows ones)
    as (w' & results & _ & _ & Hlen & Hrun & _ & Hout).
  - apply sample_index_ready.
  - reflexivity.
  - vm_compute. reflexivity.
  - simpl. lia.
  - specialize (Hlen eq_refl).
    change (length results = 1%nat) in Hlen. rewrite Hlen in Hout.
    cbn [Nat.eqb] in Hout. destruct Hout as (lines & Hout & Hlines).
    exists w', lines. split; [exact Hrun|]. split; [exact Hout | lia].
Defined.

Lemma cmd_find_negative_limit_witness :
  exists w',
    cmd_find true one_list sample_provider three_decimals
      {| query := "f"; limit := -1 |} sample_world
      = (w', inl (DatabaseError "LIMIT must not be negative")) /\
    stdout w' = [].
Proof.
  destruct (cmd_find_negative_limit true one_list sample_provider three_decimals
              {| query := "f"; limit := -1 |} sample_world sample_rows ones)
    as (w' & Hrun & _ & Hout).
  - apply sample_index_ready.
  - reflexivity.
  - simpl. lia.
  - exists w'. split; [exact Hrun | exact Hout].
Defined.

Lemma search_messages_time_bound_witness :
  exists stmt (rest : list (Condition * Param)),
    executed (search_messages (sample_search []) [1%R; 0%R] None None) =
      [(query_text stmt,
        PVector [1%R; 0%R] :: PInt 168
          :: map snd rest ++ [PVector [1%R; 0%R]; PInt 10])] /\
    default_hours (filters_of messages_table) = Some 24.
Proof.
  destruct (search_messages_time_bound (sample_search []) messages_table "created_at"
              [1%R; 0%R] None None) as (stmt & rest & Hrun & _).
  - reflexivity.
  - reflexivity.
  - reflexivity.
  - exists stmt, rest. split; [exact Hrun | reflexivity].
Defined.

Lemma search_facts_confidence_bound_witness :
  exists stmt (front : list (Condition * Param)),
    executed (search_facts (sample_search []) [1%R; 0%R] None None) =
      [(query_text stmt,
        PVector [1%R; 0%R] :: map snd front
          ++ [PFloat (6 / 10)%R; PVector [1%R; 0%R]; PInt 10])].
Proof.
  destruct (search_facts_confidence_bound (sample_search []) facts_table "confidence"
              [1%R; 0%R] None None) as (stmt & front & Hrun & _).
  - reflexivity.
  - reflexivity.
  - reflexivity.
  - exists stmt, front. exact Hrun.
Defined.

Lemma search_without_configuration_witness :
  search {| conn := pg_connection (sample_store []); config := empty_config |}
         "messages" [1%R; 0%R] 10 None None =
    {| executed := [];
       outcome := inl (ValueError "Table 'messages' not configured. Available: []") |}.
Proof.
  apply (search_without_configuration (fun _ => false) (fun _ => inr Falsy)
           "skill/tables.yaml" sample_connect None sample_environ
           {| conn := pg_connection (sample_store []); config := empty_config |}
           "messages" [1%R; 0%R] 10 None None).
  - intros p _. now left.
  - vm_compute. reflexivity.
Defined.

Lemma connect_needs_credentials_witness :
  _connect sample_connect (delete "PROD_PGUSER" sample_environ)
    = inl (ValueError credentials_message) <->
  exists name, In name credential_variables /\
               (delete "PROD_PGUSER" sample_environ !! name = None \/
                delete "PROD_PGUSER" sample_environ !! name = Some EmptyString).
Proof.
  apply (connect_needs_credentials sample_connect (delete "PROD_PGUSER" sample_environ)).
  intros args. discriminate.
Defined.

Lemma connect_reads_prefixed_variables_witness :
  _connect strict_connect sample_environ = inr (pg_connection (sample_store [])).
Proof.
  rewrite (connect_reads_prefixed_variables strict_connect sample_environ
             "db.example" "prod" "reader" "secret");
    try reflexivity; discriminate.
Defined.

Lemma commands_need_the_extension_witness :
  cmd_stats {| database := bare_database; stdout := [] |} =
    ({| database := bare_database; stdout := [] |},
     inl (DatabaseError "extension vector is not available")).
Proof.
  apply (commands_need_the_extension (fun _ => ["a.py"]) sample_text sample_provider
           (fun _ => [unit_f; unit_g]) true one_list three_decimals sample_args
           {| query := "f"; limit := 5 |}
           {| database := bare_database; stdout := [] |}).
  - simpl. set_solver.
  - simpl. set_solver.
Defined.
